(** * gitslurp: a shallow embedding of [src/gitslurp.py]

    The analyser shells out to git, parses the line-oriented output and
    assembles a flat report.  The library is the one of CPython 3.11
    on Linux with the GNU C library.  Python values are modelled as
    follows:

    - [str] is [string]; every [ascii] stands for one code point below 256;
    - [int] is [Z]; [int(s)] has the interpreter's default limit of 4300
      digits, while [str(n)] and the [json] module are modelled without
      it: they write and read integers of any length;
    - the dictionaries built by the program have a fixed set of keys and
      are records ([details], [commit], [report]);
    - [print], the files written and raised exceptions are threaded
      through the monad [Py];
    - the external process is a function from the argument list and the
      working directory to what the process left behind
      ([CompletedProcess]); the model covers the runs in which the
      executable could be started and its output decoded;
    - a file is written by name on a writable path;
    - the HTTP post is a function from the request to what the library
      calls came to ([Fetched]): a response, a [URLError], or another
      exception. *)

From Stdlib Require Import String Ascii List ZArith Lia Bool Arith DecimalString.
From Stdlib Require Import Sorted Permutation.
From Stdlib Require DecimalPos.
Import ListNotations.
#[local] Open Scope string_scope.
#[local] Open Scope list_scope.

(* ================================================================== *)
(** ** Strings *)

Module PyStr.

(** [str.isspace] on one code point below 256. *)
Definition isspace (c : ascii) : bool :=
  let n := nat_of_ascii c in
  (((9 <=? n) && (n <=? 13)) || ((28 <=? n) && (n <=? 32))
   || (n =? 133) || (n =? 160))%nat.

Fixpoint lstrip_by (p : ascii -> bool) (s : string) : string :=
  match s with
  | "" => ""
  | String c s' => if p c then lstrip_by p s' else s
  end.

Fixpoint rstrip_by (p : ascii -> bool) (s : string) : string :=
  match s with
  | "" => ""
  | String c s' =>
      match rstrip_by p s' with
      | "" => if p c then "" else String c ""
      | r => String c r
      end
  end.

(** [s.strip()] *)
Definition strip (s : string) : string := rstrip_by isspace (lstrip_by isspace s).

(** [s.split(sep)] for a separator of one character: the word before
    the first separator, and the words after it. *)
Fixpoint split_aux (sep : ascii) (s : string) : string * list string :=
  match s with
  | "" => ("", [])
  | String c s' =>
      let (w, ws) := split_aux sep s' in
      if Ascii.eqb c sep then ("", w :: ws) else (String c w, ws)
  end.

Definition split (sep : ascii) (s : string) : list string :=
  let (w, ws) := split_aux sep s in w :: ws.

(** [s[i:]] and [s[:i]] for [0 <= i]. *)
Definition slice_from (i : nat) (s : string) : string :=
  substring i (String.length s - i) s.

Definition slice_to (i : nat) (s : string) : string :=
  substring 0 i s.

(** [s[:-k]] for [0 < k]: the stop index is clipped at 0. *)
Definition drop_last (k : nat) (s : string) : string :=
  slice_to (String.length s - k) s.

(** [s.endswith(suffix)] *)
Definition endswith (s suffix : string) : bool :=
  (String.length suffix <=? String.length s)%nat
  && (slice_from (String.length s - String.length suffix) s =? suffix).

(** [s.rfind(c) + 1]: one past the last occurrence of [c], 0 without one. *)
Fixpoint rfind_succ (c : ascii) (s : string) : nat :=
  match s with
  | "" => 0
  | String a s' =>
      match rfind_succ c s' with
      | 0 => if Ascii.eqb a c then 1 else 0
      | S i => S (S i)
      end
  end.

(** [c * n] *)
Fixpoint replicate (c : ascii) (n : nat) : string :=
  match n with
  | 0 => ""
  | S n' => String c (replicate c n')
  end.

(** [l[-1]] of a list that [split] returned. *)
Definition last_item (l : list string) : string := last l "".

(** [s.zfill(w)] for a string without sign. *)
Definition zfill (w : nat) (s : string) : string :=
  (replicate "0" (w - String.length s) ++ s)%string.

End PyStr.

(** [posixpath.basename] and [posixpath.dirname]. *)
Module OsPath.
Import PyStr.

Definition basename (p : string) : string :=
  let i := rfind_succ "/" p in
  slice_from i p.

Definition dirname (p : string) : string :=
  let i := rfind_succ "/" p in
  let head := slice_to i p in
  if negb (head =? "") && negb (head =? replicate "/" (String.length head))
  then rstrip_by (Ascii.eqb "/") head
  else head.

End OsPath.

(* ================================================================== *)
(** ** Integers read from and written to text *)

Module PyInt.

Definition digit_of (c : ascii) : option Z :=
  let n := nat_of_ascii c in
  if ((48 <=? n) && (n <=? 57))%nat then Some (Z.of_nat (n - 48)) else None.

(** The white space [int] accepts around the literal: the C-locale
    spaces, and the two other spaces below 256, which the conversion
    turns into blanks first. *)
Definition int_space (c : ascii) : bool :=
  let n := nat_of_ascii c in
  (((9 <=? n) && (n <=? 13)) || (n =? 32) || (n =? 133) || (n =? 160))%nat.

(** Digits with single underscores between them.  [prev_digit] tells
    whether the character before was a digit. *)
Fixpoint scan_digits (acc : Z) (prev_digit : bool) (s : string) : option Z :=
  match s with
  | "" => if prev_digit then Some acc else None
  | String c s' =>
      match digit_of c with
      | Some d => scan_digits (10 * acc + d) true s'
      | None =>
          if Ascii.eqb c "_" && prev_digit then scan_digits acc false s'
          else None
      end
  end.

(** The value of a literal in base ten, however long it is. *)
Definition literal (s : string) : option Z :=
  match PyStr.rstrip_by int_space (PyStr.lstrip_by int_space s) with
  | String c r =>
      if Ascii.eqb c "+" then scan_digits 0 false r
      else if Ascii.eqb c "-" then option_map Z.opp (scan_digits 0 false r)
      else scan_digits 0 false (String c r)
  | "" => None
  end.

(** [sys.int_info.default_max_str_digits] *)
Definition MAX_STR_DIGITS : nat := 4300.

Definition is_digit (c : ascii) : bool :=
  match digit_of c with Some _ => true | None => false end.

Fixpoint count_digits (s : string) : nat :=
  match s with
  | "" => 0
  | String c r => (if is_digit c then 1 else 0) + count_digits r
  end.

(** [int(s)] in base ten; [None] stands for [ValueError], which a
    literal of more than 4300 digits raises as well. *)
Definition parse (s : string) : option Z :=
  if (MAX_STR_DIGITS <? count_digits s)%nat then None else literal s.

(** [str(n)], of a number of any length. *)
Definition str (n : Z) : string := NilZero.string_of_int (Z.to_int n).

End PyInt.

(* ================================================================== *)
(** ** Calendar arithmetic of [datetime] *)

Module Datetime.

Record datetime := {
  year : Z; month : Z; day : Z;
  hour : Z; minute : Z; second : Z
}.

Definition DI400Y : Z := 146097.
Definition DI100Y : Z := 36524.
Definition DI4Y : Z := 1461.

Definition DAYS_IN_MONTH : list Z :=
  [-1; 31; 28; 31; 30; 31; 30; 31; 31; 30; 31; 30; 31]%Z.

Definition DAYS_BEFORE_MONTH : list Z :=
  [-1; 0; 31; 59; 90; 120; 151; 181; 212; 243; 273; 304; 334]%Z.

Definition tbl (t : list Z) (m : Z) : Z := nth (Z.to_nat m) t 0%Z.

Definition is_leap (y : Z) : bool :=
  ((y mod 4 =? 0) && (negb (y mod 100 =? 0) || (y mod 400 =? 0)))%Z.

Definition days_before_year (y : Z) : Z :=
  let y1 := (y - 1)%Z in
  (y1 * 365 + y1 / 4 - y1 / 100 + y1 / 400)%Z.

Definition days_in_month (y m : Z) : Z :=
  if (m =? 2)%Z && is_leap y then 29%Z else tbl DAYS_IN_MONTH m.

Definition days_before_month (y m : Z) : Z :=
  (tbl DAYS_BEFORE_MONTH m + (if (2 <? m)%Z && is_leap y then 1 else 0))%Z.

(** Proleptic Gregorian ordinal of a date; 0001-01-01 is day 1. *)
Definition ymd2ord (y m d : Z) : Z :=
  (days_before_year y + days_before_month y m + d)%Z.

Definition b2z (b : bool) : Z := if b then 1%Z else 0%Z.

(** The date of an ordinal, as in the reference implementation of
    [datetime] ([_ord2ymd]). *)
Definition ord2ymd (n0 : Z) : Z * Z * Z :=
  let n := (n0 - 1)%Z in
  let n400 := (n / DI400Y)%Z in
  let n := (n mod DI400Y)%Z in
  let y := (n400 * 400 + 1)%Z in
  let n100 := (n / DI100Y)%Z in
  let n := (n mod DI100Y)%Z in
  let n4 := (n / DI4Y)%Z in
  let n := (n mod DI4Y)%Z in
  let n1 := (n / 365)%Z in
  let n := (n mod 365)%Z in
  let y := (y + n100 * 100 + n4 * 4 + n1)%Z in
  if ((n1 =? 4) || (n100 =? 4))%Z then ((y - 1)%Z, 12%Z, 31%Z)
  else
    let leapyear := ((n1 =? 3) && (negb (n4 =? 24) || (n100 =? 3)))%Z in
    let m := Z.shiftr (n + 50) 5 in
    let preceding := (tbl DAYS_BEFORE_MONTH m + b2z ((2 <? m)%Z && leapyear))%Z in
    if (n <? preceding)%Z then
      let m := (m - 1)%Z in
      let preceding :=
        (preceding - (tbl DAYS_IN_MONTH m + b2z ((m =? 2)%Z && leapyear)))%Z in
      (y, m, (n - preceding + 1)%Z)
    else (y, m, (n - preceding + 1)%Z).

(** Ordinal of 1970-01-01. *)
Definition EPOCH_ORDINAL : Z := 719163.
(** Ordinal of 9999-12-31. *)
Definition MAX_ORDINAL : Z := 3652059.

(** A field on [w] digits. *)
Definition pad (w : nat) (n : Z) : string := PyStr.zfill w (PyInt.str n).

(** [dt.strftime('%Y-%m-%dT%H:%M:%SZ')]: the C library prints the year
    of [%Y] as it is, without padding, and the other fields on two
    digits. *)
Definition strftime_iso_z (dt : datetime) : string :=
  (PyInt.str (year dt) ++ "-" ++ pad 2 (month dt) ++ "-" ++ pad 2 (day dt)
   ++ "T" ++ pad 2 (hour dt) ++ ":" ++ pad 2 (minute dt) ++ ":"
   ++ pad 2 (second dt) ++ "Z")%string.

#[local] Open Scope Z_scope.

(** Month and day of the [n]-th day of a year, counted from 0: the tail
    of [ord2ymd]. *)
Definition month_day (leapyear : bool) (n : Z) : Z * Z :=
  let m := Z.shiftr (n + 50) 5 in
  let preceding := tbl DAYS_BEFORE_MONTH m + b2z ((2 <? m) && leapyear) in
  if n <? preceding then
    let m := m - 1 in
    let preceding := preceding - (tbl DAYS_IN_MONTH m + b2z ((m =? 2) && leapyear)) in
    (m, n - preceding + 1)
  else (m, n - preceding + 1).

Definition month_day_ok (leapyear : bool) (k : nat) : bool :=
  let n := Z.of_nat k in
  let '(m, d) := month_day leapyear n in
  (1 <=? m) && (m <=? 12) && (1 <=? d)
  && (d <=? (if (m =? 2) && leapyear then 29 else tbl DAYS_IN_MONTH m))
  && (tbl DAYS_BEFORE_MONTH m + b2z ((2 <? m) && leapyear) + d =? n + 1).

End Datetime.

(* ================================================================== *)
(** ** Effects: console, files and exceptions *)

(** What [subprocess.run(..., capture_output=True, text=True)] hands
    back, and the exception [check=True] turns a failed run into. *)
Record CompletedProcess := {
  returncode : Z;
  stdout : string;
  stderr : string
}.

Record CalledProcessError := {
  err_returncode : Z;
  err_cmd : list string;
  err_output : string;
  err_stderr : string
}.

Inductive exn :=
| ValueError
| OverflowError
| OSError
| ProcessError (e : CalledProcessError).

(** One [print] call.  [GitCommandFailed e] is the line
    [f"Git command failed: {e}"], whose text after the colon is the
    library's rendering of the exception. *)
Inductive console_line :=
| Text (s : string)
| GitCommandFailed (e : CalledProcessError).

Record world := {
  console : list console_line;     (* oldest line first *)
  files : list (string * string)   (* path and content, latest write first *)
}.

Inductive outcome (A : Type) :=
| Returned (a : A)
| Raised (e : exn).
Arguments Returned {A} a.
Arguments Raised {A} e.

Definition Py (A : Type) : Type := world -> outcome A * world.

Definition ret {A} (a : A) : Py A := fun w => (Returned a, w).

Definition raise {A} (e : exn) : Py A := fun w => (Raised e, w).

Definition bind {A B} (m : Py A) (k : A -> Py B) : Py B :=
  fun w =>
    match m w with
    | (Returned a, w') => k a w'
    | (Raised e, w') => (Raised e, w')
    end.

Declare Scope py_scope.
Delimit Scope py_scope with py.
Notation "x <- m ;; k" := (bind m (fun x => k))
  (at level 61, m at next level, right associativity) : py_scope.
Notation "m ;; k" := (bind m (fun _ => k))
  (at level 61, right associativity) : py_scope.
#[local] Open Scope py_scope.

Definition print (l : console_line) : Py unit :=
  fun w => (Returned tt, {| console := console w ++ [l]; files := files w |}).

(** [with open(filename, 'w') as f: f.write(text)] on a writable path. *)
Definition write_file (path text : string) : Py unit :=
  fun w => (Returned tt, {| console := console w; files := (path, text) :: files w |}).

Fixpoint read_file (fs : list (string * string)) (path : string) : option string :=
  match fs with
  | [] => None
  | (p, text) :: fs' => if (p =? path)%string then Some text else read_file fs' path
  end.

(** [try: body except E: handler], where [handler e] is [None] for the
    exceptions the clause does not name. *)
Definition try_except {A} (body : Py A) (handler : exn -> option (Py A)) : Py A :=
  fun w =>
    match body w with
    | (Returned a, w') => (Returned a, w')
    | (Raised e, w') =>
        match handler e with
        | Some h => h w'
        | None => (Raised e, w')
        end
    end.

(** [for x in l: s = body(s, x)] *)
Fixpoint for_each {A S : Type} (l : list A) (body : S -> A -> Py S) (s : S) : Py S :=
  match l with
  | [] => ret s
  | x :: l' => s' <- body s x ;; for_each l' body s'
  end.

(** [enumerate(l)] *)
Definition enumerate {A} (l : list A) : list (nat * A) :=
  combine (seq 0 (List.length l)) l.

(** [int(s)] *)
Definition int (s : string) : Py Z :=
  match PyInt.parse s with
  | Some n => ret n
  | None => raise ValueError
  end.

(** [if x:] on a value that is a string or [None]. *)
Definition truthy (x : option string) : bool :=
  match x with
  | Some s => negb (s =? "")%string
  | None => false
  end.

(** The first and the last second whose year the C library's [gmtime]
    can hold in the [int] field [tm_year]. *)
Definition GMTIME_MIN : Z := -67768040609740800.
Definition GMTIME_MAX : Z := 67768036191676799.

(** [datetime.utcfromtimestamp(t)]: the timestamp has to fit the
    platform's 64-bit [time_t] ([OverflowError]), [gmtime] has to
    accept it ([OSError]), and the year has to be within 1..9999
    ([ValueError]). *)
Definition utcfromtimestamp (t : Z) : Py Datetime.datetime :=
  if ((t <? - 2 ^ 63) || (2 ^ 63 <=? t))%Z then raise OverflowError
  else if ((t <? GMTIME_MIN) || (GMTIME_MAX <? t))%Z then raise OSError
  else
    let days := (t / 86400)%Z in
    let rem := (t mod 86400)%Z in
    let ordinal := (Datetime.EPOCH_ORDINAL + days)%Z in
    if ((ordinal <? 1) || (Datetime.MAX_ORDINAL <? ordinal))%Z then raise ValueError
    else
      let '(y, m, d) := Datetime.ord2ymd ordinal in
      ret {| Datetime.year := y; Datetime.month := m; Datetime.day := d;
             Datetime.hour := (rem / 3600)%Z;
             Datetime.minute := ((rem mod 3600) / 60)%Z;
             Datetime.second := (rem mod 60)%Z |}.

(* ================================================================== *)
(** ** The analyser *)

Record details := {
  d_linesAdded : Z;
  d_linesRemoved : Z;
  d_filesModified : list string
}.

Record commit := {
  hash : string;
  author : string;
  email : string;
  timestamp : string;
  linesAdded : Z;
  linesRemoved : Z;
  filesModified : list string
}.

Record report := {
  repository : string;
  commits : list commit
}.

Record GitAnalyzer := { repo_path : string }.

Section Analyzer.

(** [subprocess.run(command, cwd=...)]: what the process started with
    these arguments in this directory exits with and writes. *)
Variable subprocess_run : list string -> string -> CompletedProcess.

(** [subprocess.run(..., check=True)] *)
Definition run_checked (command : list string) (cwd : string) : Py CompletedProcess :=
  let result := subprocess_run command cwd in
  if (returncode result =? 0)%Z then ret result
  else raise (ProcessError {| err_returncode := returncode result;
                              err_cmd := command;
                              err_output := stdout result;
                              err_stderr := stderr result |}).

Definition run_git_command (self : GitAnalyzer) (command : list string)
  : Py (option string) :=
  try_except
    (result <- run_checked command (repo_path self) ;;
     ret (Some (PyStr.strip (stdout result))))
    (fun e =>
       match e with
       | ProcessError e =>
           Some (print (GitCommandFailed e) ;;
                 print (Text ("Error output: " ++ err_stderr e)%string) ;;
                 ret None)
       | _ => None
       end).

Definition get_repository_name (self : GitAnalyzer) : Py string :=
  let command := ["git"; "config"; "--get"; "remote.origin.url"] in
  remote_url <- run_git_command self command ;;
  match remote_url with
  | Some url =>
      if negb (url =? "")%string then
        let repo_name := PyStr.last_item (PyStr.split "/" url) in
        if PyStr.endswith repo_name ".git"
        then ret (PyStr.drop_last 4 repo_name)
        else ret repo_name
      else ret (OsPath.basename (OsPath.dirname (repo_path self)))
  | None => ret (OsPath.basename (OsPath.dirname (repo_path self)))
  end.

(** [int(field) if field != '-' else 0] *)
Definition count_field (field : string) : Py Z :=
  if negb (field =? "-")%string then int field else ret 0%Z.

(** The body of the loop over the stats lines; the state is
    [(lines_added, lines_removed, files_modified)]. *)
Definition numstat_line (st : Z * Z * list string) (line : string)
  : Py (Z * Z * list string) :=
  let '(lines_added, lines_removed, files_modified) := st in
  if negb (line =? "")%string then
    let parts := PyStr.split "009" line in
    if (3 <=? List.length parts)%nat then
      try_except
        (added <- count_field (nth 0 parts "") ;;
         removed <- count_field (nth 1 parts "") ;;
         let filename := nth 2 parts "" in
         ret ((lines_added + added)%Z, (lines_removed + removed)%Z,
              files_modified ++ [filename]))
        (fun e =>
           match e with
           | ValueError => Some (ret st)
           | _ => None
           end)
    else ret st
  else ret st.

Definition get_commit_details (self : GitAnalyzer) (commit_hash : string)
  : Py details :=
  let command := ["git"; "show"; "--numstat"; "--format="; commit_hash] in
  output <- run_git_command self command ;;
  if negb (truthy output) then
    ret {| d_linesAdded := 0; d_linesRemoved := 0; d_filesModified := [] |}
  else
    let text := match output with Some s => s | None => "" end in
    st <- for_each (PyStr.split "010" (PyStr.strip text)) numstat_line
            (0%Z, 0%Z, []) ;;
    let '(lines_added, lines_removed, files_modified) := st in
    ret {| d_linesAdded := lines_added;
           d_linesRemoved := lines_removed;
           d_filesModified := files_modified |}.

Definition format_timestamp (unix_timestamp : string) : Py string :=
  t <- int unix_timestamp ;;
  dt <- utcfromtimestamp t ;;
  ret (Datetime.strftime_iso_z dt).

(** The body of the loop over the history lines; [n] is
    [len(commit_lines)] and the state is the list [commits]. *)
Definition commit_line (self : GitAnalyzer) (n : nat)
    (commits : list commit) (il : nat * string) : Py (list commit) :=
  let (i, line) := il in
  if negb (line =? "")%string then
    let parts := PyStr.split "|" line in
    if (4 <=? List.length parts)%nat then
      let commit_hash := nth 0 parts "" in
      d <- get_commit_details self commit_hash ;;
      ts <- format_timestamp (nth 3 parts "") ;;
      let c := {| hash := commit_hash;
                  author := nth 1 parts "";
                  email := nth 2 parts "";
                  timestamp := ts;
                  linesAdded := d_linesAdded d;
                  linesRemoved := d_linesRemoved d;
                  filesModified := d_filesModified d |} in
      let commits := commits ++ [c] in
      if ((i + 1) mod 10 =? 0)%nat then
        print (Text ("  Processed " ++ PyInt.str (Z.of_nat (i + 1)) ++ "/"
                     ++ PyInt.str (Z.of_nat n) ++ " commits...")%string) ;;
        ret commits
      else ret commits
    else ret commits
  else ret commits.

Definition get_commits (self : GitAnalyzer) (limit : Z) : Py (list commit) :=
  let format_string := "%H|%an|%ae|%at" in
  let command := ["git"; "log"; ("--format=" ++ format_string)%string;
                  ("-n" ++ PyInt.str limit)%string] in
  output <- run_git_command self command ;;
  if negb (truthy output) then ret []
  else
    let text := match output with Some s => s | None => "" end in
    let commit_lines := PyStr.split "010" text in
    print (Text ("Processing " ++ PyInt.str (Z.of_nat (List.length commit_lines))
                 ++ " commits...")%string) ;;
    for_each (enumerate commit_lines)
             (commit_line self (List.length commit_lines)) [].

Definition analyze_repository (self : GitAnalyzer) (commit_limit : Z) : Py report :=
  print (Text "Analyzing repository...") ;;
  repo_name <- get_repository_name self ;;
  print (Text ("Repository: " ++ repo_name)%string) ;;
  commits <- get_commits self commit_limit ;;
  ret {| repository := repo_name; commits := commits |}.

End Analyzer.

(* ================================================================== *)
(** ** The [json] module, as far as the report needs it

    The values are strings, integers, lists and dictionaries; a
    dictionary keeps its keys in insertion order.  The decoder gives
    [None] where the library raises [JSONDecodeError], and also for
    the literals and the floating-point numbers, which are left out.
    Integers are written and read whatever their length. *)

Module Json.

Unset Elimination Schemes.
Inductive value :=
| Str (s : string)
| Int (n : Z)
| List (items : list value)
| Dict (pairs : list (string * value)).
Set Elimination Schemes.

Definition QUOTE : ascii := "034"%char.
Definition BACKSLASH : ascii := "092"%char.

(** *** [json.dumps(obj, indent=...)] *)

Definition hex_digit (n : nat) : ascii :=
  nth n ["0"; "1"; "2"; "3"; "4"; "5"; "6"; "7"; "8"; "9";
         "a"; "b"; "c"; "d"; "e"; "f"]%char "0"%char.

(** The replacement of one character in [encode_basestring_ascii]. *)
Definition escape_char (c : ascii) : string :=
  let n := nat_of_ascii c in
  if Ascii.eqb c QUOTE then String BACKSLASH (String QUOTE "")
  else if Ascii.eqb c BACKSLASH then String BACKSLASH (String BACKSLASH "")
  else if Ascii.eqb c "010" then String BACKSLASH "n"
  else if Ascii.eqb c "013" then String BACKSLASH "r"
  else if Ascii.eqb c "009" then String BACKSLASH "t"
  else if Ascii.eqb c "012" then String BACKSLASH "f"
  else if Ascii.eqb c "008" then String BACKSLASH "b"
  else if ((n <? 32) || (126 <? n))%nat
  then String BACKSLASH
         (String "u" (String "0" (String "0"
            (String (hex_digit (n / 16)) (String (hex_digit (n mod 16)) "")))))
  else String c "".

Fixpoint escape (s : string) : string :=
  match s with
  | "" => ""
  | String c r => (escape_char c ++ escape r)%string
  end.

Definition encode_string (s : string) : string :=
  String QUOTE (escape s ++ String QUOTE "")%string.

Definition newline_indent (indent level : nat) : string :=
  String "010" (PyStr.replicate " " (indent * level)).

Fixpoint encode (indent level : nat) (v : value) : string :=
  match v with
  | Str s => encode_string s
  | Int n => PyInt.str n
  | List [] => "[]"
  | List items =>
      ("[" ++ newline_indent indent (S level)
       ++ String.concat ("," ++ newline_indent indent (S level))
            (map (encode indent (S level)) items)
       ++ newline_indent indent level ++ "]")%string
  | Dict [] => "{}"
  | Dict pairs =>
      ("{" ++ newline_indent indent (S level)
       ++ String.concat ("," ++ newline_indent indent (S level))
            (map (fun kv : string * value =>
                    let (k, x) := kv in
                    encode_string k ++ ": " ++ encode indent (S level) x)
                 pairs)
       ++ newline_indent indent level ++ "}")%string
  end.

Definition dumps (indent : nat) (v : value) : string := encode indent 0 v.

(** *** [json.loads] *)

Definition is_ws (c : ascii) : bool :=
  Ascii.eqb c " " || Ascii.eqb c "009" || Ascii.eqb c "010" || Ascii.eqb c "013".

Definition skip_ws (s : string) : string := PyStr.lstrip_by is_ws s.

Definition hex_val (c : ascii) : option nat :=
  let n := nat_of_ascii c in
  if ((48 <=? n) && (n <=? 57))%nat then Some (n - 48)%nat
  else if ((97 <=? n) && (n <=? 102))%nat then Some (n - 87)%nat
  else if ((65 <=? n) && (n <=? 70))%nat then Some (n - 55)%nat
  else None.

(** The character an escape letter stands for. *)
Definition unescape (c : ascii) : option ascii :=
  if Ascii.eqb c QUOTE then Some QUOTE
  else if Ascii.eqb c BACKSLASH then Some BACKSLASH
  else if Ascii.eqb c "/" then Some "/"%char
  else if Ascii.eqb c "b" then Some "008"%char
  else if Ascii.eqb c "f" then Some "012"%char
  else if Ascii.eqb c "n" then Some "010"%char
  else if Ascii.eqb c "r" then Some "013"%char
  else if Ascii.eqb c "t" then Some "009"%char
  else None.

Definition prepend (c : ascii) (x : option (string * string))
  : option (string * string) :=
  match x with
  | Some (s, rest) => Some (String c s, rest)
  | None => None
  end.

(** [scanstring], strict, from just after the opening quote: the
    string and what follows its closing quote.  A code point of 256 or
    more is outside the model. *)
Fixpoint scanstring (s : string) : option (string * string) :=
  match s with
  | "" => None
  | String c r =>
      if Ascii.eqb c QUOTE then Some ("", r)
      else if Ascii.eqb c BACKSLASH then
        match r with
        | "" => None
        | String e r1 =>
            if Ascii.eqb e "u" then
              match r1 with
              | String h3 (String h2 (String h1 (String h0 r2))) =>
                  match hex_val h3, hex_val h2, hex_val h1, hex_val h0 with
                  | Some 0%nat, Some 0%nat, Some a, Some b =>
                      prepend (ascii_of_nat (16 * a + b)) (scanstring r2)
                  | _, _, _, _ => None
                  end
              | _ => None
              end
            else
              match unescape e with
              | Some x => prepend x (scanstring r1)
              | None => None
              end
        end
      else if (nat_of_ascii c <? 32)%nat then None
      else prepend c (scanstring r)
  end.

Definition is_digit (c : ascii) : bool :=
  ((48 <=? nat_of_ascii c) && (nat_of_ascii c <=? 57))%nat.








(** *** Notions for the round trip *)

(** Every character of the string is a decimal digit. *)
Fixpoint all_digits (s : string) : bool :=
  match s with
  | "" => true
  | String c r => Json.is_digit c && all_digits r
  end.


Section ValueInd.
Variable P : value -> Prop.
Hypothesis HStr : forall s, P (Str s).
Hypothesis HInt : forall n, P (Int n).
Hypothesis HList : forall items, Forall P items -> P (List items).
Hypothesis HDict :
  forall pairs, Forall (fun kv => P (snd kv)) pairs -> P (Dict pairs).

Fixpoint value_ind (v : value) : P v :=
  match v with
  | Str s => HStr s
  | Int n => HInt n
  | List items =>
      HList items
        ((fix all (l : list value) : Forall P l :=
            match l with
            | [] => Forall_nil P
            | x :: r => Forall_cons x (value_ind x) (all r)
            end) items)
  | Dict pairs =>
      HDict pairs
        ((fix all (l : list (string * value)) : Forall (fun kv => P (snd kv)) l :=
            match l with
            | [] => Forall_nil _
            | (k, x) :: r =>
                Forall_cons (P := fun kv => P (snd kv)) (k, x) (value_ind x) (all r)
            end) pairs)
  end.
End ValueInd.





Definition sep (i l : nat) : string := ("," ++ newline_indent i (S l))%string.

Definition items_text (i l : nat) (items : list value) : string :=
  String.concat (sep i l) (map (encode i (S l)) items).

Definition pair_text (i l : nat) (kv : string * value) : string :=
  let (k, x) := kv in (encode_string k ++ ": " ++ encode i (S l) x)%string.

Definition pairs_text (i l : nat) (pairs : list (string * value)) : string :=
  String.concat (sep i l) (map (pair_text i l) pairs).




End Json.

(** The dictionaries the analyser builds, key by key in source order. *)
Definition commit_value (c : commit) : Json.value :=
  Json.Dict
    [("hash", Json.Str (hash c));
     ("author", Json.Str (author c));
     ("email", Json.Str (email c));
     ("timestamp", Json.Str (timestamp c));
     ("linesAdded", Json.Int (linesAdded c));
     ("linesRemoved", Json.Int (linesRemoved c));
     ("filesModified", Json.List (map Json.Str (filesModified c)))].

Definition report_value (r : report) : Json.value :=
  Json.Dict
    [("repository", Json.Str (repository r));
     ("commits", Json.List (map commit_value (commits r)))].

(** [save_to_json(data, filename)] *)
Definition save_to_json (data : report) (filename : string) : Py unit :=
  write_file filename (Json.dumps 2 (report_value data)) ;;
  print (Text (String "010" "Analysis saved to " ++ filename)%string).


(* ================================================================== *)
(** ** The compact encoding and the HTTP post *)

Module JsonCompact.
Import Json.

(** [json.dumps(obj)] without [indent]: the items are separated by a
    comma and a blank, a key from its value by a colon and a blank. *)
Fixpoint encode_compact (v : value) : string :=
  match v with
  | Str s => encode_string s
  | Int n => PyInt.str n
  | List items =>
      ("[" ++ String.concat ", " (map encode_compact items) ++ "]")%string
  | Dict pairs =>
      ("{" ++ String.concat ", "
                (map (fun kv : string * value =>
                        let (k, x) := kv in
                        encode_string k ++ ": " ++ encode_compact x)
                     pairs)
       ++ "}")%string
  end.

Definition dumps_compact (v : value) : string := encode_compact v.

End JsonCompact.

(** [urllib.request.Request(url, data=..., headers=...)].  The body is
    the UTF-8 encoding of a text; for the ASCII text that [json.dumps]
    produces the bytes are the characters. *)
Record Request := {
  full_url : string;
  data : string;
  headers : list (string * string)
}.

(** [urllib.error.URLError] and its subclass [HTTPError]. *)
Inductive URLError :=
| UrlError (reason : string)
| HttpError (code : Z) (msg : string).

(** [str(e)] *)
Definition URLError_str (e : URLError) : string :=
  match e with
  | UrlError reason => ("<urlopen error " ++ reason ++ ">")%string
  | HttpError code msg => ("HTTP Error " ++ PyInt.str code ++ ": " ++ msg)%string
  end.

(** What the three library calls of [send_to_api] come to:
    [urllib.request.Request(...)], [urllib.request.urlopen(req)] and
    [response.read().decode('utf-8')]. *)
Inductive Fetched :=
| Body (text : string)         (* the decoded text of the response *)
| Refused (e : URLError)       (* [URLError] raised, which the code catches *)
| Escaped (e : exn).           (* another exception, which it does not: the
                                  [ValueError] of [Request] for an address
                                  without a scheme, of [decode] for a body
                                  that is not UTF-8, ... *)

Section Publisher.

Variable urlopen : Request -> Fetched.

Definition send_to_api (data : report) (endpoint : string) : Py (option string) :=
  let json_data := JsonCompact.dumps_compact (report_value data) in
  let req := {| full_url := endpoint;
                data := json_data;
                headers := [("Content-Type", "application/json")] |} in
  match urlopen req with
  | Body result =>
      print (Text ("Successfully sent data to " ++ endpoint)%string) ;;
      ret (Some result)
  | Refused e =>
      print (Text ("Failed to send data: " ++ URLError_str e)%string) ;;
      ret None
  | Escaped e => raise e
  end.

End Publisher.

(* ================================================================== *)
(** ** The script *)

(** [s.startswith(prefix)] *)
Definition startswith (s prefix : string) : bool := String.prefix prefix s.

(** Digits of a reversed decimal text with a comma after every third
    digit that has a digit after it. *)
Fixpoint group_thousands (rev_digits : list ascii) : list ascii :=
  match rev_digits with
  | a :: b :: c :: ((_ :: _) as rest) => a :: b :: c :: ","%char :: group_thousands rest
  | _ => rev_digits
  end.

(** [f"{n:,}"] *)
Definition format_thousands (n : Z) : string :=
  let digits := list_ascii_of_string (PyInt.str (Z.abs n)) in
  let grouped := string_of_list_ascii (rev (group_thousands (rev digits))) in
  if (n <? 0)%Z then String "-" grouped else grouped.

(** [if author not in authors: authors[author] = 0] and
    [authors[author] += 1] on an insertion-ordered dictionary. *)
Fixpoint count_author (author : string) (authors : list (string * Z))
  : list (string * Z) :=
  match authors with
  | [] => [(author, 1%Z)]
  | (a, n) :: rest =>
      if (a =? author)%string then (a, (n + 1)%Z) :: rest
      else (a, n) :: count_author author rest
  end.

(** The place of an item in a list sorted by count, largest first:
    behind the items that count as much or more. *)
Fixpoint insert_by_count (x : string * Z) (l : list (string * Z))
  : list (string * Z) :=
  match l with
  | [] => [x]
  | y :: rest =>
      if (snd y <? snd x)%Z then x :: l else y :: insert_by_count x rest
  end.

(** [sorted(items, key=lambda x: x[1], reverse=True)]: the stable sort
    by count, largest first. *)
Definition sorted_by_count (items : list (string * Z)) : list (string * Z) :=
  fold_left (fun acc x => insert_by_count x acc) items [].

Definition USAGE : string :=
  "Usage: python git_analyzer.py <path_to_git_repo> [--limit=50] [--api=http://localhost:3000/api/git-data]".

Section Script.

Variable subprocess_run : list string -> string -> CompletedProcess.
Variable urlopen : Request -> Fetched.

(** The loop over [sys.argv[2:]]; the state is
    [(commit_limit, api_endpoint)]. *)
Definition parse_arg (st : Z * option string) (arg : string)
  : Py (Z * option string) :=
  let (commit_limit, api_endpoint) := st in
  if startswith arg "--limit=" then
    n <- int (nth 1 (PyStr.split "=" arg) "") ;;
    ret (n, api_endpoint)
  else if startswith arg "--api=" then
    ret (commit_limit, Some (nth 1 (PyStr.split "=" arg) ""))
  else ret st.

(** The summary block at the end of the script. *)
Definition print_summary (results : report) : Py unit :=
  print (Text (String "010" "Analysis Summary:")) ;;
  print (Text ("Repository: " ++ repository results)%string) ;;
  print (Text ("Total Commits Analyzed: "
               ++ PyInt.str (Z.of_nat (List.length (commits results))))%string) ;;
  match commits results with
  | [] => ret tt
  | _ :: _ =>
      let total_added := fold_left Z.add (map linesAdded (commits results)) 0%Z in
      let total_removed := fold_left Z.add (map linesRemoved (commits results)) 0%Z in
      print (Text ("Total Lines Added: " ++ format_thousands total_added)%string) ;;
      print (Text ("Total Lines Removed: " ++ format_thousands total_removed)%string) ;;
      let authors :=
        fold_left (fun authors c => count_author (author c) authors)
                  (commits results) [] in
      print (Text (String "010" "Top Contributors:")) ;;
      for_each (firstn 5 (sorted_by_count authors))
               (fun _ ac =>
                  print (Text ("  " ++ fst ac ++ ": " ++ PyInt.str (snd ac)
                               ++ " commits")%string))
               tt
  end.

(** The script, from [sys.argv] to the exit status: 1 after
    [sys.exit(1)], 0 at the end; an exception that nothing catches ends
    the script where it is raised. *)
Definition main (argv : list string) : Py Z :=
  if (List.length argv <? 2)%nat then
    print (Text USAGE) ;;
    ret 1%Z
  else
    let repo_path := nth 1 argv "" in
    st <- for_each (skipn 2 argv) parse_arg (100%Z, None) ;;
    let (commit_limit, api_endpoint) := st in
    let analyzer := {| repo_path := repo_path |} in
    results <- analyze_repository subprocess_run analyzer commit_limit ;;
    save_to_json results "git_analysis.json" ;;
    (if truthy api_endpoint
     then send_to_api urlopen results
            (match api_endpoint with Some e => e | None => "" end) ;; ret tt
     else ret tt) ;;
    print_summary results ;;
    ret 0%Z.

End Script.

(* ================================================================== *)
(** ** Notions used in the statements *)

Definition TAB : ascii := "009"%char.
Definition NL : ascii := "010"%char.

Definition tab : string := String TAB "".
Definition nl : string := String NL "".

Definition empty_world : world := {| console := []; files := [] |}.

(** The world after some more lines were printed. *)
Definition emit (w : world) (ls : list console_line) : world :=
  {| console := console w ++ ls; files := files w |}.

(** [m] ends with [r] after printing [ls], whatever the world it starts in. *)
Definition logs {A} (m : Py A) (r : outcome A) (ls : list console_line) : Prop :=
  forall w, m w = (r, emit w ls).

Definition config_command : list string :=
  ["git"; "config"; "--get"; "remote.origin.url"].

Definition show_command (commit_hash : string) : list string :=
  ["git"; "show"; "--numstat"; "--format="; commit_hash].

Definition log_command (limit : Z) : list string :=
  ["git"; "log"; "--format=%H|%an|%ae|%at"; ("-n" ++ PyInt.str limit)%string].

Definition sum_Z (l : list Z) : Z := fold_right Z.add 0%Z l.

(** A stats line that has the three fields. *)
Definition counted (line : string) : bool :=
  (3 <=? List.length (PyStr.split TAB line))%nat.

Definition field (i : nat) (sep : ascii) (line : string) : string :=
  nth i (PyStr.split sep line) "".

(** What a count field is worth: nothing for the dash of a binary file. *)
Definition count_value (f : string) : option Z :=
  if (f =? "-")%string then Some 0%Z else PyInt.parse f.

Definition field_ok (f : string) : bool :=
  match count_value f with Some _ => true | None => false end.

Definition field_count (f : string) : Z :=
  match count_value f with Some n => n | None => 0%Z end.

(** The number a decimal numeral stands for, digits with an optional
    minus sign before them, as the standard library's reader of decimal
    numbers has it; the model of [int] is not involved. *)
Definition numeral (f : string) : option Z :=
  option_map Z.of_int (NilZero.int_of_string f).

(** What a count field of the stats output says: nothing for the dash
    of a binary file. *)
Definition stat_count (f : string) : option Z :=
  if (f =? "-")%string then Some 0%Z else numeral f.

Definition stat_value (f : string) : Z :=
  match stat_count f with Some n => n | None => 0%Z end.

(** A count field as the stats output has it: a dash or a numeral, of
    no more characters than [int] reads digits. *)
Definition stat_field (f : string) : Prop :=
  stat_count f <> None /\ (String.length f <= PyInt.MAX_STR_DIGITS)%nat.

(** The loop body of [get_commit_details] without the monad. *)
Definition numstat_step (st : Z * Z * list string) (line : string)
  : Z * Z * list string :=
  let '(a, r, fs) := st in
  if counted line then
    match count_value (field 0 TAB line), count_value (field 1 TAB line) with
    | Some x, Some y => ((a + x)%Z, (r + y)%Z, fs ++ [field 2 TAB line])
    | _, _ => st
    end
  else st.

Definition details_of_state (st : Z * Z * list string) : details :=
  let '(a, r, fs) := st in
  {| d_linesAdded := a; d_linesRemoved := r; d_filesModified := fs |}.

Definition no_details : details :=
  {| d_linesAdded := 0; d_linesRemoved := 0; d_filesModified := [] |}.

(** A history line that yields a record. *)
Definition valid_line (line : string) : bool :=
  (4 <=? List.length (PyStr.split "|" line))%nat.

(** [seg] is what follows the last slash of [url], or all of [url]. *)
Definition final_segment (url seg : string) : Prop :=
  (forall c, In c (list_ascii_of_string seg) -> c <> "/"%char)
  /\ (url = seg \/ exists pre, url = (pre ++ "/" ++ seg)%string).

Definition error_of (command : list string) (r : CompletedProcess)
  : CalledProcessError :=
  {| err_returncode := returncode r; err_cmd := command;
     err_output := stdout r; err_stderr := stderr r |}.

Definition failure_lines (command : list string) (r : CompletedProcess)
  : list console_line :=
  [GitCommandFailed (error_of command r);
   Text ("Error output: " ++ stderr r)%string].

(** What the runner returns and prints, in one piece. *)
Definition runner_result (r : CompletedProcess) : option string :=
  if (returncode r =? 0)%Z then Some (PyStr.strip (stdout r)) else None.

Definition runner_lines (command : list string) (r : CompletedProcess)
  : list console_line :=
  if (returncode r =? 0)%Z then [] else failure_lines command r.

(** What [get_commit_details] returns for what the process left. *)
Definition details_pure (r : CompletedProcess) : details :=
  if truthy (runner_result r)
  then details_of_state
         (fold_left numstat_step (PyStr.split NL (PyStr.strip (stdout r)))
            (0%Z, 0%Z, []))
  else no_details.

(** One row of the stats output. *)
Definition row (added removed path : string) : string :=
  (added ++ tab ++ removed ++ tab ++ path)%string.

(** What [format_timestamp] ends with; it prints nothing. *)
Definition timestamp_result (f : string) : outcome string :=
  fst (format_timestamp f empty_world).

Definition timestamp_text (f : string) : string :=
  match timestamp_result f with
  | Returned s => s
  | Raised _ => ""
  end.

(** The first second of the year 1, the first of the year 1000 and the
    last of the year 9999. *)
Definition MIN_TIMESTAMP : Z := -62135596800.
Definition YEAR_1000_TIMESTAMP : Z := -30610224000.
Definition MAX_TIMESTAMP : Z := 253402300799.

(** A timestamp field that [format_timestamp] can turn into a date. *)
Definition valid_timestamp (f : string) : Prop :=
  exists t, PyInt.parse f = Some t /\ (MIN_TIMESTAMP <= t <= MAX_TIMESTAMP)%Z.

(** The record a history line yields. *)
Definition record_of (run : list string -> string -> CompletedProcess)
    (self : GitAnalyzer) (line : string) : commit :=
  let d := details_pure (run (show_command (field 0 "|" line)) (repo_path self)) in
  {| hash := field 0 "|" line;
     author := field 1 "|" line;
     email := field 2 "|" line;
     timestamp := timestamp_text (field 3 "|" line);
     linesAdded := d_linesAdded d;
     linesRemoved := d_linesRemoved d;
     filesModified := d_filesModified d |}.

Definition line_records run self (line : string) : list commit :=
  if valid_line line then [record_of run self line] else [].

(** [print(f"  Processed {i + 1}/{n} commits...")] *)
Definition processed_line (i n : nat) : console_line :=
  Text ("  Processed " ++ PyInt.str (Z.of_nat (i + 1)) ++ "/"
        ++ PyInt.str (Z.of_nat n) ++ " commits...")%string.

(** [print(f"Processing {n} commits...")] *)
Definition processing_line (n : nat) : console_line :=
  Text ("Processing " ++ PyInt.str (Z.of_nat n) ++ " commits...")%string.

Definition progress_lines (n i : nat) : list console_line :=
  if ((i + 1) mod 10 =? 0)%nat then [processed_line i n] else [].

(** What the runner prints while the statistics of the line's commit
    are fetched. *)
Definition detail_lines (run : list string -> string -> CompletedProcess)
    (self : GitAnalyzer) (line : string) : list console_line :=
  runner_lines (show_command (field 0 "|" line))
               (run (show_command (field 0 "|" line)) (repo_path self)).

Definition line_console run self (n : nat) (il : nat * string)
  : list console_line :=
  if valid_line (snd il)
  then detail_lines run self (snd il) ++ progress_lines n (fst il)
  else [].

(** The history lines of a successful, non-empty query. *)
Definition history_lines (r : CompletedProcess) : list string :=
  PyStr.split NL (PyStr.strip (stdout r)).

(** No minus sign anywhere in the field. *)
Definition no_minus (f : string) : Prop :=
  forall c, In c (list_ascii_of_string f) -> c <> "-"%char.

(** The stats output has no negative count. *)
Definition unsigned_counts (text : string) : Prop :=
  forall l, In l (PyStr.split NL (PyStr.strip text)) -> counted l = true ->
            (field 0 TAB l = "-" \/ no_minus (field 0 TAB l))
            /\ (field 1 TAB l = "-" \/ no_minus (field 1 TAB l)).

(** *** Notions for the rest of the code *)

(** A stats line that is added up: three fields or more, and two count
    fields that can be read. *)
Definition tallied (line : string) : bool :=
  counted line && field_ok (field 0 TAB line) && field_ok (field 1 TAB line).

(** A printable ASCII character, blank to tilde. *)
Definition printable (c : ascii) : bool :=
  ((32 <=? nat_of_ascii c) && (nat_of_ascii c <=? 126))%nat.

Definition printable_or_newline (c : ascii) : bool :=
  printable c || Ascii.eqb c "010".


Fixpoint all_chars (p : ascii -> bool) (s : string) : bool :=
  match s with
  | "" => true
  | String c r => p c && all_chars p r
  end.




(** No equals sign anywhere in the text. *)
Definition no_equals (s : string) : Prop :=
  forall c, In c (list_ascii_of_string s) -> c <> "="%char.


(** The dictionary of the summary after the loop over the commits. *)
Definition tally (cs : list commit) : list (string * Z) :=
  fold_left (fun authors c => count_author (author c) authors) cs [].


Definition contributor_line (ac : string * Z) : console_line :=
  Text ("  " ++ fst ac ++ ": " ++ PyInt.str (snd ac) ++ " commits")%string.

Definition not_comma (c : ascii) : bool := negb (Ascii.eqb c ",").

Definition without_commas (s : string) : string :=
  string_of_list_ascii (filter not_comma (list_ascii_of_string s)).

(** The lines of the summary before the contributors. *)
Definition summary_head (results : report) : list console_line :=
  [Text (String "010" "Analysis Summary:");
   Text ("Repository: " ++ repository results)%string;
   Text ("Total Commits Analyzed: "
         ++ PyInt.str (Z.of_nat (List.length (commits results))))%string;
   Text ("Total Lines Added: "
         ++ format_thousands (sum_Z (map linesAdded (commits results))))%string;
   Text ("Total Lines Removed: "
         ++ format_thousands (sum_Z (map linesRemoved (commits results))))%string;
   Text (String "010" "Top Contributors:")].

(** The request that [send_to_api] builds. *)
Definition post_request (results : report) (endpoint : string) : Request :=
  {| full_url := endpoint;
     data := JsonCompact.dumps_compact (report_value results);
     headers := [("Content-Type", "application/json")] |}.

(* ================================================================== *)
(** ** Concrete runs

    Processes with fixed answers, for the examples. *)

Definition failing_git (_ : list string) (_ : string) : CompletedProcess :=
  {| returncode := 128; stdout := ""; stderr := "fatal: not a git repository" |}.

Definition binary_only_git (_ : list string) (_ : string) : CompletedProcess :=
  {| returncode := 0;
     stdout := ("-" ++ tab ++ "-" ++ tab ++ "img.png" ++ nl)%string;
     stderr := "" |}.

Definition rename_row_git (_ : list string) (_ : string) : CompletedProcess :=
  {| returncode := 0;
     stdout := (row "1" "2" "a.c" ++ nl ++ row "x" "3" "b.c" ++ nl
                ++ row "4" "5" "c.c" ++ nl)%string;
     stderr := "" |}.

(** A text file and a binary file. *)
Definition mixed_rows_git (_ : list string) (_ : string) : CompletedProcess :=
  {| returncode := 0;
     stdout := (row "10" "2" "file.go" ++ nl ++ row "-" "-" "img.png" ++ nl)%string;
     stderr := "" |}.

(** A count of 4301 digits. *)
Definition long_count_git (_ : list string) (_ : string) : CompletedProcess :=
  {| returncode := 0;
     stdout := (row (PyStr.replicate "1" 4301) "2" "big.c" ++ nl)%string;
     stderr := "" |}.

(** An author name with a pipe in it shifts the e-mail address into
    the timestamp field. *)
Definition piped_author_git (command : list string) (_ : string) : CompletedProcess :=
  match command with
  | "git" :: "log" :: _ =>
      {| returncode := 0;
         stdout := ("abc123|Ada|Lovelace|ada@x.com|1700000000" ++ nl)%string;
         stderr := "" |}
  | _ => {| returncode := 0; stdout := ""; stderr := "" |}
  end.

Definition missing_object_git (command : list string) (_ : string) : CompletedProcess :=
  match command with
  | "git" :: "log" :: _ =>
      {| returncode := 0;
         stdout := ("abc123|Ada|ada@x.com|1700000000" ++ nl)%string;
         stderr := "" |}
  | _ => {| returncode := 128; stdout := ""; stderr := "fatal: bad object abc123" |}
  end.

Definition hosted_git (command : list string) (_ : string) : CompletedProcess :=
  match command with
  | "git" :: "config" :: _ =>
      {| returncode := 0;
         stdout := ("https://example.com/org/my-repo.git" ++ nl)%string;
         stderr := "" |}
  | _ => {| returncode := 0; stdout := ""; stderr := "" |}
  end.

Definition no_remote_git (_ : list string) (_ : string) : CompletedProcess :=
  {| returncode := 1; stdout := ""; stderr := "" |}.

Definition trailing_slash_git (command : list string) (_ : string) : CompletedProcess :=
  match command with
  | "git" :: "config" :: _ =>
      {| returncode := 0;
         stdout := ("https://example.com/org/my-repo/" ++ nl)%string;
         stderr := "" |}
  | _ => {| returncode := 0; stdout := ""; stderr := "" |}
  end.

Definition plain_git (command : list string) (_ : string) : CompletedProcess :=
  match command with
  | "git" :: "log" :: _ =>
      {| returncode := 0;
         stdout := ("abc123|Ada|ada@x.com|1700000000" ++ nl)%string;
         stderr := "" |}
  | "git" :: "show" :: _ =>
      {| returncode := 0;
         stdout := (row "10" "2" "file.go" ++ nl)%string;
         stderr := "" |}
  | _ => {| returncode := 1; stdout := ""; stderr := "" |}
  end.

Definition negative_count_git (command : list string) (_ : string) : CompletedProcess :=
  match command with
  | "git" :: "log" :: _ =>
      {| returncode := 0;
         stdout := ("abc123|Ada|ada@x.com|1700000000" ++ nl)%string;
         stderr := "" |}
  | "git" :: "show" :: _ =>
      {| returncode := 0;
         stdout := (row "-5" "-7" "file.go" ++ nl)%string;
         stderr := "" |}
  | _ => {| returncode := 1; stdout := ""; stderr := "" |}
  end.


(** A history of eleven lines, the tenth of which is no commit line. *)
Definition torn_history : string :=
  String.concat nl
    ["c01|Ada|ada@x.com|1700000000"; "c02|Ada|ada@x.com|1700000000";
     "c03|Ada|ada@x.com|1700000000"; "c04|Ada|ada@x.com|1700000000";
     "c05|Ada|ada@x.com|1700000000"; "c06|Ada|ada@x.com|1700000000";
     "c07|Ada|ada@x.com|1700000000"; "c08|Ada|ada@x.com|1700000000";
     "c09|Ada|ada@x.com|1700000000"; "warning: garbage";
     "c10|Ada|ada@x.com|1700000000"].

Definition torn_history_git (command : list string) (_ : string) : CompletedProcess :=
  match command with
  | "git" :: "log" :: _ => {| returncode := 0; stdout := torn_history; stderr := "" |}
  | _ => {| returncode := 0; stdout := ""; stderr := "" |}
  end.

(** *** Further runs *)

(** A command whose output has blanks and line ends around it. *)
Definition padded_git (_ : list string) (_ : string) : CompletedProcess :=
  {| returncode := 0; stdout := ("  abc def " ++ nl ++ nl)%string; stderr := "" |}.


(** A network that refuses the connection. *)
Definition offline_net (_ : Request) : Fetched :=
  Refused (UrlError "[Errno 111] Connection refused").

(* ================================================================== *)
(** ** The monad *)

Lemma emit_nil w : emit w [] = w.
Proof. destruct w; unfold emit; simpl. now rewrite app_nil_r. Qed.

Lemma emit_emit w l1 l2 : emit (emit w l1) l2 = emit w (l1 ++ l2).
Proof. unfold emit; simpl. now rewrite app_assoc. Qed.

Lemma logs_ret {A} (a : A) : logs (ret a) (Returned a) [].
Proof. intros w. unfold ret. now rewrite emit_nil. Qed.

Lemma logs_raise {A} e : logs (@raise A e) (Raised e) [].
Proof. intros w. unfold raise. now rewrite emit_nil. Qed.

Lemma logs_print l : logs (print l) (Returned tt) [l].
Proof. intros w. reflexivity. Qed.

Lemma logs_bind {A B} (m : Py A) (k : A -> Py B) a l1 r l2 :
  logs m (Returned a) l1 -> logs (k a) r l2 -> logs (bind m k) r (l1 ++ l2).
Proof.
  intros Hm Hk w. unfold bind. rewrite Hm, Hk. now rewrite emit_emit.
Qed.

Lemma logs_bind_raised {A B} (m : Py A) (k : A -> Py B) e l :
  logs m (Raised e) l -> logs (bind m k) (Raised e) l.
Proof. intros Hm w. unfold bind. now rewrite Hm. Qed.

Lemma logs_fun {A} (m : Py A) r1 l1 r2 l2 :
  logs m r1 l1 -> logs m r2 l2 -> r1 = r2 /\ l1 = l2.
Proof.
  intros H1 H2. specialize (H1 empty_world). specialize (H2 empty_world).
  rewrite H1 in H2. unfold emit in H2. simpl in H2.
  inversion H2. now split.
Qed.

Lemma bind_ret_l {A B} (a : A) (k : A -> Py B) w : bind (ret a) k w = k a w.
Proof. reflexivity. Qed.

Lemma for_each_pure {A S} (f : S -> A -> S) (body : S -> A -> Py S) :
  (forall s x w, body s x w = (Returned (f s x), w)) ->
  forall l s w, for_each l body s w = (Returned (fold_left f l s), w).
Proof.
  intros Hb l. induction l as [|x l IH]; intros s w; simpl.
  - reflexivity.
  - unfold bind. rewrite Hb. apply IH.
Qed.

(* ================================================================== *)
(** ** Strings: stripping, splitting, suffixes *)

Section Strip.
Variable p : ascii -> bool.

Lemma lstrip_by_head s :
  PyStr.lstrip_by p s = ""
  \/ exists c t, PyStr.lstrip_by p s = String c t /\ p c = false.
Proof.
  induction s as [|c s IH]; simpl.
  - now left.
  - destruct (p c) eqn:Hc; [exact IH|]. right. now exists c, s.
Qed.

Lemma rstrip_by_idem s :
  PyStr.rstrip_by p (PyStr.rstrip_by p s) = PyStr.rstrip_by p s.
Proof.
  induction s as [|c s IH]; simpl; [reflexivity|].
  destruct (PyStr.rstrip_by p s) as [|c' r] eqn:Hr.
  - destruct (p c) eqn:Hc; simpl; [reflexivity|]. now rewrite Hc.
  - change (PyStr.rstrip_by p (String c (String c' r)))
      with (match PyStr.rstrip_by p (String c' r) with
            | "" => if p c then "" else String c ""
            | r0 => String c r0
            end).
    now rewrite IH.
Qed.

Lemma rstrip_by_keeps_head c t :
  p c = false -> exists r, PyStr.rstrip_by p (String c t) = String c r.
Proof.
  intros Hc. simpl. destruct (PyStr.rstrip_by p t) as [|c' r].
  - rewrite Hc. now exists "".
  - now exists (String c' r).
Qed.

Lemma strip_by_idem s :
  PyStr.rstrip_by p (PyStr.lstrip_by p (PyStr.rstrip_by p (PyStr.lstrip_by p s)))
  = PyStr.rstrip_by p (PyStr.lstrip_by p s).
Proof.
  destruct (lstrip_by_head s) as [E | (c & t & E & Hc)]; rewrite E.
  - reflexivity.
  - destruct (rstrip_by_keeps_head c t Hc) as [r Er]. rewrite Er.
    simpl PyStr.lstrip_by. rewrite Hc. rewrite <- Er. apply rstrip_by_idem.
Qed.

(** Stripping only removes characters. *)
Lemma lstrip_by_incl s c :
  In c (list_ascii_of_string (PyStr.lstrip_by p s)) ->
  In c (list_ascii_of_string s).
Proof.
  induction s as [|a s IH]; simpl; [tauto|].
  destruct (p a); simpl; auto.
Qed.

Lemma rstrip_by_incl s c :
  In c (list_ascii_of_string (PyStr.rstrip_by p s)) ->
  In c (list_ascii_of_string s).
Proof.
  induction s as [|a s IH]; simpl; [tauto|].
  destruct (PyStr.rstrip_by p s) as [|c' r].
  - destruct (p a); simpl; tauto.
  - simpl in *. intuition.
Qed.

End Strip.

Lemma strip_idem s : PyStr.strip (PyStr.strip s) = PyStr.strip s.
Proof. apply strip_by_idem. Qed.

Lemma split_aux_split sep s :
  PyStr.split sep s = fst (PyStr.split_aux sep s) :: snd (PyStr.split_aux sep s).
Proof. unfold PyStr.split. now destruct (PyStr.split_aux sep s). Qed.

Lemma split_nil sep : PyStr.split sep "" = [""].
Proof. reflexivity. Qed.

Lemma split_cons_sep sep s : PyStr.split sep (String sep s) = "" :: PyStr.split sep s.
Proof.
  unfold PyStr.split. simpl. destruct (PyStr.split_aux sep s) as [w ws].
  now rewrite Ascii.eqb_refl.
Qed.

Lemma split_cons_other sep c s :
  c <> sep ->
  PyStr.split sep (String c s)
  = String c (hd "" (PyStr.split sep s)) :: tl (PyStr.split sep s).
Proof.
  intros Hc. unfold PyStr.split. simpl.
  destruct (PyStr.split_aux sep s) as [w ws].
  destruct (Ascii.eqb_spec c sep) as [E|_]; [contradiction|reflexivity].
Qed.

Lemma split_not_nil sep s : PyStr.split sep s <> [].
Proof. rewrite split_aux_split. discriminate. Qed.

(** A string without the separator is one word. *)
Lemma split_no_sep sep s :
  (forall c, In c (list_ascii_of_string s) -> c <> sep) ->
  PyStr.split sep s = [s].
Proof.
  induction s as [|c s IH]; intros H; [reflexivity|].
  rewrite split_cons_other by (apply H; now left).
  rewrite IH by (intros a Ha; apply H; now right). reflexivity.
Qed.

Lemma last_cons_not_nil {A} (x : A) l d : l <> [] -> last (x :: l) d = last l d.
Proof. destruct l; [congruence|reflexivity]. Qed.

Lemma last_item_split_app sep pre seg :
  (forall c, In c (list_ascii_of_string seg) -> c <> sep) ->
  PyStr.last_item (PyStr.split sep (pre ++ String sep seg)) = seg.
Proof.
  intros Hseg. unfold PyStr.last_item.
  induction pre as [|c pre IH]; simpl.
  - rewrite split_cons_sep, split_no_sep by assumption. reflexivity.
  - destruct (Ascii.eqb_spec c sep) as [->|Hc].
    + rewrite split_cons_sep. rewrite last_cons_not_nil by apply split_not_nil.
      exact IH.
    + rewrite split_cons_other by assumption.
      destruct (PyStr.split sep (pre ++ String sep seg)) as [|w ws] eqn:E.
      * now apply split_not_nil in E.
      * simpl hd. simpl tl. destruct ws as [|w' ws'].
        -- simpl in IH. subst w. exfalso.
           (* the only word would hold the separator *)
           assert (Hlen : (2 <= List.length (PyStr.split sep (pre ++ String sep seg)))%nat).
           { clear. induction pre as [|a pre IH]; simpl.
             - rewrite split_cons_sep. simpl.
               pose proof (split_not_nil sep seg).
               destruct (PyStr.split sep seg); [congruence|simpl; lia].
             - destruct (Ascii.eqb_spec a sep) as [->|Ha].
               + rewrite split_cons_sep. simpl. lia.
               + rewrite split_cons_other by assumption.
                 destruct (PyStr.split sep (pre ++ String sep seg)); simpl in *; lia. }
           rewrite E in Hlen. simpl in Hlen. lia.
        -- exact IH.
Qed.

Lemma final_segment_last url seg :
  final_segment url seg -> PyStr.last_item (PyStr.split "/" url) = seg.
Proof.
  intros [Hseg [-> | [pre ->]]].
  - rewrite split_no_sep by assumption. reflexivity.
  - now apply last_item_split_app.
Qed.

Lemma substring_0_app s t : substring 0 (String.length s) (s ++ t) = s.
Proof. induction s as [|c s IH]; simpl; [now destruct t|now rewrite IH]. Qed.

Lemma substring_skip_app s t :
  substring (String.length s) (String.length t) (s ++ t) = t.
Proof.
  induction s as [|c s IH]; simpl; [|exact IH].
  induction t as [|c t IH]; simpl; [reflexivity|now rewrite IH].
Qed.

Lemma length_app s t :
  String.length (s ++ t) = (String.length s + String.length t)%nat.
Proof. induction s as [|c s IH]; simpl; [reflexivity|now rewrite IH]. Qed.

Lemma endswith_app s suffix : PyStr.endswith (s ++ suffix) suffix = true.
Proof.
  unfold PyStr.endswith, PyStr.slice_from. rewrite length_app.
  apply andb_true_intro. split.
  - apply Nat.leb_le. lia.
  - replace (String.length s + String.length suffix - String.length suffix)%nat
      with (String.length s) by lia.
    replace (String.length s + String.length suffix - String.length s)%nat
      with (String.length suffix) by lia.
    rewrite substring_skip_app. apply String.eqb_refl.
Qed.

Lemma drop_last_app s suffix :
  PyStr.drop_last (String.length suffix) (s ++ suffix) = s.
Proof.
  unfold PyStr.drop_last, PyStr.slice_to. rewrite length_app.
  replace (String.length s + String.length suffix - String.length suffix)%nat
    with (String.length s) by lia.
  apply substring_0_app.
Qed.

(* ================================================================== *)
(** ** The command runner *)

Lemma run_git_command_ok run self command :
  returncode (run command (repo_path self)) = 0%Z ->
  logs (run_git_command run self command)
       (Returned (Some (PyStr.strip (stdout (run command (repo_path self)))))) [].
Proof.
  intros H w. unfold run_git_command, try_except, bind, run_checked.
  rewrite H. simpl. unfold ret. now rewrite emit_nil.
Qed.

Lemma run_git_command_failed run self command :
  returncode (run command (repo_path self)) <> 0%Z ->
  logs (run_git_command run self command) (Returned None)
       (failure_lines command (run command (repo_path self))).
Proof.
  intros H w. unfold run_git_command, try_except, bind, run_checked.
  apply Z.eqb_neq in H. rewrite H.
  unfold raise, print, ret, emit, failure_lines, error_of. simpl.
  now rewrite <- app_assoc.
Qed.

Lemma run_git_command_logs run self command :
  logs (run_git_command run self command)
       (Returned (runner_result (run command (repo_path self))))
       (runner_lines command (run command (repo_path self))).
Proof.
  unfold runner_result, runner_lines.
  destruct (Z.eqb_spec (returncode (run command (repo_path self))) 0) as [E|E].
  - now apply run_git_command_ok.
  - now apply run_git_command_failed.
Qed.

(** C7, as the code has it: a non-zero exit status is caught inside the
    runner.  The runner prints the exception, which carries the exit
    status, and the captured standard-error text, and then returns
    [None] to its caller; nothing is raised. *)
Theorem run_git_command_nonzero_exit :
  forall run self command w,
    returncode (run command (repo_path self)) <> 0%Z ->
    run_git_command run self command w
    = (Returned None,
       emit w [GitCommandFailed
                 {| err_returncode := returncode (run command (repo_path self));
                    err_cmd := command;
                    err_output := stdout (run command (repo_path self));
                    err_stderr := stderr (run command (repo_path self)) |};
               Text ("Error output: "
                     ++ stderr (run command (repo_path self)))%string]).
Proof.
  intros run self command w H.
  apply (run_git_command_failed run self command H).
Qed.

Lemma run_git_command_nonzero_exit_witness :
  run_git_command failing_git {| repo_path := "/tmp/x" |} ["git"; "log"] empty_world
  = (Returned None,
     {| console :=
          [GitCommandFailed
             {| err_returncode := 128; err_cmd := ["git"; "log"];
                err_output := ""; err_stderr := "fatal: not a git repository" |};
           Text "Error output: fatal: not a git repository"];
        files := [] |}).
Proof.
  apply (run_git_command_nonzero_exit failing_git {| repo_path := "/tmp/x" |}
           ["git"; "log"] empty_world).
  simpl. discriminate.
Defined.

(** C7 as stated fails: with exit status 128 the runner completes
    normally and returns [None]; no exception reaches the caller. *)
Lemma run_git_command_does_not_raise :
  fst (run_git_command failing_git {| repo_path := "/tmp/x" |} ["git"; "log"]
         empty_world) = Returned None
  /\ ~ (exists e, fst (run_git_command failing_git {| repo_path := "/tmp/x" |}
                         ["git"; "log"] empty_world) = Raised e).
Proof.
  split; [reflexivity|]. intros [e H]. discriminate H.
Qed.

(* ================================================================== *)
(** ** Per-commit statistics *)

Lemma count_field_value f w :
  count_field f w
  = (match count_value f with Some n => Returned n | None => Raised ValueError end, w).
Proof.
  unfold count_field, count_value, int.
  destruct (f =? "-")%string; simpl; [reflexivity|].
  now destruct (PyInt.parse f).
Qed.

Lemma counted_empty : counted "" = false.
Proof. reflexivity. Qed.

Lemma numstat_line_pure st line w :
  numstat_line st line w = (Returned (numstat_step st line), w).
Proof.
  destruct st as [[a r] fs]. unfold numstat_line, numstat_step.
  destruct (String.eqb_spec line "") as [->|Hne]; cbv beta iota delta [negb].
  - now rewrite counted_empty.
  - change (3 <=? List.length (PyStr.split "009" line))%nat with (counted line).
    destruct (counted line); [|reflexivity].
    unfold try_except, bind.
    change (nth 0 (PyStr.split "009" line) "") with (field 0 TAB line).
    change (nth 1 (PyStr.split "009" line) "") with (field 1 TAB line).
    change (nth 2 (PyStr.split "009" line) "") with (field 2 TAB line).
    rewrite count_field_value.
    destruct (count_value (field 0 TAB line)) as [x|]; [|reflexivity].
    rewrite count_field_value.
    destruct (count_value (field 1 TAB line)) as [y|]; reflexivity.
Qed.

Lemma numstat_loop_pure lines st w :
  for_each lines numstat_line st w = (Returned (fold_left numstat_step lines st), w).
Proof. apply for_each_pure. apply numstat_line_pure. Qed.

Lemma get_commit_details_logs run self h :
  logs (get_commit_details run self h)
       (Returned (details_pure (run (show_command h) (repo_path self))))
       (runner_lines (show_command h) (run (show_command h) (repo_path self))).
Proof.
  intros w. unfold get_commit_details.
  fold (show_command h). unfold bind at 1.
  rewrite (run_git_command_logs run self (show_command h) w).
  set (r := run (show_command h) (repo_path self)).
  unfold details_pure.
  destruct (truthy (runner_result r)) eqn:Ht; cbv beta iota delta [negb].
  - unfold runner_result in *.
    destruct (returncode r =? 0)%Z; [|discriminate].
    rewrite strip_idem. unfold bind. rewrite numstat_loop_pure.
    destruct (fold_left numstat_step _ _) as [[a rm] fs]. reflexivity.
  - reflexivity.
Qed.

(** The loop adds up the counted lines when all their fields can be read. *)
Lemma numstat_fold_sums lines :
  (forall l, In l lines -> counted l = true ->
             field_ok (field 0 TAB l) = true /\ field_ok (field 1 TAB l) = true) ->
  forall a r fs,
    fold_left numstat_step lines (a, r, fs)
    = ((a + sum_Z (map (fun l => field_count (field 0 TAB l)) (filter counted lines)))%Z,
       (r + sum_Z (map (fun l => field_count (field 1 TAB l)) (filter counted lines)))%Z,
       fs ++ map (field 2 TAB) (filter counted lines)).
Proof.
  induction lines as [|l lines IH]; intros Hok a r fs; simpl.
  - now rewrite !Z.add_0_r, app_nil_r.
  - destruct (counted l) eqn:Hc.
    + destruct (Hok l (or_introl eq_refl) Hc) as [H0 H1].
      unfold field_ok in H0, H1.
      destruct (count_value (field 0 TAB l)) as [x|] eqn:E0; [|discriminate].
      destruct (count_value (field 1 TAB l)) as [y|] eqn:E1; [|discriminate].
      rewrite IH by (intros l0 Hl0 Hc0; apply Hok; [now right|assumption]).
      simpl. unfold field_count. rewrite E0, E1, <- app_assoc. simpl.
      now rewrite <- !Z.add_assoc.
    + apply IH. intros l0 Hl0 Hc0. apply Hok; [now right|assumption].
Qed.

Lemma count_value_none f :
  f <> "-" -> PyInt.parse f = None -> count_value f = None.
Proof.
  intros Hd Hp. unfold count_value.
  destruct (String.eqb_spec f "-"); [contradiction|assumption].
Qed.

Lemma numstat_step_unreadable st line :
  count_value (field 0 TAB line) = None \/ count_value (field 1 TAB line) = None ->
  numstat_step st line = st.
Proof.
  intros H. destruct st as [[a r] fs]. unfold numstat_step.
  destruct (counted line); [|reflexivity].
  destruct H as [-> | ->]; [reflexivity|].
  now destruct (count_value (field 0 TAB line)).
Qed.

(** C10: a stats line with three or more fields whose added or removed
    field is neither a decimal integer nor a single dash leaves the
    counters and the file list as they were, and the loop goes on: the
    result is the one of the loop over the other lines. *)
Theorem numstat_unreadable_line_skipped :
  forall run self commit_hash w pre bad post,
    let r := run (show_command commit_hash) (repo_path self) in
    returncode r = 0%Z ->
    PyStr.split NL (PyStr.strip (stdout r)) = pre ++ bad :: post ->
    counted bad = true ->
    (field 0 TAB bad <> "-" /\ PyInt.parse (field 0 TAB bad) = None)
    \/ (field 1 TAB bad <> "-" /\ PyInt.parse (field 1 TAB bad) = None) ->
    (forall st w', numstat_line st bad w' = (Returned st, w'))
    /\ get_commit_details run self commit_hash w
       = bind (for_each (pre ++ post) numstat_line (0%Z, 0%Z, []))
              (fun st => ret (details_of_state st)) w.
Proof.
  intros run self h w pre bad post r Hrc Hsplit Hcounted Hbad.
  assert (Hnone : count_value (field 0 TAB bad) = None
                  \/ count_value (field 1 TAB bad) = None).
  { destruct Hbad as [[H1 H2]|[H1 H2]]; [left|right]; now apply count_value_none. }
  split.
  - intros st w'. rewrite numstat_line_pure.
    now rewrite numstat_step_unreadable.
  - rewrite (get_commit_details_logs run self h w). fold r.
    unfold runner_lines, details_pure, runner_result. rewrite Hrc. simpl Z.eqb.
    cbv iota. rewrite emit_nil. unfold truthy.
    destruct (String.eqb_spec (PyStr.strip (stdout r)) "") as [E|_].
    + exfalso. rewrite E in Hsplit. change (PyStr.split NL "") with [""] in Hsplit.
      destruct pre as [|x [|y pre]]; simpl in Hsplit.
      * injection Hsplit as <- _. discriminate Hcounted.
      * discriminate Hsplit.
      * discriminate Hsplit.
    + cbv beta iota delta [negb]. rewrite Hsplit.
      unfold bind. rewrite numstat_loop_pure.
      rewrite !fold_left_app. simpl fold_left.
      now rewrite numstat_step_unreadable.
Qed.

Lemma numstat_unreadable_line_skipped_witness :
  numstat_line (1%Z, 2%Z, ["a.c"]) (row "x" "3" "b.c") empty_world
  = (Returned (1%Z, 2%Z, ["a.c"]), empty_world)
  /\ get_commit_details rename_row_git {| repo_path := "/tmp/x" |} "abc123" empty_world
     = (Returned {| d_linesAdded := 5; d_linesRemoved := 7;
                    d_filesModified := ["a.c"; "c.c"] |},
        empty_world).
Proof.
  destruct (numstat_unreadable_line_skipped rename_row_git {| repo_path := "/tmp/x" |}
              "abc123" empty_world
              [row "1" "2" "a.c"] (row "x" "3" "b.c") [row "4" "5" "c.c"])
    as [Hline Hrest].
  - reflexivity.
  - reflexivity.
  - reflexivity.
  - left. split; [discriminate|reflexivity].
  - split; [apply Hline|exact Hrest].
Defined.

(* ================================================================== *)
(** ** The history loop *)

Lemma utcfromtimestamp_pure t w :
  utcfromtimestamp t w = (fst (utcfromtimestamp t empty_world), w).
Proof.
  unfold utcfromtimestamp.
  destruct ((t <? - 2 ^ 63) || (2 ^ 63 <=? t))%Z; [reflexivity|].
  destruct ((t <? GMTIME_MIN) || (GMTIME_MAX <? t))%Z; [reflexivity|].
  destruct ((Datetime.EPOCH_ORDINAL + t / 86400 <? 1)
            || (Datetime.MAX_ORDINAL <? Datetime.EPOCH_ORDINAL + t / 86400))%Z;
    [reflexivity|].
  destruct (Datetime.ord2ymd (Datetime.EPOCH_ORDINAL + t / 86400)) as [[y m] d].
  reflexivity.
Qed.

Lemma format_timestamp_logs f : logs (format_timestamp f) (timestamp_result f) [].
Proof.
  intros w. rewrite emit_nil. unfold timestamp_result, format_timestamp, bind, int.
  destruct (PyInt.parse f) as [t|]; [|reflexivity].
  unfold ret at 1 3. unfold raise.
  rewrite (utcfromtimestamp_pure t w), (utcfromtimestamp_pure t empty_world).
  destruct (fst (utcfromtimestamp t empty_world)); reflexivity.
Qed.

Lemma utcfromtimestamp_in_range t :
  (MIN_TIMESTAMP <= t <= MAX_TIMESTAMP)%Z ->
  exists dt, fst (utcfromtimestamp t empty_world) = Returned dt.
Proof.
  unfold MIN_TIMESTAMP, MAX_TIMESTAMP. intros Ht. unfold utcfromtimestamp.
  destruct (Z.ltb_spec t (- 2 ^ 63)); [lia|].
  destruct (Z.leb_spec (2 ^ 63) t); [lia|]. simpl orb.
  unfold GMTIME_MIN, GMTIME_MAX.
  destruct (Z.ltb_spec t (-67768040609740800)); [lia|].
  destruct (Z.ltb_spec 67768036191676799 t); [lia|]. simpl orb. cbv iota.
  unfold Datetime.EPOCH_ORDINAL, Datetime.MAX_ORDINAL.
  destruct (Z.ltb_spec (719163 + t / 86400) 1).
  { exfalso. pose proof (Z.div_le_mono (-62135596800) t 86400 eq_refl (proj1 Ht)) as Hd.
    change (-62135596800 / 86400)%Z with (-719162)%Z in Hd. lia. }
  destruct (Z.ltb_spec 3652059 (719163 + t / 86400)).
  { exfalso. pose proof (Z.div_le_mono t 253402300799 86400 eq_refl (proj2 Ht)) as Hd.
    change (253402300799 / 86400)%Z with 2932896%Z in Hd. lia. }
  simpl orb. cbv iota.
  destruct (Datetime.ord2ymd (719163 + t / 86400)) as [[y m] d].
  eexists. reflexivity.
Qed.

Lemma valid_timestamp_returns f :
  valid_timestamp f -> timestamp_result f = Returned (timestamp_text f).
Proof.
  intros (t & Hp & Ht). unfold timestamp_text.
  enough (exists s, timestamp_result f = Returned s) as [s ->] by reflexivity.
  unfold timestamp_result, format_timestamp, bind, int. rewrite Hp.
  unfold ret at 1. rewrite (utcfromtimestamp_pure t empty_world).
  destruct (utcfromtimestamp_in_range t Ht) as [dt ->]. eexists. reflexivity.
Qed.

Lemma valid_line_empty : valid_line "" = false.
Proof. reflexivity. Qed.

Lemma commit_line_skip run self n cs i line :
  valid_line line = false ->
  logs (commit_line run self n cs (i, line)) (Returned cs) [].
Proof.
  intros Hv w. rewrite emit_nil. unfold commit_line.
  destruct (String.eqb_spec line "") as [->|_]; cbv beta iota delta [negb];
    [reflexivity|].
  change (4 <=? List.length (PyStr.split "|" line))%nat with (valid_line line).
  now rewrite Hv.
Qed.

Lemma commit_line_valid run self n cs i line :
  valid_line line = true ->
  match timestamp_result (field 3 "|" line) with
  | Returned ts =>
      logs (commit_line run self n cs (i, line))
           (Returned (cs ++ [record_of run self line]))
           (detail_lines run self line ++ progress_lines n i)
  | Raised e =>
      logs (commit_line run self n cs (i, line)) (Raised e)
           (detail_lines run self line)
  end.
Proof.
  intros Hv.
  assert (Hne : (line =? "")%string = false).
  { destruct (String.eqb_spec line "") as [->|_]; [discriminate Hv|reflexivity]. }
  unfold commit_line. rewrite Hne. cbv beta iota delta [negb].
  change (4 <=? List.length (PyStr.split "|" line))%nat with (valid_line line).
  rewrite Hv.
  change (nth 0 (PyStr.split "|" line) "") with (field 0 "|" line).
  change (nth 1 (PyStr.split "|" line) "") with (field 1 "|" line).
  change (nth 2 (PyStr.split "|" line) "") with (field 2 "|" line).
  change (nth 3 (PyStr.split "|" line) "") with (field 3 "|" line).
  unfold record_of, timestamp_text.
  pose proof (get_commit_details_logs run self (field 0 "|" line)) as Hd.
  pose proof (format_timestamp_logs (field 3 "|" line)) as Ht.
  fold (detail_lines run self line) in Hd.
  destruct (timestamp_result (field 3 "|" line)) as [ts|e].
  - intros w. unfold bind. rewrite Hd, Ht, emit_nil.
    unfold progress_lines. fold (processed_line i n).
    destruct ((i + 1) mod 10 =? 0)%nat.
    + unfold print, ret, emit. simpl. now rewrite app_assoc.
    + unfold ret. now rewrite app_nil_r.
  - intros w. unfold bind. now rewrite Hd, Ht, emit_nil.
Qed.

Lemma commit_loop_logs run self n ils :
  (forall il, In il ils -> valid_line (snd il) = true ->
              valid_timestamp (field 3 "|" (snd il))) ->
  forall cs,
    logs (for_each ils (commit_line run self n) cs)
         (Returned (cs ++ flat_map (fun il => line_records run self (snd il)) ils))
         (flat_map (line_console run self n) ils).
Proof.
  induction ils as [|[i line] ils IH]; intros Hts cs; simpl.
  - rewrite app_nil_r. apply logs_ret.
  - unfold line_records at 1, line_console at 1. simpl fst. simpl snd.
    destruct (valid_line line) eqn:Hv.
    + pose proof (commit_line_valid run self n cs i line Hv) as Hl.
      pose proof (Hts (i, line) (or_introl eq_refl) Hv) as Hvt. cbn [snd] in Hvt.
      rewrite (valid_timestamp_returns _ Hvt) in Hl.
      eapply logs_bind; [exact Hl|].
      replace (cs ++ [record_of run self line]
                  ++ flat_map (fun il => line_records run self (snd il)) ils)
        with ((cs ++ [record_of run self line])
                ++ flat_map (fun il => line_records run self (snd il)) ils)
        by now rewrite <- app_assoc.
      apply IH. intros il Hil. apply Hts. now right.
    + change (flat_map (line_console run self n) ils)
        with ([] ++ flat_map (line_console run self n) ils).
      eapply logs_bind; [now apply commit_line_skip|].
      simpl app. apply IH. intros il Hil. apply Hts. now right.
Qed.

Lemma in_enumerate {A} (l : list A) i x :
  In (i, x) (enumerate l) -> In x l.
Proof. unfold enumerate. apply in_combine_r. Qed.

Lemma flat_map_enumerate {A B} (f : A -> list B) (l : list A) :
  flat_map (fun il : nat * A => f (snd il)) (enumerate l) = flat_map f l.
Proof.
  unfold enumerate. generalize 0%nat.
  induction l as [|x l IHl]; intros k; [reflexivity|].
  cbn [List.length seq combine flat_map snd]. now rewrite IHl.
Qed.

Lemma get_commits_logs run self limit :
  let r := run (log_command limit) (repo_path self) in
  returncode r = 0%Z ->
  PyStr.strip (stdout r) <> "" ->
  (forall line, In line (history_lines r) -> valid_line line = true ->
                valid_timestamp (field 3 "|" line)) ->
  logs (get_commits run self limit)
       (Returned (flat_map (line_records run self) (history_lines r)))
       (processing_line (List.length (history_lines r))
        :: flat_map (line_console run self (List.length (history_lines r)))
             (enumerate (history_lines r))).
Proof.
  intros r Hrc Hne Hts w. unfold get_commits.
  change ["git"; "log"; ("--format=" ++ "%H|%an|%ae|%at")%string;
          ("-n" ++ PyInt.str limit)%string] with (log_command limit).
  unfold bind at 1. rewrite (run_git_command_ok run self (log_command limit) Hrc w).
  fold r. rewrite emit_nil. unfold truthy.
  destruct (String.eqb_spec (PyStr.strip (stdout r)) "") as [E|_]; [contradiction|].
  cbv beta iota delta [negb]. fold (history_lines r).
  fold (processing_line (List.length (history_lines r))).
  pose proof (commit_loop_logs run self (List.length (history_lines r))
                (enumerate (history_lines r))) as Hloop.
  assert (Hts' : forall il, In il (enumerate (history_lines r)) ->
                            valid_line (snd il) = true ->
                            valid_timestamp (field 3 "|" (snd il))).
  { intros [i line] Hil. apply Hts. now apply in_enumerate in Hil. }
  specialize (Hloop Hts' []). simpl app in Hloop.
  assert (Hmap : flat_map (fun il : nat * string => line_records run self (snd il))
                   (enumerate (history_lines r))
                 = flat_map (line_records run self) (history_lines r)).
  { apply flat_map_enumerate. }
  rewrite Hmap in Hloop.
  pose proof (logs_bind _ (fun _ => _) tt _ _ _
                (logs_print (processing_line (List.length (history_lines r))))
                Hloop) as H.
  apply H.
Qed.

Lemma unreadable_timestamp_raises f :
  PyInt.parse f = None -> timestamp_result f = Raised ValueError.
Proof.
  intros H. unfold timestamp_result, format_timestamp, bind, int. now rewrite H.
Qed.

Lemma commit_loop_raises run self n e :
  forall l a k bad cs,
    nth_error l k = Some bad ->
    valid_line bad = true ->
    timestamp_result (field 3 "|" bad) = Raised e ->
    (forall j line, (j < k)%nat -> nth_error l j = Some line ->
                    valid_line line = true -> valid_timestamp (field 3 "|" line)) ->
    exists ls,
      logs (for_each (combine (seq a (List.length l)) l) (commit_line run self n) cs)
           (Raised e) ls.
Proof.
  induction l as [|x l IH]; intros a k bad cs Hk Hv He Hbefore.
  - destruct k; discriminate Hk.
  - cbn [List.length seq combine for_each]. destruct k as [|k].
    + injection Hk as ->.
      pose proof (commit_line_valid run self n cs a bad Hv) as Hl.
      rewrite He in Hl. eexists. apply logs_bind_raised. exact Hl.
    + simpl in Hk.
      destruct (IH (S a) k bad) with (cs := cs) as [ls1 H1]; try assumption.
      { intros j line Hj Hnth. apply (Hbefore (S j)); [lia|exact Hnth]. }
      destruct (valid_line x) eqn:Hx.
      * pose proof (commit_line_valid run self n cs a x Hx) as Hl.
        assert (Hvt : valid_timestamp (field 3 "|" x)).
        { apply (Hbefore 0%nat); [lia|reflexivity|assumption]. }
        rewrite (valid_timestamp_returns _ Hvt) in Hl.
        destruct (IH (S a) k bad) with (cs := cs ++ [record_of run self x])
          as [ls2 H2]; try assumption.
        { intros j line Hj Hnth. apply (Hbefore (S j)); [lia|exact Hnth]. }
        eexists. eapply logs_bind; [exact Hl|exact H2].
      * eexists. eapply logs_bind; [now apply commit_line_skip|exact H1].
Qed.

(** C1, where the code departs from it: a history line with four or
    more fields whose fourth field is not an integer makes [get_commits]
    raise [ValueError], when the lines before it were processed. *)
Theorem get_commits_unreadable_timestamp_raises :
  forall run self limit w k bad,
    let r := run (log_command limit) (repo_path self) in
    returncode r = 0%Z ->
    PyStr.strip (stdout r) <> "" ->
    nth_error (history_lines r) k = Some bad ->
    valid_line bad = true ->
    PyInt.parse (field 3 "|" bad) = None ->
    (forall j line, (j < k)%nat -> nth_error (history_lines r) j = Some line ->
                    valid_line line = true -> valid_timestamp (field 3 "|" line)) ->
    fst (get_commits run self limit w) = Raised ValueError.
Proof.
  intros run self limit w k bad r Hrc Hne Hk Hv Hp Hbefore.
  destruct (commit_loop_raises run self (List.length (history_lines r)) ValueError
              (history_lines r) 0%nat k bad [] Hk Hv
              (unreadable_timestamp_raises _ Hp) Hbefore) as [ls Hloop].
  unfold get_commits.
  change ["git"; "log"; ("--format=" ++ "%H|%an|%ae|%at")%string;
          ("-n" ++ PyInt.str limit)%string] with (log_command limit).
  unfold bind at 1. rewrite (run_git_command_ok run self (log_command limit) Hrc w).
  fold r. rewrite emit_nil. unfold truthy.
  destruct (String.eqb_spec (PyStr.strip (stdout r)) "") as [E|_]; [contradiction|].
  cbv beta iota delta [negb]. fold (history_lines r).
  unfold bind, print. unfold enumerate. rewrite Hloop. reflexivity.
Qed.

Lemma get_commits_unreadable_timestamp_raises_witness :
  fst (get_commits piped_author_git {| repo_path := "/tmp/x" |} 100 empty_world)
  = Raised ValueError.
Proof.
  apply (get_commits_unreadable_timestamp_raises piped_author_git
           {| repo_path := "/tmp/x" |} 100 empty_world 0
           "abc123|Ada|Lovelace|ada@x.com|1700000000").
  - reflexivity.
  - discriminate.
  - reflexivity.
  - reflexivity.
  - reflexivity.
  - intros j line Hj. lia.
Defined.

(** X19: when the detail query of a commit fails or prints nothing,
    [get_commit_details] returns zeros and no files, and [get_commits],
    run on a history whose timestamps can be read, returns a list that
    holds the record of that commit with these values. *)
Theorem empty_details_are_zeros :
  forall run self commit_hash w,
    let r := run (show_command commit_hash) (repo_path self) in
    returncode r <> 0%Z \/ PyStr.strip (stdout r) = "" ->
    fst (get_commit_details run self commit_hash w)
    = Returned {| d_linesAdded := 0; d_linesRemoved := 0; d_filesModified := [] |}
    /\ forall limit line,
        let h := run (log_command limit) (repo_path self) in
        returncode h = 0%Z ->
        PyStr.strip (stdout h) <> "" ->
        (forall l, In l (history_lines h) -> valid_line l = true ->
                   valid_timestamp (field 3 "|" l)) ->
        In line (history_lines h) ->
        valid_line line = true ->
        field 0 "|" line = commit_hash ->
        exists cs w',
          get_commits run self limit w = (Returned cs, w')
          /\ In {| hash := commit_hash;
                   author := field 1 "|" line;
                   email := field 2 "|" line;
                   timestamp := timestamp_text (field 3 "|" line);
                   linesAdded := 0;
                   linesRemoved := 0;
                   filesModified := [] |} cs.
Proof.
  intros run self h w r Hempty.
  assert (Hd : details_pure r = no_details).
  { unfold details_pure, runner_result, truthy.
    destruct Hempty as [Hrc | Hout].
    - apply Z.eqb_neq in Hrc. now rewrite Hrc.
    - destruct (returncode r =? 0)%Z; [|reflexivity]. now rewrite Hout. }
  split.
  - rewrite (get_commit_details_logs run self h w). fold r. now rewrite Hd.
  - intros limit line hist Hrc Hne Hts Hin Hv Hh.
    pose proof (get_commits_logs run self limit Hrc Hne Hts w) as Hc.
    fold hist in Hc. eexists. eexists. split; [exact Hc|].
    apply in_flat_map. exists line. split; [assumption|].
    unfold line_records. rewrite Hv. left.
    unfold record_of. rewrite Hh. fold r. now rewrite Hd.
Qed.

Lemma empty_details_are_zeros_witness :
  fst (get_commit_details missing_object_git {| repo_path := "/tmp/x" |} "abc123"
         empty_world)
  = Returned {| d_linesAdded := 0; d_linesRemoved := 0; d_filesModified := [] |}
  /\ exists cs w',
      get_commits missing_object_git {| repo_path := "/tmp/x" |} 100 empty_world
      = (Returned cs, w')
      /\ In {| hash := "abc123"; author := "Ada"; email := "ada@x.com";
               timestamp := "2023-11-14T22:13:20Z";
               linesAdded := 0; linesRemoved := 0; filesModified := [] |} cs.
Proof.
  destruct (empty_details_are_zeros missing_object_git {| repo_path := "/tmp/x" |}
              "abc123" empty_world) as [H1 H2].
  - left. simpl. discriminate.
  - split; [exact H1|].
    apply (H2 100%Z "abc123|Ada|ada@x.com|1700000000").
    + reflexivity.
    + discriminate.
    + intros l Hl _. vm_compute in Hl. destruct Hl as [<-|[]].
      exists 1700000000%Z. split; [reflexivity|].
      unfold MIN_TIMESTAMP, MAX_TIMESTAMP. lia.
    + now left.
    + reflexivity.
    + reflexivity.
Defined.

(** C8, where the code departs from it: the detail query of a commit
    fails or prints nothing and [get_commit_details] returns zeros and
    no files for it, but the run does not complete: the fourth field of
    the commit's history line is not an integer, and [get_commits]
    raises [ValueError] when it reaches the line.  The conversion of the
    timestamp has no handler around it; this is the defect of C1. *)
Theorem get_commits_aborts_after_empty_details :
  forall run self limit w k bad,
    let r := run (log_command limit) (repo_path self) in
    let r' := run (show_command (field 0 "|" bad)) (repo_path self) in
    returncode r = 0%Z ->
    PyStr.strip (stdout r) <> "" ->
    nth_error (history_lines r) k = Some bad ->
    valid_line bad = true ->
    returncode r' <> 0%Z \/ PyStr.strip (stdout r') = "" ->
    PyInt.parse (field 3 "|" bad) = None ->
    (forall j line, (j < k)%nat -> nth_error (history_lines r) j = Some line ->
                    valid_line line = true -> valid_timestamp (field 3 "|" line)) ->
    fst (get_commit_details run self (field 0 "|" bad) w)
    = Returned {| d_linesAdded := 0; d_linesRemoved := 0; d_filesModified := [] |}
    /\ fst (get_commits run self limit w) = Raised ValueError.
Proof.
  intros run self limit w k bad r r' Hrc Hne Hk Hv Hempty Hp Hbefore. split.
  - rewrite (get_commit_details_logs run self (field 0 "|" bad) w). fold r'.
    cbn [fst]. f_equal. unfold details_pure, runner_result, truthy.
    destruct Hempty as [Hrc' | Hout].
    + apply Z.eqb_neq in Hrc'. now rewrite Hrc'.
    + destruct (returncode r' =? 0)%Z; [|reflexivity]. now rewrite Hout.
  - destruct (commit_loop_raises run self (List.length (history_lines r)) ValueError
                (history_lines r) 0%nat k bad [] Hk Hv
                (unreadable_timestamp_raises _ Hp) Hbefore) as [ls Hloop].
    unfold get_commits.
    change ["git"; "log"; ("--format=" ++ "%H|%an|%ae|%at")%string;
            ("-n" ++ PyInt.str limit)%string] with (log_command limit).
    unfold bind at 1. rewrite (run_git_command_ok run self (log_command limit) Hrc w).
    fold r. rewrite emit_nil. unfold truthy.
    destruct (String.eqb_spec (PyStr.strip (stdout r)) "") as [E|_]; [contradiction|].
    cbv beta iota delta [negb]. fold (history_lines r).
    unfold bind, print. unfold enumerate. rewrite Hloop. reflexivity.
Qed.

Lemma get_commits_aborts_after_empty_details_witness :
  fst (get_commit_details piped_author_git {| repo_path := "/tmp/x" |} "abc123"
         empty_world)
  = Returned {| d_linesAdded := 0; d_linesRemoved := 0; d_filesModified := [] |}
  /\ fst (get_commits piped_author_git {| repo_path := "/tmp/x" |} 100 empty_world)
     = Raised ValueError.
Proof.
  apply (get_commits_aborts_after_empty_details piped_author_git
           {| repo_path := "/tmp/x" |} 100 empty_world 0
           "abc123|Ada|Lovelace|ada@x.com|1700000000").
  - reflexivity.
  - discriminate.
  - reflexivity.
  - reflexivity.
  - right. reflexivity.
  - reflexivity.
  - intros j line Hj. lia.
Defined.

(* ================================================================== *)
(** ** The repository name *)

Lemma get_repository_name_logs run self :
  let r := run config_command (repo_path self) in
  let seg := PyStr.last_item (PyStr.split "/" (PyStr.strip (stdout r))) in
  logs (get_repository_name run self)
       (Returned
          (if truthy (runner_result r)
           then if PyStr.endswith seg ".git" then PyStr.drop_last 4 seg else seg
           else OsPath.basename (OsPath.dirname (repo_path self))))
       (runner_lines config_command r).
Proof.
  intros r seg w. unfold get_repository_name. fold config_command.
  unfold bind. rewrite (run_git_command_logs run self config_command w). fold r.
  unfold runner_result, truthy.
  destruct (returncode r =? 0)%Z; [|reflexivity].
  destruct (String.eqb_spec (PyStr.strip (stdout r)) "") as [E|_];
    cbv beta iota delta [negb]; [reflexivity|].
  fold seg. now destruct (PyStr.endswith seg ".git").
Qed.

Lemma endswith_length s suffix :
  PyStr.endswith s suffix = true -> (String.length suffix <= String.length s)%nat.
Proof.
  unfold PyStr.endswith. intros H. apply andb_prop in H as [H _].
  now apply Nat.leb_le.
Qed.

Lemma substring_full s : substring 0 (String.length s) s = s.
Proof. induction s as [|c s IH]; simpl; [reflexivity|now rewrite IH]. Qed.

Lemma endswith_whole s suffix :
  PyStr.endswith s suffix = true -> String.length s = String.length suffix ->
  s = suffix.
Proof.
  unfold PyStr.endswith, PyStr.slice_from. intros H Hlen.
  apply andb_prop in H as [_ H]. apply String.eqb_eq in H.
  rewrite Hlen, Nat.sub_diag, Nat.sub_0_r, <- Hlen in H.
  now rewrite substring_full in H.
Qed.

Lemma length_substring_0 n s :
  (n <= String.length s)%nat -> String.length (substring 0 n s) = n.
Proof.
  revert s. induction n as [|n IH]; intros s Hn.
  - now destruct s.
  - destruct s as [|c s]; simpl in *; [lia|]. rewrite IH by lia. reflexivity.
Qed.

Lemma length_zero s : String.length s = 0%nat -> s = "".
Proof. destruct s; [reflexivity|discriminate]. Qed.

Lemma rfind_succ_absent c s :
  (forall x, In x (list_ascii_of_string s) -> x <> c) -> PyStr.rfind_succ c s = 0%nat.
Proof.
  induction s as [|a s IH]; intros H; cbn [PyStr.rfind_succ]; [reflexivity|].
  rewrite IH by (intros x Hx; apply H; now right).
  destruct (Ascii.eqb_spec a c) as [->|_]; [|reflexivity].
  now elim (H c (or_introl eq_refl)).
Qed.

(** A path without a slash has no directory part. *)
Lemma fallback_without_slash p :
  (forall x, In x (list_ascii_of_string p) -> x <> "/"%char) ->
  OsPath.basename (OsPath.dirname p) = "".
Proof.
  intros H. unfold OsPath.dirname. rewrite (rfind_succ_absent "/" p H).
  unfold PyStr.slice_to. replace (substring 0 0 p) with "" by now destruct p.
  reflexivity.
Qed.

(** C3, where the code departs from it: the name is empty when the
    remote URL ends with a slash, and when there is no remote URL and
    the repository path has no slash in it, as the path "." has. *)
Theorem get_repository_name_empty :
  forall run self w,
    let r := run config_command (repo_path self) in
    let url := PyStr.strip (stdout r) in
    (returncode r = 0%Z -> (exists pre, url = (pre ++ "/")%string) ->
     get_repository_name run self w = (Returned "", w))
    /\ (returncode r <> 0%Z \/ url = "" ->
        (forall c, In c (list_ascii_of_string (repo_path self)) -> c <> "/"%char) ->
        fst (get_repository_name run self w) = Returned "").
Proof.
  intros run self w r url.
  pose proof (get_repository_name_logs run self w) as H. cbv zeta in H.
  fold r in H. fold url in H. rewrite H. split.
  - intros Hrc [pre Hurl].
    assert (Hseg : final_segment url "").
    { split; [intros c []|]. right. exists pre. rewrite Hurl. cbn [append].
      reflexivity. }
    rewrite (final_segment_last url "" Hseg).
    unfold runner_result, runner_lines, truthy. rewrite Hrc. simpl Z.eqb. cbv iota.
    fold url. rewrite emit_nil.
    destruct (String.eqb_spec url "") as [E|_].
    + rewrite E in Hurl. destruct pre; discriminate Hurl.
    + reflexivity.
  - intros Hfail Hpath. cbn [fst]. f_equal.
    rewrite (fallback_without_slash _ Hpath).
    unfold runner_result, truthy. destruct Hfail as [Hrc | Hurl].
    + apply Z.eqb_neq in Hrc. now rewrite Hrc.
    + destruct (returncode r =? 0)%Z; [|reflexivity]. fold url. now rewrite Hurl.
Qed.

Lemma get_repository_name_empty_witness :
  get_repository_name trailing_slash_git {| repo_path := "/home/ada/my-repo" |}
    empty_world
  = (Returned "", empty_world)
  /\ fst (get_repository_name no_remote_git {| repo_path := "." |} empty_world)
     = Returned "".
Proof.
  split.
  - apply (proj1 (get_repository_name_empty trailing_slash_git
                    {| repo_path := "/home/ada/my-repo" |} empty_world)).
    + reflexivity.
    + exists "https://example.com/org/my-repo". reflexivity.
  - apply (proj2 (get_repository_name_empty no_remote_git {| repo_path := "." |}
                    empty_world)).
    + left. discriminate.
    + intros c [<-|[]]. discriminate.
Defined.

(** X18: a name that [get_repository_name] returns is, when the query
    for the remote URL gave one, the final path segment of the URL
    without one trailing ".git", which is not empty when the segment is
    neither empty nor ".git" alone; and otherwise the base name of the
    directory part of the repository path. *)
Theorem get_repository_name_spec :
  forall run self w name w',
    let r := run config_command (repo_path self) in
    let url := PyStr.strip (stdout r) in
    get_repository_name run self w = (Returned name, w') ->
    (returncode r = 0%Z -> url <> "" ->
     forall seg, final_segment url seg ->
       (forall base, seg = (base ++ ".git")%string -> name = base)
       /\ (PyStr.endswith seg ".git" = false -> name = seg)
       /\ (seg <> "" -> seg <> ".git" -> name <> ""))
    /\ (returncode r <> 0%Z \/ url = "" ->
        name = OsPath.basename (OsPath.dirname (repo_path self))).
Proof.
  intros run self w name w' r url Hrun.
  pose proof (get_repository_name_logs run self w) as H. cbv zeta in H. fold r in H.
  rewrite H in Hrun. injection Hrun as <- _. fold url. split.
  - intros Hrc Hurl seg Hseg.
    rewrite (final_segment_last url seg Hseg).
    unfold runner_result, truthy. rewrite Hrc. simpl Z.eqb. cbv iota. fold url.
    destruct (String.eqb_spec url "") as [E|_]; [contradiction|].
    cbv beta iota delta [negb]. split; [|split].
    + intros base ->. rewrite endswith_app.
      apply (drop_last_app base ".git").
    + now intros ->.
    + intros Hne Hgit. destruct (PyStr.endswith seg ".git") eqn:He; [|assumption].
      intros Hempty. apply Hgit. apply endswith_whole; [assumption|].
      pose proof (endswith_length _ _ He) as Hlen.
      unfold PyStr.drop_last, PyStr.slice_to in Hempty.
      assert (Hl : String.length (substring 0 (String.length seg - 4) seg) = 0%nat)
        by now rewrite Hempty.
      rewrite length_substring_0 in Hl by lia. simpl in Hlen |- *. lia.
  - intros Hfail. unfold runner_result, truthy.
    destruct Hfail as [Hrc | Hurl].
    + apply Z.eqb_neq in Hrc. now rewrite Hrc.
    + destruct (returncode r =? 0)%Z; [|reflexivity]. fold url. now rewrite Hurl.
Qed.

Lemma get_repository_name_spec_witness :
  (get_repository_name hosted_git {| repo_path := "/home/ada/my-repo" |} empty_world
   = (Returned "my-repo", empty_world)
   /\ "my-repo" <> "")
  /\ (fst (get_repository_name no_remote_git {| repo_path := "/home/ada/my-repo" |}
             empty_world)
      = Returned "ada"
      /\ "ada" = OsPath.basename (OsPath.dirname "/home/ada/my-repo")).
Proof.
  split; (split; [reflexivity|]).
  - destruct (get_repository_name_spec hosted_git {| repo_path := "/home/ada/my-repo" |}
                empty_world "my-repo" empty_world eq_refl) as [Hurl _].
    apply (Hurl eq_refl) with (seg := "my-repo.git").
    + discriminate.
    + split.
      * intros c Hc. vm_compute in Hc. intros ->.
        repeat (destruct Hc as [Hc|Hc]; [discriminate Hc|]). exact Hc.
      * right. exists "https://example.com/org". reflexivity.
    + discriminate.
    + discriminate.
  - destruct (get_repository_name_spec no_remote_git {| repo_path := "/home/ada/my-repo" |}
                empty_world "ada" (emit empty_world (failure_lines config_command
                   (no_remote_git config_command "/home/ada/my-repo"))) eq_refl)
      as [_ Hfall].
    apply Hfall. left. discriminate.
Defined.

(* ================================================================== *)
(** ** Signs of the counters *)

Lemma digit_of_bounds c d : PyInt.digit_of c = Some d -> (0 <= d <= 9)%Z.
Proof.
  unfold PyInt.digit_of.
  destruct ((48 <=? nat_of_ascii c)%nat && (nat_of_ascii c <=? 57)%nat) eqn:H;
    [|discriminate].
  apply andb_prop in H as [H1 H2]. apply Nat.leb_le in H1, H2.
  intros [= <-]. lia.
Qed.

Lemma scan_digits_nonneg s :
  forall acc prev n,
    (0 <= acc)%Z -> PyInt.scan_digits acc prev s = Some n -> (0 <= n)%Z.
Proof.
  induction s as [|c s IH]; intros acc prev n Hacc; cbn [PyInt.scan_digits].
  - destruct prev; [|discriminate]. now intros [= <-].
  - destruct (PyInt.digit_of c) as [d|] eqn:Hd.
    + apply IH. apply digit_of_bounds in Hd. lia.
    + destruct (Ascii.eqb c "_" && prev); [|discriminate]. now apply IH.
Qed.

(** What [int] reads is the value of the literal. *)
Lemma parse_literal f n : PyInt.parse f = Some n -> PyInt.literal f = Some n.
Proof.
  unfold PyInt.parse.
  now destruct (PyInt.MAX_STR_DIGITS <? PyInt.count_digits f)%nat.
Qed.

Lemma parse_no_minus_nonneg f n :
  no_minus f -> PyInt.parse f = Some n -> (0 <= n)%Z.
Proof.
  intros Hf Hp. apply parse_literal in Hp. revert Hp. unfold PyInt.literal.
  destruct (PyStr.rstrip_by PyInt.int_space (PyStr.lstrip_by PyInt.int_space f))
    as [|c r] eqn:E; [discriminate|].
  destruct (Ascii.eqb c "+"); [now apply scan_digits_nonneg|].
  destruct (Ascii.eqb_spec c "-") as [->|_]; [|now apply scan_digits_nonneg].
  exfalso. apply (Hf "-"%char); [|reflexivity].
  apply lstrip_by_incl with (p := PyInt.int_space).
  apply rstrip_by_incl with (p := PyInt.int_space).
  rewrite E. now left.
Qed.

Lemma count_value_nonneg f n :
  f = "-" \/ no_minus f -> count_value f = Some n -> (0 <= n)%Z.
Proof.
  unfold count_value. intros Hf.
  destruct (String.eqb_spec f "-") as [->|Hne].
  - intros [= <-]. lia.
  - destruct Hf as [->|Hf]; [contradiction|]. now apply parse_no_minus_nonneg.
Qed.

Lemma numstat_fold_nonneg lines :
  (forall l, In l lines -> counted l = true ->
             (field 0 TAB l = "-" \/ no_minus (field 0 TAB l))
             /\ (field 1 TAB l = "-" \/ no_minus (field 1 TAB l))) ->
  forall a r fs,
    (0 <= a)%Z -> (0 <= r)%Z ->
    let st := fold_left numstat_step lines (a, r, fs) in
    (0 <= fst (fst st))%Z /\ (0 <= snd (fst st))%Z.
Proof.
  induction lines as [|l lines IH]; intros Hok a r fs Ha Hr; simpl.
  - now split.
  - destruct (counted l) eqn:Hc.
    + destruct (Hok l (or_introl eq_refl) Hc) as [H0 H1].
      destruct (count_value (field 0 TAB l)) as [x|] eqn:E0.
      * destruct (count_value (field 1 TAB l)) as [y|] eqn:E1.
        -- apply IH.
           ++ intros l0 Hl0. apply Hok. now right.
           ++ pose proof (count_value_nonneg _ _ H0 E0). lia.
           ++ pose proof (count_value_nonneg _ _ H1 E1). lia.
        -- apply IH; [intros l0 Hl0; apply Hok; now right|assumption..].
      * apply IH; [intros l0 Hl0; apply Hok; now right|assumption..].
    + apply IH; [intros l0 Hl0; apply Hok; now right|assumption..].
Qed.

Lemma details_pure_nonneg r :
  unsigned_counts (stdout r) ->
  (0 <= d_linesAdded (details_pure r))%Z /\ (0 <= d_linesRemoved (details_pure r))%Z.
Proof.
  intros H. unfold details_pure.
  destruct (truthy (runner_result r)); [|simpl; lia].
  pose proof (numstat_fold_nonneg _ H 0%Z 0%Z [] (Z.le_refl 0) (Z.le_refl 0)) as Hn.
  cbv zeta in Hn.
  destruct (fold_left numstat_step _ _) as [[a rm] fs]. exact Hn.
Qed.

Lemma commit_line_returned run self n cs il w cs' w' :
  commit_line run self n cs il w = (Returned cs', w') ->
  cs' = cs \/ cs' = cs ++ [record_of run self (snd il)].
Proof.
  destruct il as [i line]. cbn [snd]. intros H.
  destruct (valid_line line) eqn:Hv.
  - pose proof (commit_line_valid run self n cs i line Hv) as Hl.
    destruct (timestamp_result (field 3 "|" line)).
    + rewrite Hl in H. injection H as <- _. now right.
    + rewrite Hl in H. discriminate H.
  - rewrite (commit_line_skip run self n cs i line Hv) in H.
    injection H as <- _. now left.
Qed.

Lemma commit_loop_returned run self n (P : commit -> Prop) ils :
  (forall il, In il ils -> P (record_of run self (snd il))) ->
  forall cs w cs' w',
    Forall P cs ->
    for_each ils (commit_line run self n) cs w = (Returned cs', w') ->
    Forall P cs'.
Proof.
  induction ils as [|il ils IH]; intros HP cs w cs' w' Hcs; simpl.
  - unfold ret. now intros [= <- _].
  - unfold bind. destruct (commit_line run self n cs il w) as [[cs1|e] w1] eqn:E;
      [|discriminate].
    apply IH; [intros il' Hil'; apply HP; now right|].
    apply commit_line_returned in E as [->| ->]; [assumption|].
    apply Forall_app. split; [assumption|].
    constructor; [|constructor]. apply HP. now left.
Qed.

Lemma get_commits_returned run self limit (P : commit -> Prop) :
  (forall line, P (record_of run self line)) ->
  forall w cs w',
    get_commits run self limit w = (Returned cs, w') -> Forall P cs.
Proof.
  intros HP w cs w'. unfold get_commits, bind at 1.
  destruct (run_git_command run self _ w) as [[output|e] w1]; [|discriminate].
  destruct (truthy output); cbv beta iota delta [negb].
  - unfold bind, print. apply commit_loop_returned; [|constructor].
    intros il _. apply HP.
  - unfold ret. intros [= <- _]. constructor.
Qed.

Lemma bind_returned {A B} (m : Py A) (k : A -> Py B) w b w' :
  bind m k w = (Returned b, w') ->
  exists a w1, m w = (Returned a, w1) /\ k a w1 = (Returned b, w').
Proof.
  unfold bind. destruct (m w) as [[a|e] w1]; [|discriminate].
  intros H. now exists a, w1.
Qed.

(** C4, as the code has it: when no count field of any stats output
    carries a minus sign, apart from the lone dash of a binary file,
    every record that [get_commits] returns, and every record of the
    report of [analyze_repository], has linesAdded and linesRemoved at
    least zero. *)
Theorem line_counts_nonneg :
  forall run self limit,
    (forall h, unsigned_counts (stdout (run (show_command h) (repo_path self)))) ->
    (forall w cs w',
        get_commits run self limit w = (Returned cs, w') ->
        forall c, In c cs -> (0 <= linesAdded c)%Z /\ (0 <= linesRemoved c)%Z)
    /\ (forall w rep w',
           analyze_repository run self limit w = (Returned rep, w') ->
           forall c, In c (commits rep) ->
                     (0 <= linesAdded c)%Z /\ (0 <= linesRemoved c)%Z).
Proof.
  intros run self limit Hun.
  assert (Hget : forall w cs w',
             get_commits run self limit w = (Returned cs, w') ->
             forall c, In c cs -> (0 <= linesAdded c)%Z /\ (0 <= linesRemoved c)%Z).
  { intros w cs w' H.
    apply (get_commits_returned run self limit
             (fun c => (0 <= linesAdded c)%Z /\ (0 <= linesRemoved c)%Z)) in H.
    - intros c Hc. rewrite Forall_forall in H. now apply H.
    - intros line. unfold record_of. simpl. apply details_pure_nonneg, Hun. }
  split; [exact Hget|].
  intros w rep w' H. unfold analyze_repository in H.
  apply bind_returned in H as (_ & w1 & _ & H).
  apply bind_returned in H as (name & w2 & _ & H).
  apply bind_returned in H as (_ & w3 & _ & H).
  apply bind_returned in H as (cs & w4 & Hcs & H).
  unfold ret in H. injection H as <- _. simpl. now apply (Hget w3 cs w4).
Qed.

Lemma plain_git_unsigned h :
  unsigned_counts (stdout (plain_git (show_command h) "/tmp/x")).
Proof.
  intros l Hl _. vm_compute in Hl. destruct Hl as [<-|[]].
  split; right; intros c Hc; vm_compute in Hc; intros ->;
    repeat (destruct Hc as [Hc|Hc]; [discriminate Hc|]); exact Hc.
Defined.

Lemma line_counts_nonneg_witness :
  Forall (fun c => (0 <= linesAdded c)%Z /\ (0 <= linesRemoved c)%Z)
    [{| hash := "abc123"; author := "Ada"; email := "ada@x.com";
        timestamp := "2023-11-14T22:13:20Z";
        linesAdded := 10; linesRemoved := 2; filesModified := ["file.go"] |}].
Proof.
  destruct (line_counts_nonneg plain_git {| repo_path := "/tmp/x" |} 100
              plain_git_unsigned) as [Hget _].
  apply Forall_forall.
  apply (Hget empty_world _ (emit empty_world [processing_line 1])).
  reflexivity.
Defined.

(** C4 as stated fails over arbitrary stats text: [int] reads a signed
    literal, and the counters follow it below zero. *)
Lemma line_counts_can_be_negative :
  fst (get_commits negative_count_git {| repo_path := "/tmp/x" |} 100 empty_world)
  = Returned [{| hash := "abc123"; author := "Ada"; email := "ada@x.com";
                 timestamp := "2023-11-14T22:13:20Z";
                 linesAdded := -5; linesRemoved := -7;
                 filesModified := ["file.go"] |}]
  /\ ~ (0 <= -5)%Z.
Proof. split; [reflexivity|lia]. Qed.

(* ================================================================== *)
(** ** Progress messages *)

Lemma line_records_all_valid run self lines :
  (forall line, In line lines -> valid_line line = true) ->
  flat_map (line_records run self) lines = map (record_of run self) lines.
Proof.
  induction lines as [|l lines IH]; intros Hv; simpl; [reflexivity|].
  unfold line_records at 1. rewrite (Hv l (or_introl eq_refl)). simpl.
  f_equal. apply IH. intros line Hl. apply Hv. now right.
Qed.

Lemma line_console_all_valid run self n ils :
  (forall il, In il ils -> valid_line (snd il) = true) ->
  flat_map (line_console run self n) ils
  = flat_map (fun il => detail_lines run self (snd il) ++ progress_lines n (fst il)) ils.
Proof.
  induction ils as [|il ils IH]; intros Hv; simpl; [reflexivity|].
  unfold line_console at 1. rewrite (Hv il (or_introl eq_refl)).
  f_equal. apply IH. intros il' Hil'. apply Hv. now right.
Qed.

(** C5, as the code has it: the first progress message announces the
    number of lines of the history output; after that, each line that
    yields a record and stands at a position that is a multiple of ten
    is followed by one incremental message, with that position in it.
    When no line is skipped the positions are the numbers of records
    completed: the announced total is the number of records, and the
    messages come after the 10th, 20th, ... record. *)
Theorem progress_follows_line_positions :
  forall run self limit w,
    let r := run (log_command limit) (repo_path self) in
    let lines := history_lines r in
    let n := List.length lines in
    returncode r = 0%Z ->
    PyStr.strip (stdout r) <> "" ->
    (forall line, In line lines -> valid_line line = true ->
                  valid_timestamp (field 3 "|" line)) ->
    exists cs,
      get_commits run self limit w
      = (Returned cs,
         emit w
           (processing_line n
            :: flat_map
                 (fun il : nat * string =>
                    if valid_line (snd il)
                    then detail_lines run self (snd il)
                         ++ (if ((fst il + 1) mod 10 =? 0)%nat
                             then [processed_line (fst il) n] else [])
                    else [])
                 (enumerate lines)))
      /\ ((forall line, In line lines -> valid_line line = true) ->
          List.length cs = n
          /\ get_commits run self limit w
             = (Returned cs,
                emit w
                  (processing_line (List.length cs)
                   :: flat_map
                        (fun il : nat * string =>
                           detail_lines run self (snd il)
                           ++ (if ((fst il + 1) mod 10 =? 0)%nat
                               then [processed_line (fst il) (List.length cs)]
                               else []))
                        (enumerate lines)))).
Proof.
  intros run self limit w r lines n Hrc Hne Hts.
  pose proof (get_commits_logs run self limit Hrc Hne Hts w) as H.
  fold r in H. fold lines in H. fold n in H.
  eexists. split; [exact H|].
  intros Hall.
  assert (Hlen : List.length (flat_map (line_records run self) lines) = n).
  { rewrite line_records_all_valid by assumption. apply length_map. }
  split; [exact Hlen|].
  rewrite Hlen, H. do 3 f_equal.
  apply line_console_all_valid. intros [i line] Hil. apply Hall.
  now apply in_enumerate in Hil.
Qed.

Lemma torn_history_timestamps line :
  In line (history_lines (torn_history_git (log_command 100) "/tmp/x")) ->
  valid_line line = true -> valid_timestamp (field 3 "|" line).
Proof.
  intros Hl Hv. vm_compute in Hl.
  repeat (destruct Hl as [<-|Hl];
          [first [discriminate Hv
                 | exists 1700000000%Z; split;
                   [reflexivity|unfold MIN_TIMESTAMP, MAX_TIMESTAMP; lia]]|]).
  destruct Hl.
Defined.

Lemma progress_follows_line_positions_witness :
  exists cs,
    get_commits torn_history_git {| repo_path := "/tmp/x" |} 100 empty_world
    = (Returned cs,
       {| console := [Text "Processing 11 commits..."]; files := [] |}).
Proof.
  destruct (progress_follows_line_positions torn_history_git
              {| repo_path := "/tmp/x" |} 100 empty_world)
    as (cs & Hrun & _).
  - reflexivity.
  - discriminate.
  - exact torn_history_timestamps.
  - exists cs. exact Hrun.
Defined.

(** C5 as stated fails on a history with a skipped line: ten records
    are completed, eleven commits were announced, and no incremental
    message is printed, because the tenth position held the skipped line. *)
Lemma progress_misses_tenth_commit :
  (exists cs,
      fst (get_commits torn_history_git {| repo_path := "/tmp/x" |} 100 empty_world)
      = Returned cs
      /\ List.length cs = 10%nat)
  /\ console (snd (get_commits torn_history_git {| repo_path := "/tmp/x" |} 100
                     empty_world))
     = [Text "Processing 11 commits..."].
Proof.
  split; [|reflexivity].
  eexists. split; [vm_compute; reflexivity|reflexivity].
Qed.

(* ================================================================== *)
(** ** Dates *)

Module DatetimeFacts.
Import Datetime.
#[local] Open Scope Z_scope.

Lemma month_day_checked :
  forallb (month_day_ok false) (seq 0 365) = true
  /\ forallb (month_day_ok true) (seq 0 366) = true.
Proof. split; vm_compute; reflexivity. Qed.

Lemma month_day_spec leapyear r :
  0 <= r < 365 ->
  let '(m, d) := month_day leapyear r in
  1 <= m <= 12 /\ 1 <= d
  /\ d <= (if (m =? 2) && leapyear then 29 else tbl DAYS_IN_MONTH m)
  /\ tbl DAYS_BEFORE_MONTH m + b2z ((2 <? m) && leapyear) + d = r + 1.
Proof.
  intros Hr.
  assert (Hok : month_day_ok leapyear (Z.to_nat r) = true).
  { destruct month_day_checked as [Hf Ht].
    destruct leapyear.
    - rewrite forallb_forall in Ht. apply Ht. apply in_seq. lia.
    - rewrite forallb_forall in Hf. apply Hf. apply in_seq. lia. }
  unfold month_day_ok in Hok. rewrite Z2Nat.id in Hok by lia.
  destruct (month_day leapyear r) as [m d].
  repeat (apply andb_prop in Hok as [Hok ?]).
  repeat match goal with
         | H : (_ <=? _) = true |- _ => apply Z.leb_le in H
         | H : (_ =? _) = true |- _ => apply Z.eqb_eq in H
         end.
  repeat split; assumption.
Qed.

Lemma ord2ymd_unfold n0 :
  ord2ymd n0 =
  let n := n0 - 1 in
  let n400 := n / 146097 in
  let r400 := n mod 146097 in
  let n100 := r400 / 36524 in
  let r100 := r400 mod 36524 in
  let n4 := r100 / 1461 in
  let r4 := r100 mod 1461 in
  let n1 := r4 / 365 in
  let r1 := r4 mod 365 in
  let y := n400 * 400 + 1 + n100 * 100 + n4 * 4 + n1 in
  if (n1 =? 4) || (n100 =? 4) then (y - 1, 12, 31)
  else let leapyear := (n1 =? 3) && (negb (n4 =? 24) || (n100 =? 3)) in
       let '(m, d) := month_day leapyear r1 in (y, m, d).
Proof.
  unfold ord2ymd, month_day, DI400Y, DI100Y, DI4Y. cbv zeta.
  destruct ((_ =? 4) || (_ =? 4)); [reflexivity|].
  destruct (_ <? _); reflexivity.
Qed.

Lemma ord2ymd_spec n0 :
  1 <= n0 <= 3652059 ->
  let '(y, m, d) := ord2ymd n0 in
  1 <= y <= 9999 /\ 1 <= m <= 12 /\ 1 <= d <= days_in_month y m
  /\ ymd2ord y m d = n0.
Proof.
  intros Hn. rewrite ord2ymd_unfold. cbv zeta.
  set (n := n0 - 1).
  set (n400 := n / 146097). set (r400 := n mod 146097).
  set (n100 := r400 / 36524). set (r100 := r400 mod 36524).
  set (n4 := r100 / 1461). set (r4 := r100 mod 1461).
  set (n1 := r4 / 365). set (r1 := r4 mod 365).
  assert (E400 : n = 146097 * n400 + r400 /\ 0 <= r400 < 146097).
  { unfold n400, r400. pose proof (Z.div_mod n 146097). pose proof (Z.mod_pos_bound n 146097). lia. }
  assert (E100 : r400 = 36524 * n100 + r100 /\ 0 <= r100 < 36524).
  { unfold n100, r100. pose proof (Z.div_mod r400 36524). pose proof (Z.mod_pos_bound r400 36524). lia. }
  assert (E4 : r100 = 1461 * n4 + r4 /\ 0 <= r4 < 1461).
  { unfold n4, r4. pose proof (Z.div_mod r100 1461). pose proof (Z.mod_pos_bound r100 1461). lia. }
  assert (E1 : r4 = 365 * n1 + r1 /\ 0 <= r1 < 365).
  { unfold n1, r1. pose proof (Z.div_mod r4 365). pose proof (Z.mod_pos_bound r4 365). lia. }
  clearbody n400 r400 n100 r100 n4 r4 n1 r1.
  assert (0 <= n400 <= 24) by lia.
  assert (0 <= n100 <= 4) by lia.
  assert (0 <= n4 <= 24) by lia.
  assert (0 <= n1 <= 4) by lia.
  destruct ((n1 =? 4) || (n100 =? 4)) eqn:Hedge.
  - assert (Hr1 : r1 = 0 /\ (n100 = 4 /\ n4 = 0 /\ n1 = 0 \/ n100 <= 3 /\ n4 <= 23 /\ n1 = 4)).
    { apply orb_prop in Hedge. destruct Hedge as [E|E]; apply Z.eqb_eq in E; lia. }
    assert (Hleap : is_leap (n400 * 400 + 1 + n100 * 100 + n4 * 4 + n1 - 1) = true).
    { unfold is_leap.
      repeat match goal with
             | |- context [Z.eqb ?a ?b] => destruct (Z.eqb_spec a b)
             end; simpl; try reflexivity; exfalso;
        Z.to_euclidean_division_equations; lia. }
    unfold days_in_month, ymd2ord, days_before_month, days_before_year.
    rewrite Hleap. simpl andb. cbv iota.
    change (tbl DAYS_IN_MONTH 12) with 31. change (tbl DAYS_BEFORE_MONTH 12) with 334.
    repeat split; try lia.
    Z.to_euclidean_division_equations; lia.
  - apply orb_false_elim in Hedge. destruct Hedge as [Hn1 Hn100].
    apply Z.eqb_neq in Hn1, Hn100.
    set (L := (n1 =? 3) && (negb (n4 =? 24) || (n100 =? 3))).
    assert (Hleap : is_leap (n400 * 400 + 1 + n100 * 100 + n4 * 4 + n1) = L).
    { unfold is_leap, L.
      repeat match goal with
             | |- context [Z.eqb ?a ?b] => destruct (Z.eqb_spec a b)
             end; simpl; try reflexivity; exfalso;
        Z.to_euclidean_division_equations; lia. }
    pose proof (month_day_spec L r1 (proj2 E1)) as Hmd.
    destruct (month_day L r1) as [m d].
    destruct Hmd as (Hm & Hd1 & Hd2 & Hsum).
    unfold days_in_month, ymd2ord, days_before_month, days_before_year.
    rewrite Hleap. 
    repeat split; try lia.
    unfold b2z in Hsum. destruct ((2 <? m) && L);
      Z.to_euclidean_division_equations; lia.
Qed.

(** The last day of the year 999 is day 364877. *)
Lemma ord2ymd_year_1000 n0 :
  1 <= n0 <= 3652059 ->
  let '(y, _, _) := ord2ymd n0 in
  (n0 <= 364877 -> y <= 999) /\ (364878 <= n0 -> 1000 <= y).
Proof.
  intros Hn. rewrite ord2ymd_unfold. cbv zeta.
  set (n := n0 - 1).
  set (n400 := n / 146097). set (r400 := n mod 146097).
  set (n100 := r400 / 36524). set (r100 := r400 mod 36524).
  set (n4 := r100 / 1461). set (r4 := r100 mod 1461).
  set (n1 := r4 / 365). set (r1 := r4 mod 365).
  assert (E400 : n = 146097 * n400 + r400 /\ 0 <= r400 < 146097).
  { unfold n400, r400. pose proof (Z.div_mod n 146097). pose proof (Z.mod_pos_bound n 146097). lia. }
  assert (E100 : r400 = 36524 * n100 + r100 /\ 0 <= r100 < 36524).
  { unfold n100, r100. pose proof (Z.div_mod r400 36524). pose proof (Z.mod_pos_bound r400 36524). lia. }
  assert (E4 : r100 = 1461 * n4 + r4 /\ 0 <= r4 < 1461).
  { unfold n4, r4. pose proof (Z.div_mod r100 1461). pose proof (Z.mod_pos_bound r100 1461). lia. }
  assert (E1 : r4 = 365 * n1 + r1 /\ 0 <= r1 < 365).
  { unfold n1, r1. pose proof (Z.div_mod r4 365). pose proof (Z.mod_pos_bound r4 365). lia. }
  clearbody n400 r400 n100 r100 n4 r4 n1 r1.
  assert (0 <= n400 <= 24) by lia.
  assert (0 <= n100 <= 4) by lia.
  assert (0 <= n4 <= 24) by lia.
  assert (0 <= n1 <= 4) by lia.
  destruct ((n1 =? 4) || (n100 =? 4)) eqn:Hedge.
  - assert (Hr1 : r1 = 0 /\ (n100 = 4 /\ n4 = 0 /\ n1 = 0 \/ n100 <= 3 /\ n4 <= 23 /\ n1 = 4)).
    { apply orb_prop in Hedge. destruct Hedge as [E|E]; apply Z.eqb_eq in E; lia. }
    split; lia.
  - apply orb_false_elim in Hedge. destruct Hedge as [Hn1 Hn100].
    apply Z.eqb_neq in Hn1, Hn100.
    destruct (month_day _ r1) as [m d]. split; lia.
Qed.

(** The text of a year has four characters from the year 1000 on, and
    fewer before. *)
Lemma year_length_checked :
  forallb (fun k => let y := Z.of_nat k in
                    if y <? 1000 then (String.length (PyInt.str y) <=? 3)%nat
                    else (String.length (PyInt.str y) =? 4)%nat)
    (seq 0 (Z.to_nat 10000)) = true.
Proof. vm_compute. reflexivity. Qed.

Lemma year_length y :
  0 <= y < 10000 ->
  if y <? 1000 then (String.length (PyInt.str y) <= 3)%nat
  else String.length (PyInt.str y) = 4%nat.
Proof.
  intros Hy. pose proof year_length_checked as Hf. rewrite forallb_forall in Hf.
  specialize (Hf (Z.to_nat y)). cbv zeta in Hf. rewrite Z2Nat.id in Hf by lia.
  destruct (y <? 1000).
  - apply Nat.leb_le, Hf, in_seq. lia.
  - apply Nat.eqb_eq, Hf, in_seq. lia.
Qed.

Lemma pad_length_checked (w bound : nat) :
  forallb (fun k => (String.length (pad w (Z.of_nat k)) =? w)%nat) (seq 0 bound) = true ->
  forall n, 0 <= n < Z.of_nat bound -> String.length (pad w n) = w.
Proof.
  intros Hf n Hn. rewrite forallb_forall in Hf.
  specialize (Hf (Z.to_nat n)). rewrite Z2Nat.id in Hf by lia.
  apply Nat.eqb_eq, Hf, in_seq. lia.
Qed.

Lemma pad2_length n : 0 <= n < 100 -> String.length (pad 2 n) = 2%nat.
Proof. apply (pad_length_checked 2 100). vm_compute. reflexivity. Qed.

End DatetimeFacts.

(* ================================================================== *)
(** ** Timestamps *)

Lemma utcfromtimestamp_fields_year t w :
  (MIN_TIMESTAMP <= t <= MAX_TIMESTAMP)%Z ->
  exists y mo d h mi s,
    utcfromtimestamp t w
    = (Returned {| Datetime.year := y; Datetime.month := mo; Datetime.day := d;
                   Datetime.hour := h; Datetime.minute := mi;
                   Datetime.second := s |}, w)
    /\ ((1 <= y <= 9999)%Z /\ (1 <= mo <= 12)%Z
        /\ (1 <= d <= Datetime.days_in_month y mo)%Z
        /\ (0 <= h < 24)%Z /\ (0 <= mi < 60)%Z /\ (0 <= s < 60)%Z
        /\ t = ((Datetime.ymd2ord y mo d - Datetime.EPOCH_ORDINAL) * 86400
                + h * 3600 + mi * 60 + s)%Z)
    /\ ((t < YEAR_1000_TIMESTAMP)%Z -> (y <= 999)%Z)
    /\ ((YEAR_1000_TIMESTAMP <= t)%Z -> (1000 <= y)%Z).
Proof.
  unfold MIN_TIMESTAMP, MAX_TIMESTAMP, YEAR_1000_TIMESTAMP.
  intros Ht. unfold utcfromtimestamp.
  destruct (Z.ltb_spec t (- 2 ^ 63)); [lia|].
  destruct (Z.leb_spec (2 ^ 63) t); [lia|]. cbv beta iota delta [orb].
  unfold GMTIME_MIN, GMTIME_MAX.
  destruct (Z.ltb_spec t (-67768040609740800)); [lia|].
  destruct (Z.ltb_spec 67768036191676799 t); [lia|]. cbv beta iota delta [orb].
  unfold Datetime.EPOCH_ORDINAL, Datetime.MAX_ORDINAL.
  assert (Hdays : (-719162 <= t / 86400 <= 2932896)%Z).
  { split.
    - apply (Z.div_le_mono (-62135596800) t 86400); lia.
    - apply (Z.div_le_mono t 253402300799 86400); lia. }
  destruct (Z.ltb_spec (719163 + t / 86400) 1); [lia|].
  destruct (Z.ltb_spec 3652059 (719163 + t / 86400)); [lia|].
  cbv beta iota delta [orb].
  pose proof (DatetimeFacts.ord2ymd_spec (719163 + t / 86400)) as Hord.
  pose proof (DatetimeFacts.ord2ymd_year_1000 (719163 + t / 86400)) as Hyear.
  destruct (Datetime.ord2ymd (719163 + t / 86400)) as [[y mo] d].
  destruct Hord as (Hy & Hmo & Hd & Hback); [lia|].
  destruct Hyear as [Hshort Hlong]; [lia|].
  exists y, mo, d, (t mod 86400 / 3600)%Z, (t mod 86400 mod 3600 / 60)%Z,
    (t mod 86400 mod 60)%Z.
  split; [reflexivity|]. rewrite Hback. split; [|split].
  - repeat split; try assumption; try (Z.to_euclidean_division_equations; lia).
  - intros Hlt. apply Hshort. Z.to_euclidean_division_equations; lia.
  - intros Hge. apply Hlong. Z.to_euclidean_division_equations; lia.
Qed.

Lemma utcfromtimestamp_fields t w :
  (MIN_TIMESTAMP <= t <= MAX_TIMESTAMP)%Z ->
  exists y mo d h mi s,
    utcfromtimestamp t w
    = (Returned {| Datetime.year := y; Datetime.month := mo; Datetime.day := d;
                   Datetime.hour := h; Datetime.minute := mi;
                   Datetime.second := s |}, w)
    /\ (1 <= y <= 9999)%Z /\ (1 <= mo <= 12)%Z
    /\ (1 <= d <= Datetime.days_in_month y mo)%Z
    /\ (0 <= h < 24)%Z /\ (0 <= mi < 60)%Z /\ (0 <= s < 60)%Z
    /\ t = ((Datetime.ymd2ord y mo d - Datetime.EPOCH_ORDINAL) * 86400
            + h * 3600 + mi * 60 + s)%Z.
Proof.
  intros Ht.
  destruct (utcfromtimestamp_fields_year t w Ht)
    as (y & mo & d & h & mi & s & Hrun & Hfields & _).
  now exists y, mo, d, h, mi, s.
Qed.

Lemma days_in_month_le_31 y mo :
  (1 <= mo <= 12)%Z -> (Datetime.days_in_month y mo <= 31)%Z.
Proof.
  intros Hmo. unfold Datetime.days_in_month.
  destruct ((mo =? 2)%Z && Datetime.is_leap y); [lia|].
  assert (Hc : In mo [1; 2; 3; 4; 5; 6; 7; 8; 9; 10; 11; 12]%Z) by (simpl; lia).
  simpl in Hc.
  repeat (destruct Hc as [<-|Hc]; [vm_compute; discriminate|]).
  destruct Hc.
Qed.

(** The length of the text is the length of the year and sixteen. *)
Lemma length_iso a b c d e f :
  String.length b = 2%nat -> String.length c = 2%nat ->
  String.length d = 2%nat -> String.length e = 2%nat -> String.length f = 2%nat ->
  String.length (a ++ "-" ++ b ++ "-" ++ c ++ "T" ++ d ++ ":" ++ e ++ ":" ++ f ++ "Z")
  = (String.length a + 16)%nat.
Proof.
  intros Hb Hc Hd He Hf.
  repeat (rewrite length_app; cbn [String.length]).
  rewrite Hb, Hc, Hd, He, Hf. lia.
Qed.

(** What [format_timestamp] returns for a second of the years 1 to
    9999: the year as it is, the other fields on two digits. *)
Lemma format_timestamp_fields f t w :
  PyInt.parse f = Some t ->
  (MIN_TIMESTAMP <= t <= MAX_TIMESTAMP)%Z ->
  exists y mo d h mi s,
    format_timestamp f w
    = (Returned (PyInt.str y ++ "-" ++ Datetime.pad 2 mo ++ "-"
                 ++ Datetime.pad 2 d ++ "T" ++ Datetime.pad 2 h ++ ":"
                 ++ Datetime.pad 2 mi ++ ":" ++ Datetime.pad 2 s ++ "Z")%string,
       w)
    /\ String.length (PyInt.str y ++ "-" ++ Datetime.pad 2 mo ++ "-"
                      ++ Datetime.pad 2 d ++ "T" ++ Datetime.pad 2 h ++ ":"
                      ++ Datetime.pad 2 mi ++ ":" ++ Datetime.pad 2 s ++ "Z")
       = (String.length (PyInt.str y) + 16)%nat
    /\ ((1 <= y <= 9999)%Z /\ (1 <= mo <= 12)%Z
        /\ (1 <= d <= Datetime.days_in_month y mo)%Z
        /\ (0 <= h < 24)%Z /\ (0 <= mi < 60)%Z /\ (0 <= s < 60)%Z
        /\ t = ((Datetime.ymd2ord y mo d - Datetime.EPOCH_ORDINAL) * 86400
                + h * 3600 + mi * 60 + s)%Z)
    /\ ((t < YEAR_1000_TIMESTAMP)%Z -> (y <= 999)%Z)
    /\ ((YEAR_1000_TIMESTAMP <= t)%Z -> (1000 <= y)%Z).
Proof.
  intros Hp Ht.
  destruct (utcfromtimestamp_fields_year t w Ht)
    as (y & mo & d & h & mi & s & Hrun & Hfields & Hshort & Hlong).
  exists y, mo, d, h, mi, s. split; [|split; [|split; [exact Hfields|now split]]].
  - unfold format_timestamp, bind, int. rewrite Hp. unfold ret at 1.
    rewrite Hrun. reflexivity.
  - destruct Hfields as (Hy & Hmo & Hd & Hh & Hmi & Hs & _).
    pose proof (days_in_month_le_31 y mo Hmo) as Hdim.
    apply length_iso; apply DatetimeFacts.pad2_length; lia.
Qed.



(** X20: the history line of the spec's example with its stats output
    gives exactly the record of the spec; and every timestamp field
    that reads as an integer within the years 1000 to 9999 is turned
    into the twenty characters YYYY-MM-DDTHH:MM:SSZ whose date and time
    fields are those of the UTC calendar for that second. *)
Theorem format_timestamp_iso8601 :
  (forall run self limit w,
      let r := run (log_command limit) (repo_path self) in
      let r' := run (show_command "abc123") (repo_path self) in
      returncode r = 0%Z ->
      PyStr.strip (stdout r) = "abc123|Ada|ada@x.com|1700000000" ->
      returncode r' = 0%Z ->
      PyStr.strip (stdout r') = row "10" "2" "file.go" ->
      fst (get_commits run self limit w)
      = Returned [{| hash := "abc123"; author := "Ada"; email := "ada@x.com";
                     timestamp := "2023-11-14T22:13:20Z";
                     linesAdded := 10; linesRemoved := 2;
                     filesModified := ["file.go"] |}])
  /\ (forall f t w,
         PyInt.parse f = Some t ->
         (YEAR_1000_TIMESTAMP <= t <= MAX_TIMESTAMP)%Z ->
         exists y mo d h mi s,
           format_timestamp f w
           = (Returned (PyInt.str y ++ "-" ++ Datetime.pad 2 mo ++ "-"
                        ++ Datetime.pad 2 d ++ "T" ++ Datetime.pad 2 h ++ ":"
                        ++ Datetime.pad 2 mi ++ ":" ++ Datetime.pad 2 s ++ "Z")%string,
              w)
           /\ String.length (PyInt.str y) = 4%nat
           /\ String.length (PyInt.str y ++ "-" ++ Datetime.pad 2 mo ++ "-"
                             ++ Datetime.pad 2 d ++ "T" ++ Datetime.pad 2 h ++ ":"
                             ++ Datetime.pad 2 mi ++ ":" ++ Datetime.pad 2 s ++ "Z")
              = 20%nat
           /\ (1000 <= y <= 9999)%Z /\ (1 <= mo <= 12)%Z
           /\ (1 <= d <= Datetime.days_in_month y mo)%Z
           /\ (0 <= h < 24)%Z /\ (0 <= mi < 60)%Z /\ (0 <= s < 60)%Z
           /\ t = ((Datetime.ymd2ord y mo d - Datetime.EPOCH_ORDINAL) * 86400
                   + h * 3600 + mi * 60 + s)%Z).
Proof.
  split.
  - intros run self limit w r r' Hrc Hout Hrc' Hout'.
    assert (Hlines : history_lines r = ["abc123|Ada|ada@x.com|1700000000"]).
    { unfold history_lines. rewrite Hout. reflexivity. }
    assert (Hne : PyStr.strip (stdout r) <> "") by (rewrite Hout; discriminate).
    assert (Hts : forall line, In line (history_lines r) -> valid_line line = true ->
                               valid_timestamp (field 3 "|" line)).
    { intros line Hl _. rewrite Hlines in Hl. destruct Hl as [<-|[]].
      exists 1700000000%Z. split; [reflexivity|].
      unfold MIN_TIMESTAMP, MAX_TIMESTAMP. lia. }
    rewrite (get_commits_logs run self limit Hrc Hne Hts w). fold r.
    rewrite Hlines. cbn [fst flat_map]. rewrite app_nil_r.
    change (line_records run self "abc123|Ada|ada@x.com|1700000000")
      with [record_of run self "abc123|Ada|ada@x.com|1700000000"].
    unfold record_of.
    change (field 0 "|" "abc123|Ada|ada@x.com|1700000000") with "abc123".
    fold r'.
    assert (Hd : details_pure r'
                 = {| d_linesAdded := 10; d_linesRemoved := 2;
                      d_filesModified := ["file.go"] |}).
    { unfold details_pure, runner_result. rewrite Hrc'. cbn [Z.eqb].
      unfold truthy. rewrite Hout'. reflexivity. }
    rewrite Hd. reflexivity.
  - intros f t w Hp Ht.
    destruct (format_timestamp_fields f t w Hp)
      as (y & mo & d & h & mi & s & Hrun & Hlen & Hfields & _ & Hlong).
    { unfold MIN_TIMESTAMP, YEAR_1000_TIMESTAMP in *. lia. }
    destruct Hfields as (Hy & Hmo & Hd & Hh & Hmi & Hs & Hback).
    assert (Hy' : (1000 <= y)%Z) by (apply Hlong; lia).
    assert (Hw : String.length (PyInt.str y) = 4%nat).
    { pose proof (DatetimeFacts.year_length y ltac:(lia)) as Hl.
      destruct (Z.ltb_spec y 1000); [lia|exact Hl]. }
    exists y, mo, d, h, mi, s.
    split; [exact Hrun|]. split; [exact Hw|]. split; [rewrite Hlen, Hw; reflexivity|].
    repeat split; try lia; try apply Hmo; try apply Hd; try apply Hh;
      try apply Hmi; try apply Hs.
Qed.

Lemma format_timestamp_iso8601_witness :
  fst (get_commits plain_git {| repo_path := "/tmp/x" |} 100 empty_world)
  = Returned [{| hash := "abc123"; author := "Ada"; email := "ada@x.com";
                 timestamp := "2023-11-14T22:13:20Z";
                 linesAdded := 10; linesRemoved := 2;
                 filesModified := ["file.go"] |}]
  /\ exists y mo d h mi s,
      format_timestamp "1700000000" empty_world
      = (Returned (PyInt.str y ++ "-" ++ Datetime.pad 2 mo ++ "-"
                   ++ Datetime.pad 2 d ++ "T" ++ Datetime.pad 2 h ++ ":"
                   ++ Datetime.pad 2 mi ++ ":" ++ Datetime.pad 2 s ++ "Z")%string,
         empty_world)
      /\ String.length (PyInt.str y) = 4%nat
      /\ String.length (PyInt.str y ++ "-" ++ Datetime.pad 2 mo ++ "-"
                        ++ Datetime.pad 2 d ++ "T" ++ Datetime.pad 2 h ++ ":"
                        ++ Datetime.pad 2 mi ++ ":" ++ Datetime.pad 2 s ++ "Z")
         = 20%nat
      /\ (1000 <= y <= 9999)%Z /\ (1 <= mo <= 12)%Z
      /\ (1 <= d <= Datetime.days_in_month y mo)%Z
      /\ (0 <= h < 24)%Z /\ (0 <= mi < 60)%Z /\ (0 <= s < 60)%Z
      /\ 1700000000%Z
         = ((Datetime.ymd2ord y mo d - Datetime.EPOCH_ORDINAL) * 86400
            + h * 3600 + mi * 60 + s)%Z.
Proof.
  destruct format_timestamp_iso8601 as [Hexample Hgeneral]. split.
  - apply (Hexample plain_git {| repo_path := "/tmp/x" |} 100%Z empty_world);
      reflexivity.
  - apply (Hgeneral "1700000000" 1700000000%Z empty_world).
    + reflexivity.
    + unfold YEAR_1000_TIMESTAMP, MAX_TIMESTAMP. lia.
Defined.

(* ================================================================== *)
(** ** Decimal text of integers *)

Module IntFacts.
Import Json.

Lemma all_digits_uint d : all_digits (NilEmpty.string_of_uint d) = true.
Proof. induction d; simpl; auto. Qed.

Lemma scan_uint_acc d :
  forall acc,
    PyInt.scan_digits (Zpos acc) true (NilEmpty.string_of_uint d)
    = Some (Zpos (Pos.of_uint_acc d acc)).
Proof.
  induction d; intros acc; cbn [NilEmpty.string_of_uint Pos.of_uint_acc];
    [reflexivity|..];
    cbn [PyInt.scan_digits];
    match goal with
    | |- context [PyInt.digit_of ?c] =>
        let v := eval vm_compute in (PyInt.digit_of c) in
        change (PyInt.digit_of c) with v
    end;
    cbv beta iota;
    match goal with
    | |- PyInt.scan_digits ?a true _ = Some (Zpos (Pos.of_uint_acc _ ?b)) =>
        replace a with (Zpos b) by lia
    end;
    apply IHd.
Qed.

Lemma scan_uint d :
  PyInt.scan_digits 0 true (NilEmpty.string_of_uint d)
  = Some (Z.of_N (Pos.of_uint d)).
Proof.
  induction d; cbn [NilEmpty.string_of_uint Pos.of_uint];
    [reflexivity|exact IHd|..];
    cbn [PyInt.scan_digits];
    match goal with
    | |- context [PyInt.digit_of ?c] =>
        let v := eval vm_compute in (PyInt.digit_of c) in
        change (PyInt.digit_of c) with v
    end;
    cbv beta iota; apply scan_uint_acc.
Qed.

Lemma scan_uint_start d :
  d <> Decimal.Nil ->
  PyInt.scan_digits 0 false (NilEmpty.string_of_uint d)
  = Some (Z.of_N (Pos.of_uint d)).
Proof.
  intros Hd. rewrite <- scan_uint. destruct d; [contradiction|reflexivity..].
Qed.


Lemma nzhead_not_D0 d l : Decimal.nzhead d <> Decimal.D0 l.
Proof. induction d; simpl; try discriminate. exact IHd. Qed.

Lemma to_uint_not_D0 p l : Pos.to_uint p <> Decimal.D0 l.
Proof.
  intros E.
  pose proof (DecimalPos.Unsigned.of_to p) as Hof. rewrite E in Hof.
  cbn [Pos.of_uint] in Hof.
  pose proof (DecimalPos.Unsigned.to_of l) as Hto. rewrite Hof in Hto.
  cbn [N.to_uint] in Hto. rewrite E in Hto.
  unfold Decimal.unorm in Hto.
  destruct (Decimal.nzhead l) eqn:Hn.
  - injection Hto as ->. exact (DecimalPos.Unsigned.to_uint_nonzero p E).
  - now apply nzhead_not_D0 in Hn.
  - discriminate Hto.
  - discriminate Hto.
  - discriminate Hto.
  - discriminate Hto.
  - discriminate Hto.
  - discriminate Hto.
  - discriminate Hto.
  - discriminate Hto.
  - discriminate Hto.
Qed.

(** The decimal text of a positive number: a digit that is not zero,
    then digits. *)
Lemma str_pos p :
  exists c ds,
    PyInt.str (Zpos p) = String c ds
    /\ NilEmpty.string_of_uint (Pos.to_uint p) = String c ds
    /\ Json.is_digit c = true /\ c <> "0"%char /\ all_digits ds = true.
Proof.
  unfold PyInt.str. cbn [Z.to_int NilZero.string_of_int].
  pose proof (all_digits_uint (Pos.to_uint p)) as Hall.
  pose proof (to_uint_not_D0 p) as Hz.
  pose proof (DecimalPos.Unsigned.to_uint_nonnil p) as Hn.
  destruct (Pos.to_uint p) as [|l|l|l|l|l|l|l|l|l|l];
    [contradiction|now elim (Hz l)|..];
    cbn [NilZero.string_of_uint NilEmpty.string_of_uint] in *;
    eexists; eexists; (split; [reflexivity|]); (split; [reflexivity|]);
    (split; [reflexivity|]); (split; [discriminate|]);
    apply andb_prop in Hall; apply Hall.
Qed.

Lemma str_neg p : PyInt.str (Zneg p) = String "-" (PyInt.str (Zpos p)).
Proof. reflexivity. Qed.

Lemma digit_not_space c : Json.is_digit c = true -> PyInt.int_space c = false.
Proof. destruct c as [[] [] [] [] [] [] [] []]; try reflexivity; discriminate. Qed.

Lemma digit_not_sign c :
  Json.is_digit c = true -> Ascii.eqb c "+" = false /\ Ascii.eqb c "-" = false.
Proof.
  destruct c as [[] [] [] [] [] [] [] []]; try (split; reflexivity); discriminate.
Qed.

Lemma rstrip_digits s :
  all_digits s = true -> PyStr.rstrip_by PyInt.int_space s = s.
Proof.
  induction s as [|c s IH]; [reflexivity|].
  cbn [all_digits PyStr.rstrip_by]. intros H. apply andb_prop in H as [Hc Hs].
  rewrite (IH Hs). destruct s; [|reflexivity].
  now rewrite (digit_not_space c Hc).
Qed.

Lemma literal_digits c ds :
  Json.is_digit c = true -> all_digits ds = true ->
  PyInt.literal (String c ds) = PyInt.scan_digits 0 false (String c ds).
Proof.
  intros Hc Hds. unfold PyInt.literal.
  cbn [PyStr.lstrip_by]. rewrite (digit_not_space c Hc).
  rewrite rstrip_digits by (cbn [all_digits]; now rewrite Hc).
  destruct (digit_not_sign c Hc) as [-> ->]. reflexivity.
Qed.

Lemma literal_minus_digits c ds :
  Json.is_digit c = true -> all_digits ds = true ->
  PyInt.literal (String "-" (String c ds))
  = option_map Z.opp (PyInt.scan_digits 0 false (String c ds)).
Proof.
  intros Hc Hds. unfold PyInt.literal.
  cbn [PyStr.lstrip_by]. change (PyInt.int_space "-") with false. cbv iota.
  assert (Hr : PyStr.rstrip_by PyInt.int_space (String "-" (String c ds))
               = String "-" (String c ds)).
  { change (PyStr.rstrip_by PyInt.int_space (String "-" (String c ds)))
      with (match PyStr.rstrip_by PyInt.int_space (String c ds) with
            | "" => if PyInt.int_space "-" then "" else String "-" ""
            | r => String "-" r
            end).
    rewrite rstrip_digits by (cbn [all_digits]; now rewrite Hc). reflexivity. }
  rewrite Hr. reflexivity.
Qed.

(** The literal that [str] writes has the value of the number. *)
Lemma literal_str n : PyInt.literal (PyInt.str n) = Some n.
Proof.
  destruct n as [|p|p].
  - reflexivity.
  - destruct (str_pos p) as (c & ds & E & Eu & Hc & _ & Hds).
    rewrite E, literal_digits by assumption. rewrite <- Eu.
    rewrite scan_uint_start by apply DecimalPos.Unsigned.to_uint_nonnil.
    now rewrite DecimalPos.Unsigned.of_to.
  - rewrite str_neg. destruct (str_pos p) as (c & ds & E & Eu & Hc & _ & Hds).
    rewrite E, literal_minus_digits by assumption. rewrite <- Eu.
    rewrite scan_uint_start by apply DecimalPos.Unsigned.to_uint_nonnil.
    now rewrite DecimalPos.Unsigned.of_to.
Qed.






End IntFacts.

(* ================================================================== *)
(** ** Per-commit statistics: the sums *)

Lemma count_digits_le_length s : (PyInt.count_digits s <= String.length s)%nat.
Proof.
  induction s as [|c s IH]; cbn [PyInt.count_digits String.length]; [lia|].
  destruct (PyInt.is_digit c); lia.
Qed.

(** Below the limit on digits [int] reads the literal. *)
Lemma parse_short f :
  (String.length f <= PyInt.MAX_STR_DIGITS)%nat -> PyInt.parse f = PyInt.literal f.
Proof.
  intros H. unfold PyInt.parse.
  pose proof (count_digits_le_length f) as Hc.
  destruct (Nat.ltb_spec PyInt.MAX_STR_DIGITS (PyInt.count_digits f)); [lia|reflexivity].
Qed.

Lemma literal_uint c ds d :
  NilEmpty.uint_of_string (String c ds) = Some d ->
  Json.is_digit c = true /\ Json.all_digits ds = true
  /\ PyInt.scan_digits 0 false (String c ds) = Some (Z.of_uint d).
Proof.
  intros H. pose proof (NilEmpty.sus _ _ H) as E.
  pose proof (IntFacts.all_digits_uint d) as Hall. rewrite E in Hall.
  cbn [Json.all_digits] in Hall. apply andb_prop in Hall as [Hc Hds].
  split; [exact Hc|]. split; [exact Hds|].
  rewrite <- E. apply IntFacts.scan_uint_start.
  intros ->. discriminate E.
Qed.

(** [int] reads a numeral of at most 4300 characters as the number it
    stands for. *)
Lemma parse_numeral f n :
  numeral f = Some n -> (String.length f <= PyInt.MAX_STR_DIGITS)%nat ->
  PyInt.parse f = Some n.
Proof.
  intros Hn Hlen. rewrite (parse_short f Hlen).
  unfold numeral, NilZero.int_of_string in Hn.
  destruct f as [|a s]; [discriminate Hn|].
  destruct (Ascii.eqb_spec a "-") as [->|Ha].
  - unfold NilZero.uint_of_string in Hn.
    destruct s as [|c ds]; [discriminate Hn|].
    destruct (NilEmpty.uint_of_string (String c ds)) as [d|] eqn:E; [|discriminate Hn].
    destruct (literal_uint c ds d E) as (Hc & Hds & Hscan).
    rewrite (IntFacts.literal_minus_digits c ds Hc Hds), Hscan.
    cbn [option_map Z.of_int] in Hn |- *. exact Hn.
  - unfold NilZero.uint_of_string in Hn.
    destruct (NilEmpty.uint_of_string (String a s)) as [d|] eqn:E; [|discriminate Hn].
    destruct (literal_uint a s d E) as (Hc & Hds & Hscan).
    rewrite (IntFacts.literal_digits a s Hc Hds), Hscan.
    cbn [option_map Z.of_int] in Hn. exact Hn.
Qed.

Lemma count_value_stat f : stat_field f -> count_value f = stat_count f.
Proof.
  intros [Hsome Hlen]. unfold count_value, stat_count in *.
  destruct (f =? "-")%string; [reflexivity|].
  destruct (numeral f) as [n|] eqn:E; [|contradiction].
  now apply parse_numeral.
Qed.

(** C2, as the code has it: when the stats query succeeds and the two
    count fields of every line with three or more tab-separated fields
    are a single dash or a decimal numeral of at most 4300 characters,
    [get_commit_details] returns the sum of the numbers of the first
    fields as linesAdded and the sum of the numbers of the second fields
    as linesRemoved, a dash counting as zero, and the third field of
    each of these lines, dash lines included, in order as
    filesModified. *)
Theorem get_commit_details_sums :
  forall run self commit_hash w,
    let r := run (show_command commit_hash) (repo_path self) in
    let lines := filter counted (PyStr.split NL (PyStr.strip (stdout r))) in
    returncode r = 0%Z ->
    (forall l, In l lines ->
               stat_field (field 0 TAB l) /\ stat_field (field 1 TAB l)) ->
    get_commit_details run self commit_hash w
    = (Returned
         {| d_linesAdded := sum_Z (map (fun l => stat_value (field 0 TAB l)) lines);
            d_linesRemoved := sum_Z (map (fun l => stat_value (field 1 TAB l)) lines);
            d_filesModified := map (field 2 TAB) lines |},
       w).
Proof.
  intros run self h w r lines Hrc Hok.
  rewrite (get_commit_details_logs run self h w). fold r.
  unfold runner_lines, details_pure, runner_result. rewrite Hrc. simpl Z.eqb.
  cbv iota. rewrite emit_nil. f_equal.
  assert (Hread : forall l, In l lines ->
            field_count (field 0 TAB l) = stat_value (field 0 TAB l)
            /\ field_count (field 1 TAB l) = stat_value (field 1 TAB l)
            /\ field_ok (field 0 TAB l) = true /\ field_ok (field 1 TAB l) = true).
  { intros l Hl. destruct (Hok l Hl) as [H0 H1].
    unfold field_count, field_ok, stat_value.
    rewrite (count_value_stat _ H0), (count_value_stat _ H1).
    destruct H0 as [H0 _], H1 as [H1 _].
    destruct (stat_count (field 0 TAB l)); [|contradiction].
    destruct (stat_count (field 1 TAB l)); [|contradiction]. now repeat split. }
  assert (E0 : map (fun l => field_count (field 0 TAB l)) lines
               = map (fun l => stat_value (field 0 TAB l)) lines).
  { apply map_ext_in. intros l Hl. apply (Hread l Hl). }
  assert (E1 : map (fun l => field_count (field 1 TAB l)) lines
               = map (fun l => stat_value (field 1 TAB l)) lines).
  { apply map_ext_in. intros l Hl. apply (Hread l Hl). }
  unfold truthy.
  destruct (String.eqb_spec (PyStr.strip (stdout r)) "") as [E|_];
    cbv beta iota delta [negb].
  - unfold lines. rewrite E. reflexivity.
  - rewrite numstat_fold_sums.
    + fold lines. cbn [details_of_state app Z.add]. now rewrite E0, E1.
    + intros l Hl Hc. apply Hread. unfold lines. apply filter_In. now split.
Qed.

Lemma get_commit_details_sums_witness :
  get_commit_details mixed_rows_git {| repo_path := "/tmp/x" |} "abc123" empty_world
  = (Returned {| d_linesAdded := 10; d_linesRemoved := 2;
                 d_filesModified := ["file.go"; "img.png"] |},
     empty_world)
  /\ get_commit_details binary_only_git {| repo_path := "/tmp/x" |} "abc123" empty_world
     = (Returned {| d_linesAdded := 0; d_linesRemoved := 0;
                    d_filesModified := ["img.png"] |},
        empty_world).
Proof.
  split.
  - apply (get_commit_details_sums mixed_rows_git {| repo_path := "/tmp/x" |}
             "abc123" empty_world).
    + reflexivity.
    + intros l Hl. vm_compute in Hl. destruct Hl as [<-|[<-|[]]];
        (split; (split; [vm_compute; discriminate|apply Nat.leb_le; reflexivity])).
  - apply (get_commit_details_sums binary_only_git {| repo_path := "/tmp/x" |}
             "abc123" empty_world).
    + reflexivity.
    + intros l Hl. vm_compute in Hl. destruct Hl as [<-|[]];
        (split; (split; [vm_compute; discriminate|apply Nat.leb_le; reflexivity])).
Defined.

(** C2 as stated fails over arbitrary stats text.  A line with three
    fields whose first field is no number is passed over whole: its
    second field, the number 3, is not added and its path is not
    recorded.  The same happens to a line whose count is a numeral of
    more digits than [int] reads. *)
Lemma get_commit_details_passes_over_rows :
  (let r := rename_row_git (show_command "abc123") "/tmp/x" in
   let lines := filter counted (PyStr.split NL (PyStr.strip (stdout r))) in
   returncode r = 0%Z
   /\ map (field 1 TAB) lines = ["2"; "3"; "5"]
   /\ map (field 2 TAB) lines = ["a.c"; "b.c"; "c.c"]
   /\ exists d,
       get_commit_details rename_row_git {| repo_path := "/tmp/x" |} "abc123" empty_world
       = (Returned d, empty_world)
       /\ d_linesRemoved d = 7%Z
       /\ d_linesRemoved d <> sum_Z (map (fun l => stat_value (field 1 TAB l)) lines)
       /\ d_filesModified d = ["a.c"; "c.c"]
       /\ d_filesModified d <> map (field 2 TAB) lines)
  /\ (let r := long_count_git (show_command "abc123") "/tmp/x" in
      let lines := filter counted (PyStr.split NL (PyStr.strip (stdout r))) in
      returncode r = 0%Z
      /\ Forall (fun l => stat_count (field 0 TAB l) <> None) lines
      /\ map (field 1 TAB) lines = ["2"]
      /\ map (field 2 TAB) lines = ["big.c"]
      /\ get_commit_details long_count_git {| repo_path := "/tmp/x" |} "abc123"
           empty_world
         = (Returned {| d_linesAdded := 0; d_linesRemoved := 0;
                        d_filesModified := [] |},
            empty_world)).
Proof.
  split.
  - cbv zeta. split; [reflexivity|]. split; [reflexivity|]. split; [reflexivity|].
    eexists. split; [reflexivity|]. cbn [d_linesRemoved d_filesModified].
    split; [reflexivity|]. split; [vm_compute; discriminate|].
    split; [reflexivity|vm_compute; discriminate].
  - cbv zeta. split; [reflexivity|].
    split.
    { apply Forall_forall. intros l Hl. vm_compute in Hl. destruct Hl as [<-|[]].
      intros H. apply (f_equal (fun o : option Z => match o with
                                                     | Some _ => true
                                                     | None => false
                                                     end)) in H.
      vm_compute in H. discriminate H. }
    split; [vm_compute; reflexivity|].
    split; [vm_compute; reflexivity|]. vm_compute. reflexivity.
Qed.

(* ================================================================== *)
(** ** JSON: strings and white space *)

Module JsonFacts.
Import Json.

(** *** Strings *)

Lemma scanstring_escape_char c tail :
  scanstring (escape_char c ++ tail) = prepend c (scanstring tail).
Proof.
  destruct c as [[] [] [] [] [] [] [] []]; reflexivity.
Qed.

Lemma append_assoc (a b c : string) : ((a ++ b) ++ c = a ++ (b ++ c))%string.
Proof. induction a as [|x a IH]; simpl; [reflexivity|now rewrite IH]. Qed.

Lemma scanstring_escape s rest :
  scanstring (escape s ++ String QUOTE rest) = Some (s, rest).
Proof.
  induction s as [|c s IH].
  - reflexivity.
  - cbn [escape]. rewrite append_assoc, scanstring_escape_char, IH. reflexivity.
Qed.

Lemma scan_encode_string s rest :
  scanstring (escape s ++ String QUOTE "" ++ rest) = Some (s, rest).
Proof. apply scanstring_escape. Qed.

(** *** White space *)

Lemma skip_ws_replicate n s : skip_ws (PyStr.replicate " " n ++ s) = skip_ws s.
Proof. induction n as [|n IH]; [reflexivity|exact IH]. Qed.



End JsonFacts.

(* ================================================================== *)
(** ** JSON: the round trip *)

Module RoundTrip.
Import Json JsonFacts IntFacts.

Lemma encode_list i l x xs :
  encode i l (List (x :: xs))
  = String "[" (newline_indent i (S l) ++ items_text i l (x :: xs)
                ++ newline_indent i l ++ "]").
Proof. reflexivity. Qed.

Lemma encode_dict i l p ps :
  encode i l (Dict (p :: ps))
  = String "{" (newline_indent i (S l) ++ pairs_text i l (p :: ps)
                ++ newline_indent i l ++ "}").
Proof. reflexivity. Qed.













Lemma skip_ws_newline n s :
  skip_ws (String "010" (PyStr.replicate " " n ++ s)) = skip_ws s.
Proof. apply (skip_ws_replicate n s). Qed.















End RoundTrip.








Lemma read_file_written path text fs : read_file ((path, text) :: fs) path = Some text.
Proof. cbn [read_file]. now rewrite String.eqb_refl. Qed.


(* ================================================================== *)
(** ** More on the command runner *)

Lemma rstrip_by_last p s :
  forall r c, PyStr.rstrip_by p s = (r ++ String c "")%string -> p c = false.
Proof.
  induction s as [|a s IH]; intros r c; cbn [PyStr.rstrip_by].
  - destruct r; discriminate.
  - destruct (PyStr.rstrip_by p s) as [|b t] eqn:E.
    + destruct (p a) eqn:Ha.
      * destruct r; discriminate.
      * destruct r as [|x r]; cbn [append].
        -- now intros [= <-].
        -- intros H. injection H as _ H. destruct r; discriminate H.
    + destruct r as [|x r]; cbn [append].
      * intros H. injection H as _ H. discriminate H.
      * intros H. injection H as _ H. now apply (IH r c).
Qed.

Lemma strip_head s c r : PyStr.strip s = String c r -> PyStr.isspace c = false.
Proof.
  unfold PyStr.strip. intros H.
  destruct (lstrip_by_head PyStr.isspace s) as [E | (c' & t & E & Hc)];
    rewrite E in H.
  - discriminate H.
  - destruct (rstrip_by_keeps_head PyStr.isspace c' t Hc) as [r' Er].
    rewrite Er in H. now injection H as <- _.
Qed.

Lemma lstrip_by_split p s :
  exists pre, s = (pre ++ PyStr.lstrip_by p s)%string /\ all_chars p pre = true.
Proof.
  induction s as [|c s (pre & E & Hpre)]; cbn [PyStr.lstrip_by].
  - now exists "".
  - destruct (p c) eqn:Hc.
    + exists (String c pre). cbn [append all_chars]. rewrite Hc, Hpre.
      split; [now rewrite <- E|reflexivity].
    + now exists "".
Qed.

Lemma rstrip_by_split p s :
  exists post, s = (PyStr.rstrip_by p s ++ post)%string /\ all_chars p post = true.
Proof.
  induction s as [|c s (post & E & Hpost)]; cbn [PyStr.rstrip_by].
  - now exists "".
  - destruct (PyStr.rstrip_by p s) as [|b t] eqn:Er.
    + cbn [append] in E. subst post. destruct (p c) eqn:Hc.
      * exists (String c s). cbn [append all_chars]. now rewrite Hc, Hpost.
      * exists s. now split.
    + exists post. cbn [append]. split; [|exact Hpost].
      f_equal. exact E.
Qed.

(** X1: when the tool exits with status zero the runner prints nothing
    and returns the standard output without the white space at its two
    ends: the output is the text returned with white space before and
    after it, and the text returned neither starts nor ends with a
    white-space character. *)
Theorem run_git_command_success_trimmed :
  forall run self command w,
    returncode (run command (repo_path self)) = 0%Z ->
    exists pre out post,
      run_git_command run self command w = (Returned (Some out), w)
      /\ stdout (run command (repo_path self)) = (pre ++ out ++ post)%string
      /\ all_chars PyStr.isspace pre = true
      /\ all_chars PyStr.isspace post = true
      /\ (forall c r, out = String c r -> PyStr.isspace c = false)
      /\ (forall r c, out = (r ++ String c "")%string -> PyStr.isspace c = false).
Proof.
  intros run self command w Hrc.
  set (text := stdout (run command (repo_path self))).
  destruct (lstrip_by_split PyStr.isspace text) as (pre & Epre & Hpre).
  destruct (rstrip_by_split PyStr.isspace (PyStr.lstrip_by PyStr.isspace text))
    as (post & Epost & Hpost).
  exists pre, (PyStr.strip text), post.
  split; [|split; [|split; [exact Hpre|split; [exact Hpost|split]]]].
  - rewrite (run_git_command_ok run self command Hrc w). now rewrite emit_nil.
  - unfold PyStr.strip. now rewrite <- Epost.
  - intros c r. apply strip_head.
  - intros r c. unfold PyStr.strip. apply rstrip_by_last.
Qed.

Lemma run_git_command_success_trimmed_witness :
  exists pre out post,
    run_git_command padded_git {| repo_path := "/tmp/x" |} ["git"; "status"] empty_world
    = (Returned (Some out), empty_world)
    /\ ("  abc def " ++ nl ++ nl)%string = (pre ++ out ++ post)%string
    /\ all_chars PyStr.isspace pre = true
    /\ all_chars PyStr.isspace post = true
    /\ (forall c r, out = String c r -> PyStr.isspace c = false)
    /\ (forall r c, out = (r ++ String c "")%string -> PyStr.isspace c = false).
Proof.
  apply (run_git_command_success_trimmed padded_git {| repo_path := "/tmp/x" |}
           ["git"; "status"] empty_world).
  reflexivity.
Defined.

(* ================================================================== *)
(** ** More on the repository name *)

Lemma split_aux_no_sep sep s :
  (forall c, In c (list_ascii_of_string (fst (PyStr.split_aux sep s))) -> c <> sep)
  /\ (forall w, In w (snd (PyStr.split_aux sep s)) ->
                forall c, In c (list_ascii_of_string w) -> c <> sep).
Proof.
  induction s as [|a s [IH1 IH2]]; cbn [PyStr.split_aux].
  - split; [intros c []|intros w []].
  - destruct (PyStr.split_aux sep s) as [w ws]. cbn [fst snd] in *.
    destruct (Ascii.eqb_spec a sep) as [->|Ha]; cbn [fst snd].
    + split; [intros c []|]. intros w' [<-|Hw]; [exact IH1|now apply IH2].
    + split; [|exact IH2]. intros c [<-|Hc]; [exact Ha|now apply IH1].
Qed.

Lemma split_words_no_sep sep s w :
  In w (PyStr.split sep s) -> forall c, In c (list_ascii_of_string w) -> c <> sep.
Proof.
  rewrite split_aux_split. destruct (split_aux_no_sep sep s) as [H1 H2].
  intros [<-|Hw]; [exact H1|now apply H2].
Qed.

Lemma last_in {A} (l : list A) d : l <> [] -> In (last l d) l.
Proof.
  induction l as [|x [|y l] IH]; intros H; [congruence|now left|].
  right. apply IH. discriminate.
Qed.

Lemma substring_incl n m s c :
  In c (list_ascii_of_string (substring n m s)) -> In c (list_ascii_of_string s).
Proof.
  revert n m. induction s as [|a s IH]; intros n m.
  - destruct n, m; cbn; tauto.
  - destruct n as [|n].
    + destruct m as [|m]; cbn [substring list_ascii_of_string]; [intros []|].
      intros [->|H]; [now left|right; now apply (IH 0%nat m)].
    + cbn [substring]. intros H. right. now apply (IH n m).
Qed.

Lemma basename_no_slash_aux c s :
  forall x,
    In x (list_ascii_of_string
            (substring (PyStr.rfind_succ c s)
               (String.length s - PyStr.rfind_succ c s) s)) ->
    x <> c.
Proof.
  induction s as [|a s IH]; intros x; cbn [PyStr.rfind_succ String.length].
  - intros [].
  - destruct (PyStr.rfind_succ c s) as [|i] eqn:E.
    + rewrite Nat.sub_0_r in IH.
      destruct (Ascii.eqb_spec a c) as [->|Ha].
      * cbn [substring Nat.sub]. rewrite Nat.sub_0_r. apply IH.
      * rewrite Nat.sub_0_r. cbn [substring list_ascii_of_string].
        intros [<-|H]; [exact Ha|now apply IH].
    + cbn [substring Nat.sub]. apply IH.
Qed.

Lemma basename_no_slash p x :
  In x (list_ascii_of_string (OsPath.basename p)) -> x <> "/"%char.
Proof. apply basename_no_slash_aux. Qed.

(** X2: a repository name that [get_repository_name] returns contains
    no slash, whether it comes from the remote URL or from the
    repository path. *)
Theorem get_repository_name_no_slash :
  forall run self w name w',
    get_repository_name run self w = (Returned name, w') ->
    forall c, In c (list_ascii_of_string name) -> c <> "/"%char.
Proof.
  intros run self w name w' Hrun.
  pose proof (get_repository_name_logs run self w) as H. cbv zeta in H.
  rewrite H in Hrun. injection Hrun as <- _.
  destruct (truthy _); [|apply basename_no_slash].
  set (seg := PyStr.last_item _).
  assert (Hseg : forall c, In c (list_ascii_of_string seg) -> c <> "/"%char).
  { apply (split_words_no_sep "/"
             (PyStr.strip (stdout (run config_command (repo_path self)))) seg).
    apply last_in, split_not_nil. }
  destruct (PyStr.endswith seg ".git"); [|exact Hseg].
  intros c Hc. apply Hseg. unfold PyStr.drop_last, PyStr.slice_to in Hc.
  eapply substring_incl. exact Hc.
Qed.

Lemma get_repository_name_no_slash_witness :
  get_repository_name hosted_git {| repo_path := "/home/ada/my-repo/" |} empty_world
  = (Returned "my-repo", empty_world)
  /\ Forall (fun c => c <> "/"%char) (list_ascii_of_string "my-repo").
Proof.
  split; [reflexivity|]. apply Forall_forall.
  apply (get_repository_name_no_slash hosted_git {| repo_path := "/home/ada/my-repo/" |}
           empty_world "my-repo" empty_world).
  reflexivity.
Defined.

(* ================================================================== *)
(** ** More on the per-commit statistics *)

Lemma numstat_step_tallied a r fs l :
  numstat_step (a, r, fs) l
  = if tallied l
    then ((a + field_count (field 0 TAB l))%Z, (r + field_count (field 1 TAB l))%Z,
          fs ++ [field 2 TAB l])
    else (a, r, fs).
Proof.
  unfold numstat_step, tallied, field_ok, field_count.
  destruct (counted l); [|reflexivity]. cbn [andb].
  destruct (count_value (field 0 TAB l)); [|reflexivity]. cbn [andb].
  now destruct (count_value (field 1 TAB l)).
Qed.

Lemma numstat_fold_tallied lines :
  forall a r fs,
    fold_left numstat_step lines (a, r, fs)
    = ((a + sum_Z (map (fun l => field_count (field 0 TAB l)) (filter tallied lines)))%Z,
       (r + sum_Z (map (fun l => field_count (field 1 TAB l)) (filter tallied lines)))%Z,
       fs ++ map (field 2 TAB) (filter tallied lines)).
Proof.
  induction lines as [|l lines IH]; intros a r fs; cbn [fold_left filter].
  - cbn. now rewrite !Z.add_0_r, app_nil_r.
  - rewrite numstat_step_tallied. destruct (tallied l).
    + rewrite IH. cbn [map sum_Z fold_right]. rewrite <- app_assoc. cbn [app].
      now rewrite <- !Z.add_assoc.
    + apply IH.
Qed.

(** X3: what [get_commit_details] makes of what the stats process
    left.  After a failed query it prints the two diagnostic lines and
    returns zeros and no files.  After a successful one it prints
    nothing and returns the sums of the two count fields over exactly
    the lines with three or more fields whose two count fields are a
    dash or can be read by [int], a dash counting as zero, with the
    paths of these lines in order; every other line is passed over. *)
Theorem get_commit_details_total :
  forall run self commit_hash w,
    let r := run (show_command commit_hash) (repo_path self) in
    let lines := filter tallied (PyStr.split NL (PyStr.strip (stdout r))) in
    (returncode r = 0%Z ->
     get_commit_details run self commit_hash w
     = (Returned
          {| d_linesAdded :=
               sum_Z (map (fun l => field_count (field 0 TAB l)) lines);
             d_linesRemoved :=
               sum_Z (map (fun l => field_count (field 1 TAB l)) lines);
             d_filesModified := map (field 2 TAB) lines |},
        w))
    /\ (returncode r <> 0%Z ->
        get_commit_details run self commit_hash w
        = (Returned {| d_linesAdded := 0; d_linesRemoved := 0;
                       d_filesModified := [] |},
           emit w [GitCommandFailed
                     {| err_returncode := returncode r;
                        err_cmd := show_command commit_hash;
                        err_output := stdout r;
                        err_stderr := stderr r |};
                   Text ("Error output: " ++ stderr r)%string])).
Proof.
  intros run self h w r lines.
  rewrite (get_commit_details_logs run self h w). fold r.
  unfold details_pure, runner_result, runner_lines, truthy. split.
  - intros Hrc. rewrite Hrc. cbn [Z.eqb]. rewrite emit_nil. f_equal.
    destruct (String.eqb_spec (PyStr.strip (stdout r)) "") as [E|_];
      cbv beta iota delta [negb].
    + unfold lines. rewrite E. reflexivity.
    + rewrite numstat_fold_tallied. reflexivity.
  - intros Hrc. apply Z.eqb_neq in Hrc. rewrite Hrc. reflexivity.
Qed.

Lemma get_commit_details_total_witness :
  get_commit_details rename_row_git {| repo_path := "/tmp/x" |} "abc123" empty_world
  = (Returned {| d_linesAdded := 5; d_linesRemoved := 7;
                 d_filesModified := ["a.c"; "c.c"] |},
     empty_world)
  /\ get_commit_details failing_git {| repo_path := "/tmp/x" |} "abc123" empty_world
     = (Returned {| d_linesAdded := 0; d_linesRemoved := 0; d_filesModified := [] |},
        emit empty_world
          [GitCommandFailed
             {| err_returncode := 128; err_cmd := show_command "abc123";
                err_output := ""; err_stderr := "fatal: not a git repository" |};
           Text "Error output: fatal: not a git repository"]).
Proof.
  split.
  - apply (proj1 (get_commit_details_total rename_row_git {| repo_path := "/tmp/x" |}
                    "abc123" empty_world)).
    reflexivity.
  - apply (proj2 (get_commit_details_total failing_git {| repo_path := "/tmp/x" |}
                    "abc123" empty_world)).
    discriminate.
Defined.

(* ================================================================== *)
(** ** More on timestamps *)

Lemma utcfromtimestamp_out_of_range t :
  (t < MIN_TIMESTAMP \/ MAX_TIMESTAMP < t)%Z ->
  fst (utcfromtimestamp t empty_world)
  = Raised (if ((t <? - 2 ^ 63) || (2 ^ 63 <=? t))%Z then OverflowError
            else if ((t <? GMTIME_MIN) || (GMTIME_MAX <? t))%Z then OSError
                 else ValueError).
Proof.
  unfold MIN_TIMESTAMP, MAX_TIMESTAMP. intros Ht. unfold utcfromtimestamp.
  destruct ((t <? - 2 ^ 63) || (2 ^ 63 <=? t))%Z; [reflexivity|].
  destruct ((t <? GMTIME_MIN) || (GMTIME_MAX <? t))%Z; [reflexivity|].
  unfold Datetime.EPOCH_ORDINAL, Datetime.MAX_ORDINAL.
  assert (H : ((719163 + t / 86400 <? 1) || (3652059 <? 719163 + t / 86400))%Z = true).
  { apply orb_true_iff. destruct Ht as [Ht|Ht]; [left|right]; apply Z.ltb_lt.
    - assert (t / 86400 < -719162)%Z; [|lia].
      apply Z.div_lt_upper_bound; lia.
    - assert (2932897 <= t / 86400)%Z; [|lia].
      apply Z.div_le_lower_bound; lia. }
  rewrite H. reflexivity.
Qed.

Lemma timestamp_result_cases f :
  timestamp_result f
  = match PyInt.parse f with
    | None => Raised ValueError
    | Some t =>
        if ((t <? - 2 ^ 63) || (2 ^ 63 <=? t))%Z then Raised OverflowError
        else if ((t <? GMTIME_MIN) || (GMTIME_MAX <? t))%Z then Raised OSError
        else if ((t <? MIN_TIMESTAMP) || (MAX_TIMESTAMP <? t))%Z
             then Raised ValueError
             else Returned (timestamp_text f)
    end.
Proof.
  destruct (PyInt.parse f) as [t|] eqn:Hp.
  - destruct ((t <? MIN_TIMESTAMP) || (MAX_TIMESTAMP <? t))%Z eqn:Hr.
    + assert (Hout : (t < MIN_TIMESTAMP \/ MAX_TIMESTAMP < t)%Z).
      { apply orb_true_iff in Hr. destruct Hr as [H|H]; apply Z.ltb_lt in H; auto. }
      pose proof (utcfromtimestamp_out_of_range t Hout) as Hu.
      unfold timestamp_result, format_timestamp, bind, int. rewrite Hp.
      unfold ret at 1. rewrite (utcfromtimestamp_pure t empty_world), Hu.
      cbn [fst]. destruct ((t <? - 2 ^ 63) || (2 ^ 63 <=? t))%Z; [reflexivity|].
      now destruct ((t <? GMTIME_MIN) || (GMTIME_MAX <? t))%Z.
    + apply orb_false_elim in Hr as [H1 H2].
      apply Z.ltb_ge in H1, H2.
      assert (Hv : valid_timestamp f) by (exists t; split; [assumption|lia]).
      rewrite (valid_timestamp_returns f Hv).
      unfold MIN_TIMESTAMP, MAX_TIMESTAMP, GMTIME_MIN, GMTIME_MAX in *.
      destruct (Z.ltb_spec t (- 2 ^ 63)); [lia|].
      destruct (Z.leb_spec (2 ^ 63) t); [lia|].
      destruct (Z.ltb_spec t (-67768040609740800)); [lia|].
      destruct (Z.ltb_spec 67768036191676799 t); [lia|]. reflexivity.
  - now apply unreadable_timestamp_raises.
Qed.

(** X4: what [format_timestamp] does with every field.  A field that
    [int] cannot read, be it for its more than 4300 digits, raises
    [ValueError]; an integer outside the 64-bit range raises
    [OverflowError]; one whose year the C library cannot hold raises
    [OSError]; one before year 1 or after year 9999 raises
    [ValueError]; every other integer gives a text, and nothing is
    printed in any case. *)
Theorem format_timestamp_outcomes :
  forall f w,
    format_timestamp f w
    = (match PyInt.parse f with
       | None => Raised ValueError
       | Some t =>
           if ((t <? - 2 ^ 63) || (2 ^ 63 <=? t))%Z then Raised OverflowError
           else if ((t <? GMTIME_MIN) || (GMTIME_MAX <? t))%Z then Raised OSError
           else if ((t <? MIN_TIMESTAMP) || (MAX_TIMESTAMP <? t))%Z
                then Raised ValueError
                else Returned (timestamp_text f)
       end, w).
Proof.
  intros f w. rewrite (format_timestamp_logs f w), emit_nil.
  f_equal. apply timestamp_result_cases.
Qed.

Lemma timestamp_returned_valid f s :
  timestamp_result f = Returned s -> valid_timestamp f.
Proof.
  intros H. pose proof (timestamp_result_cases f) as Ho. rewrite H in Ho.
  destruct (PyInt.parse f) as [t|] eqn:Hp; [|discriminate Ho].
  destruct ((t <? - 2 ^ 63) || (2 ^ 63 <=? t))%Z; [discriminate Ho|].
  destruct ((t <? GMTIME_MIN) || (GMTIME_MAX <? t))%Z; [discriminate Ho|].
  destruct ((t <? MIN_TIMESTAMP) || (MAX_TIMESTAMP <? t))%Z eqn:Hr; [discriminate Ho|].
  apply orb_false_elim in Hr as [H1 H2]. apply Z.ltb_ge in H1, H2.
  exists t. split; [exact Hp|lia].
Qed.

(* ================================================================== *)
(** ** More on timestamps: different instants, different texts *)

Lemma pad_parse_checked (w bound : nat) :
  forallb (fun k => match PyInt.parse (Datetime.pad w (Z.of_nat k)) with
                    | Some n => (n =? Z.of_nat k)%Z
                    | None => false
                    end) (seq 0 bound) = true ->
  forall n, (0 <= n < Z.of_nat bound)%Z -> PyInt.parse (Datetime.pad w n) = Some n.
Proof.
  intros Hf n Hn. rewrite forallb_forall in Hf.
  specialize (Hf (Z.to_nat n)). rewrite Z2Nat.id in Hf by lia.
  destruct (PyInt.parse (Datetime.pad w n)) as [m|].
  - f_equal. apply Z.eqb_eq, Hf, in_seq. lia.
  - discriminate Hf. apply in_seq. lia.
Qed.

Lemma pad2_parse n : (0 <= n < 100)%Z -> PyInt.parse (Datetime.pad 2 n) = Some n.
Proof. apply (pad_parse_checked 2 100). vm_compute. reflexivity. Qed.

Lemma append_inj_length (a a' b b' : string) :
  String.length a = String.length a' ->
  (a ++ b)%string = (a' ++ b')%string -> a = a' /\ b = b'.
Proof.
  revert a'. induction a as [|c a IH]; intros [|c' a'] Hlen H;
    try discriminate Hlen.
  - now split.
  - cbn [append] in H. injection H as -> H. cbn [String.length] in Hlen.
    destruct (IH a' ltac:(lia) H) as [-> ->]. now split.
Qed.

(** The text of a date and time with fields in range gives the fields back. *)
Lemma iso_fields_inj y mo d h mi s y' mo' d' h' mi' s' :
  (0 <= y < 10000)%Z -> (0 <= mo < 100)%Z -> (0 <= d < 100)%Z ->
  (0 <= h < 100)%Z -> (0 <= mi < 100)%Z -> (0 <= s < 100)%Z ->
  (0 <= y' < 10000)%Z -> (0 <= mo' < 100)%Z -> (0 <= d' < 100)%Z ->
  (0 <= h' < 100)%Z -> (0 <= mi' < 100)%Z -> (0 <= s' < 100)%Z ->
  Datetime.strftime_iso_z
    {| Datetime.year := y; Datetime.month := mo; Datetime.day := d;
       Datetime.hour := h; Datetime.minute := mi; Datetime.second := s |}
  = Datetime.strftime_iso_z
      {| Datetime.year := y'; Datetime.month := mo'; Datetime.day := d';
         Datetime.hour := h'; Datetime.minute := mi'; Datetime.second := s' |} ->
  y = y' /\ mo = mo' /\ d = d' /\ h = h' /\ mi = mi' /\ s = s'.
Proof.
  intros Hy Hmo Hd Hh Hmi Hs Hy' Hmo' Hd' Hh' Hmi' Hs'.
  unfold Datetime.strftime_iso_z.
  cbn [Datetime.year Datetime.month Datetime.day Datetime.hour Datetime.minute
       Datetime.second].
  intros H.
  assert (PY : forall a b, PyInt.str a = PyInt.str b -> a = b).
  { intros a b E. apply (f_equal PyInt.literal) in E.
    rewrite !IntFacts.literal_str in E. now injection E. }
  assert (P2 : forall a b, (0 <= a < 100)%Z -> (0 <= b < 100)%Z ->
                           Datetime.pad 2 a = Datetime.pad 2 b -> a = b).
  { intros a b Ha Hb E. apply (f_equal PyInt.parse) in E.
    rewrite (pad2_parse a Ha), (pad2_parse b Hb) in E. now injection E. }
  assert (Hlen : String.length (PyInt.str y) = String.length (PyInt.str y')).
  { pose proof (f_equal String.length H) as Hl.
    rewrite !length_iso in Hl by (apply DatetimeFacts.pad2_length; assumption).
    lia. }
  apply append_inj_length in H as [E1 H]; [|exact Hlen].
  cbn [append] in H. injection H as H.
  apply append_inj_length in H as [E2 H];
    [|now rewrite !DatetimeFacts.pad2_length].
  cbn [append] in H. injection H as H.
  apply append_inj_length in H as [E3 H];
    [|now rewrite !DatetimeFacts.pad2_length].
  cbn [append] in H. injection H as H.
  apply append_inj_length in H as [E4 H];
    [|now rewrite !DatetimeFacts.pad2_length].
  cbn [append] in H. injection H as H.
  apply append_inj_length in H as [E5 H];
    [|now rewrite !DatetimeFacts.pad2_length].
  cbn [append] in H. injection H as H.
  apply append_inj_length in H as [E6 _];
    [|now rewrite !DatetimeFacts.pad2_length].
  repeat split; auto.
Qed.

(** X5: [format_timestamp] loses nothing: two fields that it turns
    into the same text denote the same second. *)
Theorem format_timestamp_injective :
  forall f1 f2 t1 t2 w1 w2 s,
    PyInt.parse f1 = Some t1 ->
    PyInt.parse f2 = Some t2 ->
    fst (format_timestamp f1 w1) = Returned s ->
    fst (format_timestamp f2 w2) = Returned s ->
    t1 = t2.
Proof.
  intros f1 f2 t1 t2 w1 w2 s Hp1 Hp2 H1 H2.
  assert (Hv : forall f t w, PyInt.parse f = Some t ->
                             fst (format_timestamp f w) = Returned s ->
                             (MIN_TIMESTAMP <= t <= MAX_TIMESTAMP)%Z).
  { intros f t w Hp H. rewrite (format_timestamp_logs f w) in H. cbn [fst] in H.
    destruct (timestamp_returned_valid f s H) as (t' & Hp' & Ht').
    rewrite Hp in Hp'. now injection Hp' as ->. }
  pose proof (Hv f1 t1 w1 Hp1 H1) as Hr1. pose proof (Hv f2 t2 w2 Hp2 H2) as Hr2.
  destruct (utcfromtimestamp_fields t1 w1 Hr1)
    as (y & mo & d & h & mi & sc & Hrun & Hy & Hmo & Hd & Hh & Hmi & Hs & Hback).
  destruct (utcfromtimestamp_fields t2 w2 Hr2)
    as (y' & mo' & d' & h' & mi' & sc' & Hrun' & Hy' & Hmo' & Hd' & Hh' & Hmi' & Hs'
        & Hback').
  unfold format_timestamp, bind, int in H1, H2.
  rewrite Hp1 in H1. rewrite Hp2 in H2. unfold ret at 1 in H1. unfold ret at 1 in H2.
  rewrite Hrun in H1. rewrite Hrun' in H2. cbn [fst ret] in H1, H2.
  injection H1 as H1. injection H2 as H2.
  pose proof (days_in_month_le_31 y mo Hmo). pose proof (days_in_month_le_31 y' mo' Hmo').
  assert (E : y = y' /\ mo = mo' /\ d = d' /\ h = h' /\ mi = mi' /\ sc = sc').
  { apply iso_fields_inj; try lia. congruence. }
  destruct E as (-> & -> & -> & -> & -> & ->). lia.
Qed.

Lemma format_timestamp_injective_witness : 1700000000%Z = 1700000000%Z.
Proof.
  apply (format_timestamp_injective "1700000000" " +1_700_000_000 "
           1700000000 1700000000 empty_world empty_world "2023-11-14T22:13:20Z");
    reflexivity.
Defined.

(* ================================================================== *)
(** ** More on the history loop *)

Lemma get_commits_no_history run self limit :
  let r := run (log_command limit) (repo_path self) in
  returncode r <> 0%Z \/ PyStr.strip (stdout r) = "" ->
  logs (get_commits run self limit) (Returned []) (runner_lines (log_command limit) r).
Proof.
  intros r Hfail w. unfold get_commits.
  change ["git"; "log"; ("--format=" ++ "%H|%an|%ae|%at")%string;
          ("-n" ++ PyInt.str limit)%string] with (log_command limit).
  unfold bind at 1. rewrite (run_git_command_logs run self (log_command limit) w).
  fold r. unfold runner_result, truthy.
  destruct Hfail as [Hrc|Hout].
  - apply Z.eqb_neq in Hrc. now rewrite Hrc.
  - destruct (returncode r =? 0)%Z; [|reflexivity]. now rewrite Hout.
Qed.

(** X6: when the history query fails or prints nothing,
    [get_commits] returns the empty list without announcing any
    commits, and [analyze_repository] still returns a report: it has the
    resolved name and no commits. *)
Theorem no_history_gives_empty_report :
  forall run self limit w,
    let r := run (log_command limit) (repo_path self) in
    returncode r <> 0%Z \/ PyStr.strip (stdout r) = "" ->
    get_commits run self limit w
    = (Returned [],
       emit w (if (returncode r =? 0)%Z then []
               else [GitCommandFailed
                       {| err_returncode := returncode r;
                          err_cmd := log_command limit;
                          err_output := stdout r;
                          err_stderr := stderr r |};
                     Text ("Error output: " ++ stderr r)%string]))
    /\ exists name w1 w',
        get_repository_name run self (emit w [Text "Analyzing repository..."])
        = (Returned name, w1)
        /\ analyze_repository run self limit w
           = (Returned {| repository := name; commits := [] |}, w').
Proof.
  intros run self limit w r Hfail. split.
  - apply (get_commits_no_history run self limit Hfail w).
  - pose proof (get_repository_name_logs run self
                  (emit w [Text "Analyzing repository..."])) as Hname.
    cbv zeta in Hname.
    eexists. eexists. eexists. split; [exact Hname|].
    unfold analyze_repository, bind. unfold print at 1.
    change {| console := console w ++ [Text "Analyzing repository..."];
              files := files w |}
      with (emit w [Text "Analyzing repository..."]).
    rewrite Hname. unfold print at 1.
    rewrite (get_commits_no_history run self limit Hfail). reflexivity.
Qed.

Lemma no_history_gives_empty_report_witness :
  get_commits failing_git {| repo_path := "/srv/proj/" |} 100 empty_world
  = (Returned [],
     {| console :=
          [GitCommandFailed
             {| err_returncode := 128; err_cmd := log_command 100;
                err_output := ""; err_stderr := "fatal: not a git repository" |};
           Text "Error output: fatal: not a git repository"];
        files := [] |})
  /\ exists name w1 w',
      get_repository_name failing_git {| repo_path := "/srv/proj/" |}
        (emit empty_world [Text "Analyzing repository..."])
      = (Returned name, w1)
      /\ analyze_repository failing_git {| repo_path := "/srv/proj/" |} 100 empty_world
         = (Returned {| repository := name; commits := [] |}, w').
Proof.
  apply (no_history_gives_empty_report failing_git {| repo_path := "/srv/proj/" |}
           100 empty_world).
  left. cbn. discriminate.
Defined.

Lemma flat_map_line_records run self lines :
  flat_map (line_records run self) lines
  = map (record_of run self) (filter valid_line lines).
Proof.
  induction lines as [|l lines IH]; [reflexivity|].
  cbn [flat_map filter]. unfold line_records at 1.
  destruct (valid_line l); cbn [app map]; now rewrite IH.
Qed.

(** X7: on a history whose timestamp fields can be read,
    [get_commits] returns one record for each line with four or more
    fields, in the order of the lines: its hash, author and e-mail are
    the first three fields.  There are never more records than lines. *)
Theorem get_commits_in_history_order :
  forall run self limit w,
    let r := run (log_command limit) (repo_path self) in
    let lines := filter valid_line (history_lines r) in
    returncode r = 0%Z ->
    PyStr.strip (stdout r) <> "" ->
    (forall line, In line (history_lines r) -> valid_line line = true ->
                  valid_timestamp (field 3 "|" line)) ->
    exists cs,
      fst (get_commits run self limit w) = Returned cs
      /\ map hash cs = map (field 0 "|") lines
      /\ map author cs = map (field 1 "|") lines
      /\ map email cs = map (field 2 "|") lines
      /\ (List.length cs <= List.length (history_lines r))%nat.
Proof.
  intros run self limit w r lines Hrc Hne Hts.
  rewrite (get_commits_logs run self limit Hrc Hne Hts w). fold r. cbn [fst].
  rewrite flat_map_line_records. fold lines.
  eexists. split; [reflexivity|].
  rewrite !map_map. cbn [record_of hash author email].
  repeat split; try reflexivity.
  rewrite length_map. unfold lines. apply filter_length_le.
Qed.

Lemma get_commits_in_history_order_witness :
  exists cs,
    fst (get_commits torn_history_git {| repo_path := "/tmp/x" |} 100 empty_world)
    = Returned cs
    /\ map hash cs
       = ["c01"; "c02"; "c03"; "c04"; "c05"; "c06"; "c07"; "c08"; "c09"; "c10"]
    /\ map author cs = map (fun _ => "Ada") cs
    /\ map email cs = map (fun _ => "ada@x.com") cs
    /\ (List.length cs <= 11)%nat.
Proof.
  destruct (get_commits_in_history_order torn_history_git {| repo_path := "/tmp/x" |}
              100 empty_world) as (cs & Hrun & Hh & Ha & He & Hlen).
  - reflexivity.
  - discriminate.
  - exact torn_history_timestamps.
  - exists cs. split; [exact Hrun|].
    assert (Hcs : List.length cs = 10%nat).
    { apply (f_equal (@List.length string)) in Hh. rewrite length_map in Hh.
      exact Hh. }
    split; [exact Hh|]. split; [|split; [|exact Hlen]].
    + rewrite Ha. destruct cs as [|? [|? [|? [|? [|? [|? [|? [|? [|? [|? [|]]]]]]]]]]];
        try discriminate Hcs. reflexivity.
    + rewrite He. destruct cs as [|? [|? [|? [|? [|? [|? [|? [|? [|? [|? [|]]]]]]]]]]];
        try discriminate Hcs. reflexivity.
Defined.

Lemma commit_loop_returned_valid run self n ils :
  forall cs w cs' w',
    for_each ils (commit_line run self n) cs w = (Returned cs', w') ->
    forall il, In il ils -> valid_line (snd il) = true ->
               valid_timestamp (field 3 "|" (snd il)).
Proof.
  induction ils as [|[i line] ils IH]; intros cs w cs' w' H il Hil Hv;
    [destruct Hil|].
  cbn [for_each] in H. apply bind_returned in H as (cs1 & w1 & Hline & Hrest).
  destruct Hil as [<-|Hil]; [|exact (IH cs1 w1 cs' w' Hrest il Hil Hv)].
  cbn [snd] in *.
  pose proof (commit_line_valid run self n cs i line Hv) as Hl.
  destruct (timestamp_result (field 3 "|" line)) as [ts|e] eqn:Et.
  - exact (timestamp_returned_valid _ ts Et).
  - rewrite Hl in Hline. discriminate Hline.
Qed.

(** X8: on a history that is there, [get_commits] completes exactly
    when the fourth field of every line with four or more fields reads
    as an integer that is a date of the years 1 to 9999. *)
Theorem get_commits_completes_iff :
  forall run self limit w,
    let r := run (log_command limit) (repo_path self) in
    returncode r = 0%Z ->
    PyStr.strip (stdout r) <> "" ->
    (exists cs w', get_commits run self limit w = (Returned cs, w'))
    <-> (forall line, In line (history_lines r) -> valid_line line = true ->
                      valid_timestamp (field 3 "|" line)).
Proof.
  intros run self limit w r Hrc Hne. split.
  - intros (cs & w' & H) line Hline Hv.
    unfold get_commits in H.
    change ["git"; "log"; ("--format=" ++ "%H|%an|%ae|%at")%string;
            ("-n" ++ PyInt.str limit)%string] with (log_command limit) in H.
    unfold bind at 1 in H.
    rewrite (run_git_command_ok run self (log_command limit) Hrc w) in H.
    fold r in H. unfold truthy in H.
    destruct (String.eqb_spec (PyStr.strip (stdout r)) "") as [E|_]; [contradiction|].
    cbv beta iota delta [negb] in H. fold (history_lines r) in H.
    apply bind_returned in H as (u & w1 & _ & H).
    destruct (In_nth _ _ "" Hline) as (k & Hk & Hnth).
    assert (Hil : In (k, line) (enumerate (history_lines r))).
    { unfold enumerate.
      assert (E : (k, line) = nth k (combine (seq 0 (List.length (history_lines r)))
                                       (history_lines r)) (0%nat, "")).
      { rewrite combine_nth by apply length_seq. rewrite seq_nth by exact Hk.
        now rewrite Hnth. }
      rewrite E. apply nth_In. rewrite length_combine, length_seq. lia. }
    exact (commit_loop_returned_valid run self _ _ _ _ _ _ H (k, line) Hil Hv).
  - intros Hts. eexists. eexists.
    apply (get_commits_logs run self limit Hrc Hne Hts w).
Qed.

Lemma get_commits_completes_iff_witness :
  (exists cs w', get_commits piped_author_git {| repo_path := "/tmp/x" |} 100 empty_world
                 = (Returned cs, w'))
  <-> (forall line,
          In line (history_lines (piped_author_git (log_command 100) "/tmp/x")) ->
          valid_line line = true -> valid_timestamp (field 3 "|" line)).
Proof.
  apply (get_commits_completes_iff piped_author_git {| repo_path := "/tmp/x" |}
           100 empty_world).
  - reflexivity.
  - discriminate.
Defined.

(* ================================================================== *)
(** ** JSON: the characters of the encodings *)

Module CharFacts.
Import Json JsonCompact IntFacts JsonFacts.

Lemma all_chars_app p a b :
  all_chars p (a ++ b) = all_chars p a && all_chars p b.
Proof.
  induction a as [|c a IH]; cbn [append all_chars]; [reflexivity|].
  now rewrite IH, andb_assoc.
Qed.

Lemma all_chars_weaken (p q : ascii -> bool) s :
  (forall c, p c = true -> q c = true) ->
  all_chars p s = true -> all_chars q s = true.
Proof.
  intros Hpq. induction s as [|c s IH]; cbn [all_chars]; [reflexivity|].
  intros H. apply andb_prop in H as [Hc Hs]. now rewrite (Hpq c Hc), IH.
Qed.

Lemma all_chars_concat p sep l :
  all_chars p sep = true ->
  Forall (fun s => all_chars p s = true) l ->
  all_chars p (String.concat sep l) = true.
Proof.
  intros Hsep H. induction H as [|x l Hx Hl IH]; [reflexivity|].
  destruct l as [|y l]; [exact Hx|].
  change (String.concat sep (x :: y :: l))
    with (x ++ sep ++ String.concat sep (y :: l))%string.
  now rewrite !all_chars_app, Hx, Hsep, IH.
Qed.

Lemma escape_char_printable c : all_chars printable (escape_char c) = true.
Proof. destruct c as [[] [] [] [] [] [] [] []]; reflexivity. Qed.

Lemma escape_printable s : all_chars printable (escape s) = true.
Proof.
  induction s as [|c s IH]; [reflexivity|].
  cbn [escape]. now rewrite all_chars_app, escape_char_printable, IH.
Qed.

Lemma encode_string_printable s : all_chars printable (encode_string s) = true.
Proof.
  unfold encode_string. cbn [all_chars]. rewrite all_chars_app, escape_printable.
  reflexivity.
Qed.

Lemma digit_printable c : is_digit c = true -> printable c = true.
Proof. destruct c as [[] [] [] [] [] [] [] []]; try reflexivity; discriminate. Qed.

Lemma digits_printable s : all_digits s = true -> all_chars printable s = true.
Proof.
  induction s as [|c s IH]; cbn [all_digits all_chars]; [reflexivity|].
  intros H. apply andb_prop in H as [Hc Hs]. now rewrite (digit_printable c Hc), IH.
Qed.

Lemma str_printable n : all_chars printable (PyInt.str n) = true.
Proof.
  destruct n as [|p|p]; [reflexivity| |rewrite str_neg; cbn [all_chars]];
    destruct (str_pos p) as (c & ds & -> & _ & Hc & _ & Hds);
    cbn [all_chars]; now rewrite (digit_printable c Hc), (digits_printable ds Hds).
Qed.

Lemma replicate_blank_printable n : all_chars printable (PyStr.replicate " " n) = true.
Proof. induction n as [|n IH]; [reflexivity|exact IH]. Qed.

Lemma newline_indent_chars i l :
  all_chars printable_or_newline (newline_indent i l) = true.
Proof.
  unfold newline_indent. cbn [all_chars].
  apply (all_chars_weaken printable); [|apply replicate_blank_printable].
  intros c Hc. unfold printable_or_newline. now rewrite Hc.
Qed.

Lemma printable_weaken s :
  all_chars printable s = true -> all_chars printable_or_newline s = true.
Proof.
  apply all_chars_weaken. intros c Hc. unfold printable_or_newline. now rewrite Hc.
Qed.

Lemma encode_chars v :
  forall i l, all_chars printable_or_newline (encode i l v) = true.
Proof.
  induction v as [s|n|items IH|pairs IH] using value_ind; intros i l.
  - apply printable_weaken, encode_string_printable.
  - apply printable_weaken, str_printable.
  - destruct items as [|x xs]; [reflexivity|].
    rewrite RoundTrip.encode_list. cbn [all_chars].
    rewrite !all_chars_app, !newline_indent_chars.
    change (printable_or_newline "[") with true.
    change (all_chars printable_or_newline "]") with true.
    rewrite !andb_true_r. cbn [andb].
    apply all_chars_concat.
    + unfold sep. cbn [append all_chars].
      now rewrite newline_indent_chars.
    + apply Forall_map. eapply Forall_impl; [|exact IH]. intros v Hv. apply Hv.
  - destruct pairs as [|p ps]; [reflexivity|].
    rewrite RoundTrip.encode_dict. cbn [all_chars].
    rewrite !all_chars_app, !newline_indent_chars.
    change (printable_or_newline "{") with true.
    change (all_chars printable_or_newline "}") with true.
    rewrite !andb_true_r. cbn [andb].
    apply all_chars_concat.
    + unfold sep. cbn [append all_chars]. now rewrite newline_indent_chars.
    + apply Forall_map. eapply Forall_impl; [|exact IH].
      intros [k x] Hx. cbn [snd] in Hx. unfold pair_text.
      rewrite !all_chars_app, (printable_weaken _ (encode_string_printable k)), Hx.
      reflexivity.
Qed.




End CharFacts.

(* ================================================================== *)
(** ** JSON: the round trip of the compact encoding *)

Module CompactRoundTrip.
Import Json JsonCompact IntFacts JsonFacts RoundTrip CharFacts.
















End CompactRoundTrip.

(* ================================================================== *)
(** ** More on the report file *)

(** X9: the text that [save_to_json] writes holds only printable ASCII
    characters and line feeds, whatever characters the names, addresses
    and paths of the report contain. *)
Theorem save_to_json_writes_ascii :
  forall (results : report) (filename : string) (w : world),
    exists text,
      read_file (files (snd (save_to_json results filename w))) filename = Some text
      /\ all_chars printable_or_newline text = true.
Proof.
  intros results filename w. exists (Json.dumps 2 (report_value results)). split.
  - unfold save_to_json, bind, write_file, print. cbn [snd files].
    apply read_file_written.
  - apply CharFacts.encode_chars.
Qed.

(* ================================================================== *)
(** ** The HTTP post *)


(* ================================================================== *)
(** ** The arguments of the script *)

Lemma split_app_sep sep pre u :
  (forall c, In c (list_ascii_of_string pre) -> c <> sep) ->
  PyStr.split sep (pre ++ String sep u) = pre :: PyStr.split sep u.
Proof.
  induction pre as [|c pre IH]; intros H; cbn [append].
  - apply split_cons_sep.
  - rewrite split_cons_other by (apply H; now left).
    rewrite IH by (intros a Ha; apply H; now right). reflexivity.
Qed.

(** The text after the first equals sign of an option, up to the next. *)
Lemma option_value name a rest :
  no_equals name -> no_equals a ->
  (nth 1 (PyStr.split "=" (name ++ String "=" a)) "" = a)
  /\ (nth 1 (PyStr.split "=" (name ++ String "=" (a ++ String "=" rest))) "" = a).
Proof.
  intros Hname Ha. split.
  - rewrite split_app_sep by exact Hname. now rewrite split_no_sep by exact Ha.
  - rewrite split_app_sep by exact Hname. now rewrite split_app_sep by exact Ha.
Qed.

Lemma no_equals_limit : no_equals "--limit".
Proof.
  intros c Hc. cbn in Hc. intros ->.
  repeat (destruct Hc as [Hc|Hc]; [discriminate Hc|]). exact Hc.
Qed.

Lemma no_equals_api : no_equals "--api".
Proof.
  intros c Hc. cbn in Hc. intros ->.
  repeat (destruct Hc as [Hc|Hc]; [discriminate Hc|]). exact Hc.
Qed.

Lemma startswith_app prefix s : startswith (prefix ++ s) prefix = true.
Proof.
  unfold startswith. induction prefix as [|c prefix IH]; cbn [append String.prefix].
  - now destruct s.
  - destruct (ascii_dec c c) as [_|H]; [exact IH|now elim H].
Qed.

Lemma parse_arg_limit st s n w :
  no_equals s -> PyInt.parse s = Some n ->
  parse_arg st ("--limit=" ++ s) w = (Returned (n, snd st), w).
Proof.
  intros Hs Hp. destruct st as [l e]. unfold parse_arg.
  rewrite (startswith_app "--limit=" s).
  change ("--limit=" ++ s)%string with ("--limit" ++ String "=" s)%string.
  rewrite (proj1 (option_value "--limit" s "" no_equals_limit Hs)).
  unfold bind, int. now rewrite Hp.
Qed.

Lemma parse_arg_other st arg w :
  startswith arg "--limit=" = false ->
  exists e, parse_arg st arg w = (Returned (fst st, e), w).
Proof.
  intros H. destruct st as [l e]. unfold parse_arg. rewrite H.
  destruct (startswith arg "--api="); eexists; reflexivity.
Qed.

Lemma parse_args_keep_limit args :
  (forall a, In a args -> startswith a "--limit=" = false) ->
  forall st w, exists e, for_each args parse_arg st w = (Returned (fst st, e), w).
Proof.
  induction args as [|a args IH]; intros H st w.
  - exists (snd st). destruct st. reflexivity.
  - cbn [for_each]. unfold bind.
    destruct (parse_arg_other st a w (H a (or_introl eq_refl))) as [e ->].
    destruct (IH (fun x Hx => H x (or_intror Hx)) (fst st, e) w) as [e' ->].
    now exists e'.
Qed.

Lemma for_each_app_returned {A S} (body : S -> A -> Py S) l1 l2 s w s1 w1 :
  for_each l1 body s w = (Returned s1, w1) ->
  for_each (l1 ++ l2) body s w = for_each l2 body s1 w1.
Proof.
  revert s w. induction l1 as [|x l1 IH]; intros s w; cbn [for_each app].
  - unfold ret. now intros [= -> ->].
  - unfold bind. destruct (body s x w) as [[s'|e] w']; [|discriminate]. apply IH.
Qed.

(** X12: the limit the script uses is 100 when no argument starts
    with "--limit=", and otherwise the integer of the last such
    argument, whatever stands before it, provided the arguments before
    it were read without error.  Reading the arguments prints
    nothing. *)
Theorem last_limit_argument_wins :
  (forall args w,
      (forall a, In a args -> startswith a "--limit=" = false) ->
      exists api, for_each args parse_arg (100%Z, None) w = (Returned (100%Z, api), w))
  /\ (forall before s n after st st1 w,
         for_each before parse_arg st w = (Returned st1, w) ->
         no_equals s ->
         PyInt.parse s = Some n ->
         (forall a, In a after -> startswith a "--limit=" = false) ->
         exists api,
           for_each (before ++ ("--limit=" ++ s)%string :: after) parse_arg st w
           = (Returned (n, api), w)).
Proof.
  split.
  - intros args w H. apply (parse_args_keep_limit args H (100%Z, None) w).
  - intros before s n after st st1 w Hbefore Hs Hp Hafter.
    rewrite (for_each_app_returned parse_arg before _ st w st1 w Hbefore).
    cbn [for_each]. unfold bind. rewrite (parse_arg_limit st1 s n w Hs Hp).
    apply (parse_args_keep_limit after Hafter (n, snd st1) w).
Qed.

Lemma last_limit_argument_wins_witness :
  (exists api, for_each ["--verbose"; "--api=http://localhost:3000/api"] parse_arg
                 (100%Z, None) empty_world
               = (Returned (100%Z, api), empty_world))
  /\ (exists api, for_each (["--limit=7"; "--api=http://localhost:3000/api"]
                            ++ "--limit=25"%string :: ["--quiet"])
                    parse_arg (100%Z, None) empty_world
                  = (Returned (25%Z, api), empty_world)).
Proof.
  destruct last_limit_argument_wins as [Hdefault Hlast]. split.
  - apply Hdefault. intros a [<-|[<-|[]]]; reflexivity.
  - apply (Hlast ["--limit=7"; "--api=http://localhost:3000/api"] "25" 25%Z
             ["--quiet"] (100%Z, None)
             (7%Z, Some "http://localhost:3000/api") empty_world).
    + reflexivity.
    + intros c Hc. cbn in Hc. intros ->.
      repeat (destruct Hc as [Hc|Hc]; [discriminate Hc|]). exact Hc.
    + reflexivity.
    + intros a [<-|[]]. reflexivity.
Defined.

Lemma parse_unreadable_limit before s after st st1 w :
  for_each before parse_arg st w = (Returned st1, w) ->
  PyInt.parse (nth 1 (PyStr.split "=" ("--limit=" ++ s)) "") = None ->
  for_each (before ++ ("--limit=" ++ s)%string :: after) parse_arg st w
  = (Raised ValueError, w).
Proof.
  intros Hbefore Hp.
  rewrite (for_each_app_returned parse_arg before _ st w st1 w Hbefore).
  cbn [for_each]. unfold bind. destruct st1 as [l e]. unfold parse_arg.
  rewrite (startswith_app "--limit=" s).
  unfold bind, int. now rewrite Hp.
Qed.

(** X13: the endpoint taken from an "--api=" argument is the text
    between the first equals sign and the next one: an address with an
    equals sign in it, as in a query string, is cut there. *)
Theorem api_endpoint_cut_at_equals :
  forall st a rest w,
    no_equals a ->
    parse_arg st ("--api=" ++ a) w = (Returned (fst st, Some a), w)
    /\ parse_arg st ("--api=" ++ a ++ String "=" rest) w
       = (Returned (fst st, Some a), w).
Proof.
  intros [l e] a rest w Ha. unfold parse_arg. split.
  - change (startswith ("--api=" ++ a) "--limit=") with false.
    rewrite (startswith_app "--api=" a).
    change ("--api=" ++ a)%string with ("--api" ++ String "=" a)%string.
    now rewrite (proj1 (option_value "--api" a "" no_equals_api Ha)).
  - change (startswith ("--api=" ++ a ++ String "=" rest) "--limit=") with false.
    rewrite (startswith_app "--api=" (a ++ String "=" rest)).
    change ("--api=" ++ a ++ String "=" rest)%string
      with ("--api" ++ String "=" (a ++ String "=" rest))%string.
    now rewrite (proj2 (option_value "--api" a rest no_equals_api Ha)).
Qed.

Lemma api_endpoint_cut_at_equals_witness :
  parse_arg (100%Z, None) ("--api=" ++ "http://h/post?key") empty_world
  = (Returned (100%Z, Some "http://h/post?key"), empty_world)
  /\ parse_arg (100%Z, None) ("--api=" ++ "http://h/post?key" ++ String "=" "abc&x=1")
       empty_world
     = (Returned (100%Z, Some "http://h/post?key"), empty_world).
Proof.
  apply (api_endpoint_cut_at_equals (100%Z, None) "http://h/post?key" "abc&x=1"
           empty_world).
  intros c Hc. cbn in Hc. intros ->.
  repeat (destruct Hc as [Hc|Hc]; [discriminate Hc|]). exact Hc.
Defined.

(* ================================================================== *)
(** ** The summary *)
















Lemma fold_add_sum l : forall acc, fold_left Z.add l acc = (acc + sum_Z l)%Z.
Proof.
  induction l as [|x l IH]; intros acc; cbn [fold_left sum_Z fold_right]; [lia|].
  rewrite IH. unfold sum_Z. lia.
Qed.

Lemma for_each_print {A} (f : A -> console_line) l w :
  for_each l (fun (_ : unit) x => print (f x)) tt w
  = (Returned tt, emit w (map f l)).
Proof.
  revert w. induction l as [|x l IH]; intros w; cbn [for_each map].
  - unfold ret. now rewrite emit_nil.
  - unfold bind, print. rewrite IH. unfold emit. cbn [console files].
    now rewrite <- app_assoc.
Qed.

Lemma print_summary_lines results w :
  commits results <> [] ->
  print_summary results w
  = (Returned tt,
     emit w
       (summary_head results
        ++ map contributor_line
             (firstn 5 (sorted_by_count (tally (commits results)))))).
Proof.
  intros Hne. unfold print_summary, summary_head.
  destruct (commits results) as [|c cs'] eqn:Ecs; [now elim Hne|].
  rewrite <- Ecs. unfold bind at 1 2 3 4 5 6, print. cbn [console files].
  rewrite !fold_add_sum, !Z.add_0_l.
  change (fold_left (fun authors c0 => count_author (author c0) authors)
            (commits results) [])
    with (tally (commits results)).
  rewrite (for_each_print contributor_line).
  unfold emit. cbn [console files]. f_equal. f_equal.
  now rewrite <- !app_assoc.
Qed.



(* ================================================================== *)
(** ** The totals of the summary *)

Lemma group_thousands_ind (P : list ascii -> Prop) :
  (forall l, (List.length l <= 3)%nat -> P l) ->
  (forall a b c d rest, P (d :: rest) -> P (a :: b :: c :: d :: rest)) ->
  forall l, P l.
Proof.
  intros Hshort Hlong l.
  assert (H : forall n l, (List.length l <= n)%nat -> P l).
  { clear l. induction n as [|n IH]; intros l Hl.
    - apply Hshort. lia.
    - destruct l as [|a [|b [|c [|d rest]]]]; try (apply Hshort; cbn; lia).
      apply Hlong, IH. cbn [List.length] in *. lia. }
  apply (H (List.length l) l). lia.
Qed.

Lemma group_thousands_short l :
  (List.length l <= 3)%nat -> group_thousands l = l.
Proof.
  destruct l as [|a [|b [|c [|d rest]]]]; try reflexivity.
  cbn [List.length]. lia.
Qed.

Lemma group_thousands_filter l :
  filter not_comma (group_thousands l) = filter not_comma l.
Proof.
  induction l as [l Hl|a b c d rest IH] using group_thousands_ind.
  - now rewrite group_thousands_short.
  - change (group_thousands (a :: b :: c :: d :: rest))
      with (a :: b :: c :: ","%char :: group_thousands (d :: rest)).
    cbn [filter]. change (not_comma ",") with false. cbv iota.
    now rewrite IH.
Qed.

Lemma group_thousands_places l :
  forallb not_comma l = true ->
  forall i, (i < List.length (group_thousands l))%nat ->
            nth i (group_thousands l) "0"%char = ","%char <-> i mod 4 = 3%nat.
Proof.
  induction l as [l Hl|a b c d rest IH] using group_thousands_ind; intros Hd i Hi.
  - rewrite group_thousands_short in * by exact Hl.
    assert (Hn : nth i l "0"%char <> ","%char).
    { intros E. rewrite forallb_forall in Hd.
      specialize (Hd (nth i l "0"%char) (nth_In l _ Hi)).
      rewrite E in Hd. discriminate Hd. }
    rewrite Nat.mod_small by lia. split; [now intros E|lia].
  - change (group_thousands (a :: b :: c :: d :: rest))
      with (a :: b :: c :: ","%char :: group_thousands (d :: rest)) in *.
    cbn [forallb] in Hd.
    apply andb_prop in Hd as [Ha Hd]. apply andb_prop in Hd as [Hb Hd].
    apply andb_prop in Hd as [Hc Hd].
    destruct i as [|[|[|[|i]]]]; cbn [nth].
    + split; [intros ->; discriminate Ha|discriminate].
    + split; [intros ->; discriminate Hb|discriminate].
    + split; [intros ->; discriminate Hc|discriminate].
    + split; reflexivity.
    + cbn [List.length] in Hi.
      rewrite (IH Hd i) by lia.
      replace (S (S (S (S i)))) with (i + 1 * 4)%nat by lia.
      now rewrite Nat.Div0.mod_add.
Qed.

Lemma filter_all {A} (f : A -> bool) l : forallb f l = true -> filter f l = l.
Proof.
  induction l as [|x l IH]; cbn [forallb filter]; [reflexivity|].
  intros H. apply andb_prop in H as [-> H]. now rewrite IH.
Qed.

Lemma digit_not_comma c : Json.is_digit c = true -> not_comma c = true.
Proof. destruct c as [[] [] [] [] [] [] [] []]; try reflexivity; discriminate. Qed.

Lemma digits_not_comma s :
  Json.all_digits s = true -> forallb not_comma (list_ascii_of_string s) = true.
Proof.
  induction s as [|c s IH]; cbn [Json.all_digits list_ascii_of_string forallb];
    [reflexivity|].
  intros H. apply andb_prop in H as [Hc Hs]. now rewrite (digit_not_comma c Hc), IH.
Qed.

Lemma str_nonneg_not_comma n :
  (0 <= n)%Z -> forallb not_comma (list_ascii_of_string (PyInt.str n)) = true.
Proof.
  intros Hn. destruct n as [|p|p]; [reflexivity| |lia].
  destruct (IntFacts.str_pos p) as (c & ds & -> & _ & Hc & _ & Hds).
  cbn [list_ascii_of_string forallb].
  now rewrite (digit_not_comma c Hc), (digits_not_comma ds Hds).
Qed.

Lemma forallb_rev {A} (f : A -> bool) l : forallb f (rev l) = forallb f l.
Proof.
  induction l as [|x l IH]; cbn [rev forallb]; [reflexivity|].
  rewrite forallb_app, IH. cbn [forallb]. rewrite andb_true_r. apply andb_comm.
Qed.

Lemma filter_rev_list {A} (f : A -> bool) l : filter f (rev l) = rev (filter f l).
Proof.
  induction l as [|x l IH]; cbn [rev filter]; [reflexivity|].
  rewrite filter_app, IH. cbn [filter].
  destruct (f x); [reflexivity|apply app_nil_r].
Qed.

Lemma grouped_without_commas n :
  (0 <= n)%Z ->
  filter not_comma
    (rev (group_thousands (rev (list_ascii_of_string (PyInt.str n)))))
  = list_ascii_of_string (PyInt.str n).
Proof.
  intros Hn. rewrite filter_rev_list, group_thousands_filter.
  rewrite <- filter_rev_list, rev_involutive.
  apply filter_all, str_nonneg_not_comma, Hn.
Qed.

(** X15: the totals of the summary are shown as [f"{n:,}"] shows
    them: without its commas the text is [str(n)], and in the text of
    the absolute value, counted from the right, every fourth place and
    no other holds a comma. *)
Theorem format_thousands_groups :
  forall n : Z,
    without_commas (format_thousands n) = PyInt.str n
    /\ (let places := rev (list_ascii_of_string (format_thousands (Z.abs n))) in
        forall i, (i < List.length places)%nat ->
                  nth i places "0"%char = ","%char <-> i mod 4 = 3%nat).
Proof.
  intros n. split.
  - unfold without_commas, format_thousands. fold not_comma.
    destruct (Z.ltb_spec n 0) as [Hneg|Hpos].
    + destruct n as [|p|p]; try lia. rewrite IntFacts.str_neg.
      cbn [list_ascii_of_string filter]. change (not_comma "-") with true.
      cbv iota. rewrite list_ascii_of_string_of_list_ascii.
      change (Z.abs (Z.neg p)) with (Z.pos p).
      rewrite grouped_without_commas by lia.
      cbn [string_of_list_ascii]. now rewrite string_of_list_ascii_of_string.
    + rewrite list_ascii_of_string_of_list_ascii, Z.abs_eq by exact Hpos.
      rewrite grouped_without_commas by exact Hpos.
      apply string_of_list_ascii_of_string.
  - intros places i Hi. unfold places, format_thousands in *.
    destruct (Z.ltb_spec (Z.abs n) 0) as [Hneg|_]; [lia|].
    rewrite list_ascii_of_string_of_list_ascii, rev_involutive in *.
    rewrite Z.abs_idemp in *.
    apply group_thousands_places; [|exact Hi].
    rewrite forallb_rev. apply str_nonneg_not_comma. lia.
Qed.

(* ================================================================== *)
(** ** The script as a whole *)

Lemma parse_arg_world st arg w : snd (parse_arg st arg w) = w.
Proof.
  destruct st as [l e]. unfold parse_arg.
  destruct (startswith arg "--limit=").
  - unfold bind, int. now destruct (PyInt.parse _).
  - now destruct (startswith arg "--api=").
Qed.

Lemma parse_args_world args : forall st w, snd (for_each args parse_arg st w) = w.
Proof.
  induction args as [|a args IH]; intros st w; cbn [for_each]; [reflexivity|].
  unfold bind. pose proof (parse_arg_world st a w) as H.
  destruct (parse_arg st a w) as [[st'|e] w']; cbn [snd] in H; subst w'.
  - apply IH.
  - reflexivity.
Qed.

Lemma print_summary_prints results w :
  exists ls, print_summary results w = (Returned tt, emit w ls).
Proof.
  destruct (commits results) as [|c cs] eqn:E.
  - eexists. unfold print_summary. rewrite E.
    unfold bind, print, ret, emit. cbn [console files].
    now rewrite <- !app_assoc.
  - eexists. apply print_summary_lines. now rewrite E.
Qed.

Lemma main_steps run urlopen argv limit api results w w1 :
  (2 <= List.length argv)%nat ->
  fst (for_each (skipn 2 argv) parse_arg (100%Z, None) w) = Returned (limit, api) ->
  analyze_repository run {| repo_path := nth 1 argv "" |} limit w
  = (Returned results, w1) ->
  main run urlopen argv w
  = ((if truthy api
      then send_to_api urlopen results
             (match api with Some e => e | None => "" end) ;; ret tt
      else ret tt) ;;
     print_summary results ;; ret 0%Z)
      (snd (save_to_json results "git_analysis.json" w1)).
Proof.
  intros Hlen Hargs Hrun. unfold main.
  destruct (Nat.ltb_spec (List.length argv) 2) as [H|_]; [lia|].
  unfold bind at 1.
  pose proof (parse_args_world (skipn 2 argv) (100%Z, None) w) as Hw.
  destruct (for_each (skipn 2 argv) parse_arg (100%Z, None) w) as [r w'].
  cbn [fst snd] in Hargs, Hw. subst r w'.
  unfold bind at 1. rewrite Hrun.
  unfold bind at 1. reflexivity.
Qed.

Lemma script_tail urlopen results api w2 :
  let out := ((if truthy api
               then send_to_api urlopen results
                      (match api with Some e => e | None => "" end) ;; ret tt
               else ret tt) ;;
              print_summary results ;; ret 0%Z) w2 in
  files (snd out) = files w2
  /\ fst out = match api with
               | Some endpoint =>
                   if (endpoint =? "")%string then Returned 0%Z
                   else match urlopen (post_request results endpoint) with
                        | Escaped e => Raised e
                        | _ => Returned 0%Z
                        end
               | None => Returned 0%Z
               end.
Proof.
  destruct api as [endpoint|]; cbn [truthy];
    [destruct (endpoint =? "")%string; cbn [negb];
     [|unfold send_to_api; fold (post_request results endpoint);
       destruct (urlopen (post_request results endpoint))]|];
    unfold bind, print, ret, raise;
    try match goal with
        | |- context [print_summary results ?w] =>
            destruct (print_summary_prints results w) as [ls ->]
        end;
    split; reflexivity.
Qed.

(** X16: once the arguments are read and the analysis has returned a
    report, the script saves it under the name git_analysis.json before
    anything is sent, and neither the post nor the summary touches a
    file: whatever the network answers, refuses or raises, the files at
    the end of the script are the files that [save_to_json] left. *)
Theorem main_saves_before_sending :
  forall run urlopen argv limit api results w w1,
    (2 <= List.length argv)%nat ->
    fst (for_each (skipn 2 argv) parse_arg (100%Z, None) w) = Returned (limit, api) ->
    analyze_repository run {| repo_path := nth 1 argv "" |} limit w
    = (Returned results, w1) ->
    files (snd (main run urlopen argv w))
    = files (snd (save_to_json results "git_analysis.json" w1)).
Proof.
  intros run urlopen argv limit api results w w1 Hlen Hargs Hrun.
  rewrite (main_steps run urlopen argv limit api results w w1 Hlen Hargs Hrun).
  set (w2 := snd (save_to_json results "git_analysis.json" w1)).
  destruct (script_tail urlopen results api w2) as [Hfiles _].
  exact Hfiles.
Qed.

Lemma main_saves_before_sending_witness :
  exists results w1,
    analyze_repository plain_git {| repo_path := "/srv/proj" |} 5 empty_world
    = (Returned results, w1)
    /\ files (snd (main plain_git offline_net
                     ["gitslurp.py"; "/srv/proj"; "--limit=5";
                      "--api=http://localhost:3000/api"]
                     empty_world))
       = files (snd (save_to_json results "git_analysis.json" w1)).
Proof.
  assert (Hrun : exists results w1,
             analyze_repository plain_git {| repo_path := "/srv/proj" |} 5 empty_world
             = (Returned results, w1)).
  { vm_compute. eexists. eexists. reflexivity. }
  destruct Hrun as (results & w1 & Hrun). exists results, w1. split; [exact Hrun|].
  apply (main_saves_before_sending plain_git offline_net
           ["gitslurp.py"; "/srv/proj"; "--limit=5"; "--api=http://localhost:3000/api"]
           5%Z (Some "http://localhost:3000/api") results empty_world w1).
  - cbn. lia.
  - reflexivity.
  - exact Hrun.
Defined.

(** X17: a limit argument that [int] cannot read stops the script with
    [ValueError] while the arguments are read: no git command has been
    run, nothing has been printed and no file written. *)
Theorem unreadable_limit_stops_script :
  forall run urlopen argv before s after w,
    skipn 2 argv = before ++ ("--limit=" ++ s)%string :: after ->
    (exists st, fst (for_each before parse_arg (100%Z, None) w) = Returned st) ->
    PyInt.parse (nth 1 (PyStr.split "=" ("--limit=" ++ s)) "") = None ->
    main run urlopen argv w = (Raised ValueError, w).
Proof.
  intros run urlopen argv before s after w Hargv [st Hbefore] Hp.
  unfold main.
  destruct (Nat.ltb_spec (List.length argv) 2) as [H|_].
  { rewrite skipn_all2 in Hargv by lia. now destruct before. }
  unfold bind at 1. rewrite Hargv.
  pose proof (parse_args_world before (100%Z, None) w) as Hw.
  destruct (for_each before parse_arg (100%Z, None) w) as [r w'] eqn:E.
  cbn [fst snd] in Hbefore, Hw. subst r w'.
  now rewrite (parse_unreadable_limit before s after (100%Z, None) st w E Hp).
Qed.

Lemma unreadable_limit_stops_script_witness :
  main plain_git offline_net
    ["gitslurp.py"; "/srv/proj"; "--api=http://localhost:3000/api"; "--limit=fifty"]
    empty_world
  = (Raised ValueError, empty_world).
Proof.
  apply (unreadable_limit_stops_script plain_git offline_net
           ["gitslurp.py"; "/srv/proj"; "--api=http://localhost:3000/api"; "--limit=fifty"]
           ["--api=http://localhost:3000/api"] "fifty" [] empty_world).
  - reflexivity.
  - eexists. reflexivity.
  - reflexivity.
Defined.
